(** * hdfscm: the HDFS contents manager, embedded and verified

    A shallow embedding of [hdfscm/hdfsmanager.py] (class
    [HDFSContentsManager]).  Python values are an inductive type, dicts are
    finite maps, the HDFS client is a type class over an explicit filesystem
    state, and methods run in a state-and-exception monad. *)

From Stdlib Require Import ZArith NArith String List Lia.
From Stdlib.Strings Require Import Ascii Byte.
From stdpp Require Import base option gmap strings list.

Set Warnings "-register-all".
Open Scope string_scope.

(** ** Python values *)

(** [str] is a Rocq [string] holding the UTF-8 bytes of the text (a lone
    surrogate, which Python can hold in a [str], is held in its generalised
    three-byte form, which is not valid UTF-8); [bytes] is a list of bytes. *)
Definition bytes := list byte.

Inductive value :=
| VNone
| VBool (b : bool)
| VInt (n : Z)
| VStr (s : string)
| VDatetime (t : Z)
| VList (l : list value)
| VDict (d : gmap string value).

(** The dicts that flow through the contents API. *)
Abbreviation Model := (gmap string value).

(** [v == 'lit'] for a string literal. *)
Definition eq_str (v : value) (lit : string) : bool :=
  match v with
  | VStr s => String.eqb s lit
  | _ => false
  end.

(** [v is None] *)
Definition is_None (v : value) : bool :=
  match v with
  | VNone => true
  | _ => false
  end.

Definition of_option {A} (f : A → value) (o : option A) : value :=
  match o with
  | Some a => f a
  | None => VNone
  end.

(** ** str methods used by the manager *)

Definition startswith (s pre : string) : bool := String.prefix pre s.

Definition endswith (s suf : string) : bool :=
  (String.length suf <=? String.length s)%nat
  && String.eqb
       (String.substring (String.length s - String.length suf)
                         (String.length suf) s) suf.

(** [s[n:]] *)
Fixpoint drop_chars (n : nat) (s : string) : string :=
  match n, s with
  | S n', String _ r => drop_chars n' r
  | _, _ => s
  end.

Fixpoint rsplit_go (s cur : string) : string :=
  match s with
  | EmptyString => cur
  | String c r =>
      if Ascii.eqb c "/" then rsplit_go r r else rsplit_go r cur
  end.

(** [s.rsplit('/', 1)[-1]]: what follows the last slash, or all of [s]. *)
Definition rsplit_last (s : string) : string := rsplit_go s s.

(** ** Codecs of the Python standard library *)

Definition in_range (lo hi n : N) : bool := ((lo <=? n) && (n <=? hi))%N.
Definition cont (n : N) : bool := in_range 128 191 n.

(** Well-formed UTF-8 byte sequences (Unicode table 3-7), as CPython's strict
    decoder accepts them: no overlong form, no surrogate, nothing above
    U+10FFFF. *)
Fixpoint utf8_valid (l : list N) : bool :=
  match l with
  | [] => true
  | b0 :: t0 =>
      if (b0 <=? 127)%N then utf8_valid t0
      else match t0 with
      | [] => false
      | b1 :: t1 =>
          if in_range 194 223 b0 then cont b1 && utf8_valid t1
          else match t1 with
          | [] => false
          | b2 :: t2 =>
              if (b0 =? 224)%N then
                in_range 160 191 b1 && cont b2 && utf8_valid t2
              else if in_range 225 236 b0 || in_range 238 239 b0 then
                cont b1 && cont b2 && utf8_valid t2
              else if (b0 =? 237)%N then
                in_range 128 159 b1 && cont b2 && utf8_valid t2
              else match t2 with
              | [] => false
              | b3 :: t3 =>
                  if (b0 =? 240)%N then
                    in_range 144 191 b1 && cont b2 && cont b3 && utf8_valid t3
                  else if in_range 241 243 b0 then
                    cont b1 && cont b2 && cont b3 && utf8_valid t3
                  else if (b0 =? 244)%N then
                    in_range 128 143 b1 && cont b2 && cont b3 && utf8_valid t3
                  else false
              end
          end
      end
  end.

(** [b.decode('utf8')]; [None] stands for [UnicodeDecodeError]. *)
Definition decode_utf8 (b : bytes) : option string :=
  if utf8_valid (map Byte.to_N b) then Some (string_of_list_byte b) else None.

(** [s.encode('utf8')]; [None] stands for [UnicodeEncodeError] (a surrogate). *)
Definition encode_utf8 (s : string) : option bytes :=
  let b := list_byte_of_string s in
  if utf8_valid (map Byte.to_N b) then Some b else None.

Definition is_ascii (b : byte) : bool := (Byte.to_N b <=? 127)%N.

(** [b.decode('ascii')] *)
Definition decode_ascii (b : bytes) : option string :=
  if forallb is_ascii b then Some (string_of_list_byte b) else None.

(** [s.encode('ascii')] *)
Definition encode_ascii (s : string) : option bytes :=
  let b := list_byte_of_string s in
  if forallb is_ascii b then Some b else None.

Definition b64_alphabet : bytes :=
  list_byte_of_string
    "ABCDEFGHIJKLMNOPQRSTUVWXYZabcdefghijklmnopqrstuvwxyz0123456789+/".

Definition b64_pad : byte := "="%byte.
Definition b64_newline : byte := "010"%byte.

Definition b64_char (i : N) : byte := nth (N.to_nat i) b64_alphabet b64_pad.

(** The base64 quads of a chunk, padded at the end. *)
Fixpoint b64_quads (l : bytes) : bytes :=
  match l with
  | [] => []
  | [a] =>
      let n := (Byte.to_N a * 16)%N in
      [b64_char (n / 64); b64_char (n mod 64); b64_pad; b64_pad]
  | [a; b] =>
      let n := ((Byte.to_N a * 256 + Byte.to_N b) * 4)%N in
      [b64_char (n / 4096); b64_char ((n / 64) mod 64); b64_char (n mod 64);
       b64_pad]
  | a :: b :: c :: r =>
      let n := ((Byte.to_N a * 256 + Byte.to_N b) * 256 + Byte.to_N c)%N in
      b64_char (n / 262144) :: b64_char ((n / 4096) mod 64)
        :: b64_char ((n / 64) mod 64) :: b64_char (n mod 64) :: b64_quads r
  end.

(** [binascii.b2a_base64(chunk)]: the quads and a newline. *)
Definition b2a_base64 (chunk : bytes) : bytes :=
  (b64_quads chunk ++ [b64_newline])%list.

Definition MAXBINSIZE : nat := 57.

Fixpoint encode_lines (fuel : nat) (s : bytes) : bytes :=
  match fuel with
  | O => []
  | S fuel' =>
      match s with
      | [] => []
      | _ => (b2a_base64 (take MAXBINSIZE s)
                ++ encode_lines fuel' (drop MAXBINSIZE s))%list
      end
  end.

(** [base64.encodebytes(s)]: one line of output per 57 bytes of input. *)
Definition encodebytes (s : bytes) : bytes := encode_lines (length s) s.

(** ** Exceptions and the method monad *)

(** [HTTPError] carries its status and its message.  An exception that
    library code raises carries a short text in place of the interpreter's
    message. *)
Inductive exn :=
| HTTPError (status : Z) (msg : string)
| PermissionError (msg : string)
| OSError (msg : string)
| KeyError (key : string)
| Exception (msg : string).

(** [str(e)] *)
Definition str_exn (e : exn) : string :=
  match e with
  | HTTPError _ msg => msg
  | PermissionError msg => msg
  | OSError msg => msg
  | KeyError key => "'" ++ key ++ "'"
  | Exception msg => msg
  end.

Inductive outcome (A : Type) :=
| Return (a : A)
| Raise (e : exn).
Arguments Return {A} a.
Arguments Raise {A} e.

(** A method: it runs on a filesystem state and returns or raises, leaving a
    filesystem state behind in both cases. *)
Definition Py (FS A : Type) : Type := FS → outcome A * FS.

Definition ret {FS A} (a : A) : Py FS A := λ s, (Return a, s).
Definition raise {FS A} (e : exn) : Py FS A := λ s, (Raise e, s).

Definition bind {FS A B} (m : Py FS A) (k : A → Py FS B) : Py FS B :=
  λ s, match m s with
       | (Return a, s') => k a s'
       | (Raise e, s') => (Raise e, s')
       end.

(** [try: body  except Exception as e: handler(e)] *)
Definition try_except {FS A} (body : Py FS A) (handler : exn → Py FS A)
  : Py FS A :=
  λ s, match body s with
       | (Return a, s') => (Return a, s')
       | (Raise e, s') => handler e s'
       end.

Notation "'let*' x ':=' m 'in' k" := (bind m (λ x, k))
  (at level 10, x pattern, m at level 100, k at level 200).
Notation "m ';;' k" := (bind m (λ _, k))
  (at level 100, k at level 200, right associativity).

(** [d[key]] *)
Definition getitem {FS} (d : Model) (key : string) : Py FS value :=
  match d !! key with
  | Some v => ret v
  | None => raise (KeyError key)
  end.

(** [d.get(key)] *)
Definition dict_get (d : Model) (key : string) : value :=
  default VNone (d !! key).

(** A [str] taken out of a value for a call that needs one. *)
Definition as_str {FS} (v : value) : Py FS string :=
  match v with
  | VStr s => ret s
  | _ => raise (Exception "TypeError")
  end.

Fixpoint mapM {FS A B} (f : A → Py FS B) (l : list A) : Py FS (list B) :=
  match l with
  | [] => ret []
  | a :: r => let* b := f a in let* bs := mapM f r in ret (b :: bs)
  end.

Fixpoint filterM {FS A} (f : A → Py FS bool) (l : list A) : Py FS (list A) :=
  match l with
  | [] => ret []
  | a :: r =>
      let* keep := f a in
      let* rest := filterM f r in
      ret (if keep then a :: rest else rest)
  end.

(** ** Vocabulary for the properties *)

(** A computation that only reads: it leaves the state as it is, and its
    outcome satisfies [Q]. *)
Definition reads {FS A} (Q : outcome A → Prop) (s : FS) (m : Py FS A)
  : Prop :=
  ∃ r, m s = (r, s) ∧ Q r.

(** An outcome that raises nothing outside [E]. *)
Definition raises_only (E : exn → Prop) {A} (r : outcome A) : Prop :=
  match r with
  | Return _ => True
  | Raise e => E e
  end.

(** Any exception but a 404. *)
Definition not_404 (e : exn) : Prop := ∀ msg, e ≠ HTTPError 404 msg.

(** An exception that is no raw [PermissionError], and whose status, when it
    is an [HTTPError], is among [statuses]. *)
Definition surfaced (statuses : list Z) (e : exn) : Prop :=
  match e with
  | PermissionError _ => False
  | HTTPError status _ => status ∈ statuses
  | _ => True
  end.

(** An [HTTPError] whose status is among [statuses]. *)
Definition http_only (statuses : list Z) (e : exn) : Prop :=
  match e with
  | HTTPError status _ => status ∈ statuses
  | _ => False
  end.

Fixpoint contains_slash (s : string) : bool :=
  match s with
  | EmptyString => false
  | String c r => Ascii.eqb c "/" || contains_slash r
  end.

(** ** The HDFS client ([pyarrow.fs]) *)

Module fs.

Inductive FileType := NotFound | Unknown | File | Directory.

Definition FileType_eqb (a b : FileType) : bool :=
  match a, b with
  | NotFound, NotFound | Unknown, Unknown | File, File
  | Directory, Directory => true
  | _, _ => false
  end.

Record FileInfo := mkFileInfo {
  path : string;
  type : FileType;
  size : option Z;
  mtime : option Z
}.

(** What a call to the client can fail with: the backend denied access
    ([PermissionError]), or anything else it reports ([OSError]). *)
Inductive error :=
| EPermission (msg : string)
| EIO (msg : string).

(** [HadoopFileSystem]: the calls the manager makes, over an explicit
    filesystem state.  Reads leave the state as it is; the others return the
    state they leave, also when they fail.  [open_input_stream] is the stream
    read to its end, [open_output_stream] the stream given the bytes and
    closed; [get_file_info_selector] is [get_file_info] on a
    [FileSelector]. *)
Class HadoopFileSystem (FS : Type) := {
  get_file_info : FS → string → error + FileInfo;
  get_file_info_selector : FS → string → bool → error + list FileInfo;
  open_input_stream : FS → string → error + bytes;
  open_output_stream : string → bytes → FS → option error * FS;
  create_dir : string → FS → option error * FS;
  delete_dir : string → FS → option error * FS;
  delete_file : string → FS → option error * FS;
  move : string → string → FS → option error * FS
}.

End fs.

Definition fs_exn (e : fs.error) : exn :=
  match e with
  | fs.EPermission msg => PermissionError msg
  | fs.EIO msg => OSError msg
  end.

Definition fs_read {FS A} (f : FS → fs.error + A) : Py FS A :=
  λ s, match f s with
       | inl e => (Raise (fs_exn e), s)
       | inr a => (Return a, s)
       end.

Definition fs_write {FS} (f : FS → option fs.error * FS) : Py FS unit :=
  λ s, match f s with
       | (Some e, s') => (Raise (fs_exn e), s')
       | (None, s') => (Return tt, s')
       end.

(** ** hdfscm.utils *)

(** The path helpers of [hdfscm/utils.py], which the manager imports; they
    are taken as parameters here, and [PathMapper] below gives the instance
    the specification describes. *)
Class Utils := {
  to_fs_path : string → string → string;
  to_api_path : string → string → string + string;
  is_hidden : string → string → bool;
  get_prefix_from_fs_path : string → string → string → string;
  get_prefix_from_hdfs_path : string → string → string → string
}.

(** Modelled from the spec: [utils.perm_to_403] is not among the sources.
    Section 4.3: a backend operation run inside it that fails for lack of
    backend permission becomes the uniform forbidden outcome (403); every
    other failure propagates unchanged.  The text of the message is not
    given there. *)
Definition perm_to_403 {FS A} (path : string) (body : Py FS A) : Py FS A :=
  try_except body
    (λ e, match e with
          | PermissionError _ =>
              raise (HTTPError 403 ("Permission denied: " ++ path))
          | _ => raise e
          end).

(** ** Collaborators *)

(** Library and base-class calls the manager makes and does not define. *)
Class Collaborators := {
  (** [mimetypes.guess_type(path)[0]] *)
  guess_type : string → option string;
  (** [repr(v)] *)
  repr : value → string;
  (** [base64.decodebytes]; [inl] carries the text of [binascii.Error] *)
  decodebytes : bytes → string + bytes;
  (** [nbformat.reads(s, as_version=4)]; [inl] carries the [repr] of what
      it raised *)
  nbformat_reads : string → string + value;
  (** [nbformat.from_dict] *)
  nbformat_from_dict : value → value;
  (** [nbformat.writes(nb, version=nbformat.NO_CONVERT)] *)
  nbformat_writes : value → string;
  (** [ContentsManager.should_list] *)
  should_list : string → bool;
  (** [ContentsManager.mark_trusted_cells], which updates the notebook *)
  mark_trusted_cells : value → string → value;
  (** notebook validation: it raises ([inl]), passes ([inr None]), or
      reports a message for the model ([inr (Some msg)]) *)
  validate_nb : value → string + option string;
  (** [str(kind)], which ['%s' % kind] calls: [fs.FileType] is an
      [enum.IntEnum], whose text is the name of the member before
      Python 3.11 and its integer value from then on *)
  FileType_str : fs.FileType → string
}.

(** The traits of the manager that the methods read. *)
Record Config := mkConfig {
  root_dir : string;
  shared_dir : string;
  allow_hidden : bool;
  (** [getattr(self.checkpoints, 'checkpoint_dir', None)] *)
  checkpoint_dir : option string
}.

(** ** HDFSContentsManager *)

Section HDFSContentsManager.
Context {FS : Type} `{!fs.HadoopFileSystem FS} `{!Utils} `{!Collaborators}.
Variable self : Config.

Local Abbreviation M := (Py FS).

Definition ensure_root_directory : M unit :=
  fs_write (fs.create_dir (root_dir self));;
  fs_write (fs.create_dir (root_dir self ++ "/shared")).

Definition is_file (hdfs_path : string) : M bool :=
  let* info := fs_read (λ s, fs.get_file_info s hdfs_path) in
  ret (fs.FileType_eqb (fs.type info) fs.File).

Definition is_dir (hdfs_path : string) : M bool :=
  let* info := fs_read (λ s, fs.get_file_info s hdfs_path) in
  ret (fs.FileType_eqb (fs.type info) fs.Directory).

Definition path_exist (hdfs_path : string) : M bool :=
  let* info := fs_read (λ s, fs.get_file_info s hdfs_path) in
  ret (negb (fs.FileType_eqb (fs.type info) fs.NotFound)).

Definition list_dir (hdfs_path : string) : M (list fs.FileInfo) :=
  fs_read (λ s, fs.get_file_info_selector s hdfs_path false).

Definition infer_type (path : string) : M string :=
  if endswith path ".ipynb" then ret "notebook"
  else
    let* d := is_dir path in
    if d then ret "directory" else ret "file".

Definition file_exists (path : string) : M bool :=
  let hdfs_path :=
    to_fs_path path
      (get_prefix_from_fs_path path (root_dir self) (shared_dir self)) in
  is_file hdfs_path.

Definition dir_exists (path : string) : M bool :=
  let hdfs_path :=
    to_fs_path path
      (get_prefix_from_fs_path path (root_dir self) (shared_dir self)) in
  is_dir hdfs_path.

(** The method [is_hidden], next to the helper of [hdfscm.utils]. *)
Definition is_hidden_ (path : string) : bool :=
  let hdfs_path :=
    to_fs_path path
      (get_prefix_from_fs_path path (root_dir self) (shared_dir self)) in
  is_hidden hdfs_path
    (get_prefix_from_hdfs_path hdfs_path (root_dir self) (shared_dir self)).

(** [exists]: its argument is an API path, which it maps to an HDFS path. *)
Definition exists_ (path : string) : M bool :=
  let hdfs_path :=
    to_fs_path path
      (get_prefix_from_fs_path path (root_dir self) (shared_dir self)) in
  path_exist hdfs_path.

Definition _info_and_check_kind (path hdfs_path : string) (kind : fs.FileType)
  : M fs.FileInfo :=
  let* info := fs_read (λ s, fs.get_file_info s hdfs_path) in
  if fs.FileType_eqb (fs.type info) fs.NotFound then
    raise (HTTPError 404 (FileType_str kind ++ " does not exist: " ++ path))
  else if negb (fs.FileType_eqb (fs.type info) kind) then
    raise (HTTPError 400 (path ++ " is not a " ++ FileType_str kind))
  else ret info.

Definition _model_from_info (info : fs.FileInfo) (type : value) : M Model :=
  let hdfs_path := fs.path info in
  let timestamp := of_option VDatetime (fs.mtime info) in
  match
    to_api_path hdfs_path
      (get_prefix_from_hdfs_path hdfs_path (root_dir self) (shared_dir self))
  with
  | inl e => raise (Exception e)
  | inr path =>
      let name := rsplit_last path in
      let type :=
        if is_None type then
          if fs.FileType_eqb (fs.type info) fs.Directory then VStr "directory"
          else if endswith path ".ipynb" then VStr "notebook"
          else VStr "file"
        else type in
      let mimetype :=
        if eq_str type "file" then of_option VStr (guess_type path)
        else VNone in
      let size :=
        if negb (eq_str type "directory") then of_option VInt (fs.size info)
        else VNone in
      ret (<["name" := VStr name]>
          (<["path" := VStr path]>
          (<["last_modified" := timestamp]>
          (<["created" := timestamp]>
          (<["type" := type]>
          (<["size" := size]>
          (<["mimetype" := mimetype]>
          (<["content" := VNone]>
          (<["format" := VNone]>
          (<["writable" := VBool true]> ∅))))))))))
  end.

Definition _dir_model (path hdfs_path : string) (content : bool) : M Model :=
  let* info := _info_and_check_kind path hdfs_path fs.Directory in
  let* model := _model_from_info info (VStr "directory") in
  if content then
    let* records := perm_to_403 path (list_dir hdfs_path) in
    let* contents := mapM (λ i, _model_from_info i VNone) records in
    let* listed :=
      filterM (λ c : Model,
                 let* v := getitem c "name" in
                 let* n := as_str v in
                 ret (should_list n && negb (startswith n ".")))
              contents in
    let model := <["content" := VList (map VDict listed)]> model in
    let model := <["format" := VStr "json"]> model in
    ret model
  else ret model.

Definition _read_file (path hdfs_path : string) (format : value)
  : M (string * string) :=
  let* f := is_file hdfs_path in
  if negb f then raise (HTTPError 400 ("Cannot read non-file " ++ path))
  else
    let* bcontent :=
      perm_to_403 path (fs_read (λ s, fs.open_input_stream s hdfs_path)) in
    let base64 : M (string * string) :=
      match decode_ascii (encodebytes bcontent) with
      | Some b64 => ret (b64, "base64")
      | None => raise (Exception "UnicodeDecodeError")
      end in
    if is_None format then
      match decode_utf8 bcontent with
      | Some text => ret (text, "text")
      | None => base64
      end
    else if eq_str format "text" then
      match decode_utf8 bcontent with
      | Some text => ret (text, "text")
      | None => raise (HTTPError 400 (path ++ " is not UTF-8 encoded"))
      end
    else base64.

Definition _file_model (path hdfs_path : string) (content : bool)
  (format : value) : M Model :=
  let* info := _info_and_check_kind path hdfs_path fs.File in
  let* model := _model_from_info info (VStr "file") in
  if content then
    let* (content, format) := _read_file path hdfs_path format in
    let* mimetype := getitem model "mimetype" in
    let* model :=
      if is_None mimetype then
        let* default_type :=
          getitem (<["text" := VStr "text/plain"]>
                  (<["base64" := VStr "application/octet-stream"]> ∅))
                  format in
        ret (<["mimetype" := default_type]> model)
      else ret model in
    ret (<["format" := VStr format]> (<["content" := VStr content]> model))
  else ret model.

Definition _read_notebook (path hdfs_path : string) : M value :=
  let* content :=
    perm_to_403 path (fs_read (λ s, fs.open_input_stream s hdfs_path)) in
  let unreadable (e : string) : M value :=
    raise (HTTPError 400
             ("Unreadable Notebook: " ++ path ++ String "010" e)) in
  match decode_utf8 content with
  | None => unreadable "UnicodeDecodeError"
  | Some text =>
      match nbformat_reads text with
      | inl e => unreadable e
      | inr nb => ret nb
      end
  end.

(** Inherited from the notebook server's [ContentsManager]: the notebook in
    [model['content']] is validated and a failure is left in
    [model['message']]. *)
Definition validate_notebook_model (model : Model) : M Model :=
  let* nb := getitem model "content" in
  match validate_nb nb with
  | inl e => raise (Exception e)
  | inr None => ret model
  | inr (Some msg) => ret (<["message" := VStr msg]> model)
  end.

Definition _notebook_model (path hdfs_path : string) (content : bool)
  : M Model :=
  let* info := _info_and_check_kind path hdfs_path fs.File in
  let* model := _model_from_info info (VStr "notebook") in
  if content then
    let* contents := _read_notebook path hdfs_path in
    let contents := mark_trusted_cells contents path in
    let model := <["content" := contents]> model in
    let model := <["format" := VStr "json"]> model in
    validate_notebook_model model
  else ret model.

Definition get (path : string) (content : bool) (type format : value)
  : M Model :=
  let hdfs_path :=
    to_fs_path path
      (get_prefix_from_fs_path path (root_dir self) (shared_dir self)) in
  let* found := path_exist hdfs_path in
  if negb found then
    raise (HTTPError 404 ("No such file or directory: " ++ path))
  else if negb (allow_hidden self)
          && is_hidden hdfs_path
               (get_prefix_from_hdfs_path hdfs_path
                  (root_dir self) (shared_dir self)) then
    raise (HTTPError 404 ("No such file or directory: " ++ path))
  else
    let* type :=
      if is_None type then
        let* t := infer_type hdfs_path in ret (VStr t)
      else ret type in
    if eq_str type "directory" then _dir_model path hdfs_path content
    else if eq_str type "notebook" then _notebook_model path hdfs_path content
    else _file_model path hdfs_path content format.

Definition _save_directory (path hdfs_path : string) : M unit :=
  if negb (allow_hidden self)
     && is_hidden hdfs_path
          (get_prefix_from_hdfs_path hdfs_path
             (root_dir self) (shared_dir self)) then
    raise (HTTPError 400
             ("Cannot create hidden directory " ++ repr (VStr path)))
  else
    let* found := exists_ hdfs_path in
    if negb found then perm_to_403 path (fs_write (fs.create_dir hdfs_path))
    else
      let* d := is_dir hdfs_path in
      if negb d then raise (HTTPError 400 ("Not a directory: " ++ path))
      else ret tt.

(** [v in {'text', 'base64'}]: the set hashes [v], and a list or a dict has
    no hash. *)
Definition in_text_base64 (v : value) : M bool :=
  match v with
  | VList _ | VDict _ => raise (Exception "TypeError")
  | _ => ret (eq_str v "text" || eq_str v "base64")
  end.

(** [content.encode(codec)]: only a [str] has the method. *)
Definition encode (codec : string → option bytes) (content : value)
  : M bytes :=
  match content with
  | VStr s =>
      match codec s with
      | Some b => ret b
      | None => raise (Exception "UnicodeEncodeError")
      end
  | _ => raise (Exception "AttributeError")
  end.

Definition _save_file (path hdfs_path : string) (model : Model) : M unit :=
  let* format := getitem model "format" in
  let* content := getitem model "content" in
  let* known := in_text_base64 format in
  if negb known then
    raise (HTTPError 400
             "Must specify format of file contents as 'text' or 'base64'")
  else
    let* bcontent :=
      try_except
        (if eq_str format "text" then encode encode_utf8 content
         else
           let* b64_bytes := encode encode_ascii content in
           match decodebytes b64_bytes with
           | inr b => ret b
           | inl e => raise (Exception e)
           end)
        (λ e, raise (HTTPError 400
                       ("Encoding error saving " ++ path ++ ": "
                        ++ str_exn e))) in
    perm_to_403 path (fs_write (fs.open_output_stream hdfs_path bcontent)).

(** [check_and_sign(nb, path)] records a signature with the notary and
    changes neither the notebook nor the filesystem. *)
Definition _save_notebook (path hdfs_path : string) (model : Model)
  : M value :=
  let* c := getitem model "content" in
  let nb := nbformat_from_dict c in
  let content := nbformat_writes nb in
  let* bcontent := encode encode_utf8 (VStr content) in
  perm_to_403 path (fs_write (fs.open_output_stream hdfs_path bcontent));;
  let* model := validate_notebook_model model in
  ret (dict_get model "message").

(** ["%s" % v] *)
Definition format_s (v : value) : string :=
  match v with
  | VStr s => s
  | _ => repr v
  end.

Definition save (model : Model) (path : string) : M Model :=
  match model !! "type" with
  | None => raise (HTTPError 400 "No file type provided")
  | Some typ =>
      if negb (bool_decide (is_Some (model !! "content")))
         && negb (eq_str typ "directory") then
        raise (HTTPError 400 "No file content provided")
      else
        let hdfs_path :=
          to_fs_path path
            (get_prefix_from_fs_path path (root_dir self) (shared_dir self)) in
        let* message :=
          if eq_str typ "notebook" then _save_notebook path hdfs_path model
          else if eq_str typ "file" then
            _save_file path hdfs_path model;; ret VNone
          else if eq_str typ "directory" then
            _save_directory path hdfs_path;; ret VNone
          else
            raise (HTTPError 400
                     ("Unhandled contents type: " ++ format_s typ)) in
        let* model := get path false typ VNone in
        if negb (is_None message) then ret (<["message" := message]> model)
        else ret model
  end.

Definition _is_dir_empty (path hdfs_path : string) : M bool :=
  let* files := perm_to_403 path (list_dir hdfs_path) in
  match files with
  | [] => ret true
  | _ =>
      let cp_dir : gset string :=
        match checkpoint_dir self with
        | Some d => {[ d ]}
        | None => ∅
        end in
      let files : gset string :=
        list_to_set (map (λ f, rsplit_last (fs.path f)) files) ∖ cp_dir in
      ret (bool_decide (files = ∅))
  end.

Definition delete_file (path : string) : M unit :=
  let hdfs_path :=
    to_fs_path path
      (get_prefix_from_fs_path path (root_dir self) (shared_dir self)) in
  let* found := path_exist hdfs_path in
  if negb found then
    raise (HTTPError 404 ("File or directory does not exist: " ++ path))
  else
    let* d := is_dir hdfs_path in
    if d then
      let* empty := _is_dir_empty path hdfs_path in
      if negb empty then
        raise (HTTPError 400 ("Directory " ++ path ++ " not empty"))
      else perm_to_403 path (fs_write (fs.delete_dir hdfs_path))
    else perm_to_403 path (fs_write (fs.delete_file hdfs_path)).

Definition rename_file (old_path new_path : string) : M unit :=
  if String.eqb old_path new_path then ret tt
  else
    let old_hdfs_path :=
      to_fs_path old_path
        (get_prefix_from_fs_path old_path (root_dir self) (shared_dir self)) in
    let new_hdfs_path :=
      to_fs_path new_path
        (get_prefix_from_fs_path new_path (root_dir self) (shared_dir self)) in
    let* taken := path_exist new_hdfs_path in
    if taken then
      raise (HTTPError 409 ("File already exists: " ++ new_path))
    else
      try_except
        (perm_to_403 old_path (fs_write (fs.move old_hdfs_path new_hdfs_path)))
        (λ e, match e with
              | HTTPError _ _ => raise e
              | _ =>
                  raise (HTTPError 500
                           ("Unknown error renaming file: " ++ old_path
                            ++ String "010" (str_exn e)))
              end).

(** *** Vocabulary for the properties *)

(** What [get] does once the entry is found and may be served. *)
Definition build_model (path hdfs_path : string) (content : bool)
  (type format : value) : M Model :=
  let* type :=
    if is_None type then
      let* t := infer_type hdfs_path in ret (VStr t)
    else ret type in
  if eq_str type "directory" then _dir_model path hdfs_path content
  else if eq_str type "notebook" then _notebook_model path hdfs_path content
  else _file_model path hdfs_path content format.

(** The API path of an entry, as [_model_from_info] computes it. *)
Definition api_path_of (info : fs.FileInfo) : string + string :=
  to_api_path (fs.path info)
    (get_prefix_from_hdfs_path (fs.path info) (root_dir self)
       (shared_dir self)).

(** The dict that [_model_from_info] builds, once the API path is known. *)
Definition model_of_info (info : fs.FileInfo) (type : value) (path : string)
  : Model :=
  let timestamp := of_option VDatetime (fs.mtime info) in
  let name := rsplit_last path in
  let type :=
    if is_None type then
      if fs.FileType_eqb (fs.type info) fs.Directory then VStr "directory"
      else if endswith path ".ipynb" then VStr "notebook"
      else VStr "file"
    else type in
  let mimetype :=
    if eq_str type "file" then of_option VStr (guess_type path)
    else VNone in
  let size :=
    if negb (eq_str type "directory") then of_option VInt (fs.size info)
    else VNone in
  <["name" := VStr name]>
    (<["path" := VStr path]>
    (<["last_modified" := timestamp]>
    (<["created" := timestamp]>
    (<["type" := type]>
    (<["size" := size]>
    (<["mimetype" := mimetype]>
    (<["content" := VNone]>
    (<["format" := VNone]>
    (<["writable" := VBool true]> ∅))))))))).

(** Whether [_dir_model] keeps a child in its listing. *)
Definition listable (c : Model) : bool :=
  match c !! "name" with
  | Some (VStr n) => should_list n && negb (startswith n ".")
  | _ => false
  end.

(** Values that a set can hash. *)
Definition hashable (v : value) : Prop :=
  match v with
  | VList _ | VDict _ => False
  | _ => True
  end.

(** A child entry that the checkpoint directory name does not account for. *)
Definition remains (files : list fs.FileInfo) : Prop :=
  ∃ f, f ∈ files ∧ Some (rsplit_last (fs.path f)) ≠ checkpoint_dir self.

End HDFSContentsManager.

(** [info.mtime] as it enters a model. *)
Definition timestamp_of (info : fs.FileInfo) : value :=
  of_option VDatetime (fs.mtime info).

(** Both time fields of a model hold [t]. *)
Definition stamped (t : value) (m : Model) : Prop :=
  m !! "created" = Some t ∧ m !! "last_modified" = Some t.

(** The children a directory model lists carry the timestamps of their own
    metadata. *)
Definition listing_stamped (records : list fs.FileInfo) (m : Model) : Prop :=
  ∀ l, m !! "content" = Some (VList l) →
    Forall (λ c, ∃ d i, c = VDict d ∧ i ∈ records
                        ∧ stamped (timestamp_of i) d) l.


(** ** PathMapper *)

Module PathMapper.

(** The segments of a slash-separated path. *)
Fixpoint segments_go (s cur : string) : list string :=
  match s with
  | EmptyString => [cur]
  | String c r =>
      if Ascii.eqb c "/" then cur :: segments_go r ""
      else segments_go r (cur ++ String c "")
  end.

Definition segments (s : string) : list string := segments_go s "".

(** Modelled from the spec: section 1 gives [/shared/...] as the subtree of
    the shared root, and the manager makes [root_dir/shared] at startup. *)
Definition shared_marker : string := "shared".

(** Modelled from the spec: section 3, LogicalPath: a slash-separated,
    rooted string; the root is the empty string or a slash. *)
Definition rooted (p : string) : bool :=
  String.eqb p "" || startswith p "/".

(** Modelled from the spec: section 3, PhysicalRoot: whether the logical
    path begins with the reserved shared-namespace prefix segment. *)
Definition under_shared (p : string) : bool :=
  String.eqb p ("/" ++ shared_marker)
  || startswith p ("/" ++ shared_marker ++ "/").

(** Modelled from the spec: [utils.get_prefix_from_fs_path] is not among the
    sources.  Section 4.1, toPhysical: the physical root is selected by a
    prefix test against the shared-namespace marker segment. *)
Definition get_prefix_from_fs_path (path root_dir shared_dir : string)
  : string :=
  if under_shared path then shared_dir else root_dir.

(** Modelled from the spec: [utils.to_fs_path] is not among the sources.
    Section 4.1, toPhysical: the root directory is concatenated with the
    remainder; section 3: a physical path is root directory + remainder. *)
Definition to_fs_path (path prefix : string) : string := prefix ++ path.

(** Modelled from the spec: [utils.get_prefix_from_hdfs_path] is not among
    the sources.  Section 3: whichever root's directory is a prefix of the
    physical path, the longest one when both are; the private root when none
    is, which [to_api_path] then refuses. *)
Definition get_prefix_from_hdfs_path (hdfs_path root_dir shared_dir : string)
  : string :=
  if startswith hdfs_path shared_dir
     && (negb (startswith hdfs_path root_dir)
         || (String.length root_dir <? String.length shared_dir)%nat)
  then shared_dir
  else root_dir.

(** Modelled from the spec: [utils.to_api_path] is not among the sources.
    Section 4.1, toLogical: the root directory that is a prefix of the input
    is stripped; it fails with ConfigurationError if it is none. *)
Definition to_api_path (hdfs_path prefix : string) : string + string :=
  if startswith hdfs_path prefix
  then inr (drop_chars (String.length prefix) hdfs_path)
  else inl "ConfigurationError".

(** Modelled from the spec: [utils.is_hidden] is not among the sources.
    Section 3, HiddenPolicy: an entry is hidden if a segment of its remainder
    relative to the root begins with the hidden-entry marker. *)
Definition is_hidden (hdfs_path prefix : string) : bool :=
  existsb (λ seg, startswith seg ".")
          (segments (drop_chars (String.length prefix) hdfs_path)).

(** Modelled from the spec: section 4.1, toPhysical. *)
Definition toPhysical (self : Config) (p : string) : string :=
  to_fs_path p (get_prefix_from_fs_path p (root_dir self) (shared_dir self)).

(** Modelled from the spec: section 4.1, toLogical. *)
Definition toLogical (self : Config) (q : string) : string + string :=
  to_api_path q
    (get_prefix_from_hdfs_path q (root_dir self) (shared_dir self)).

(** One directory lies inside another, or is the same (section 3 expects
    the two roots to be disjoint and not nested). *)
Definition nested (outer inner : string) : bool :=
  String.eqb outer inner || startswith inner (outer ++ "/").

#[global] Instance utils : Utils :=
  Build_Utils to_fs_path to_api_path is_hidden
    get_prefix_from_fs_path get_prefix_from_hdfs_path.

End PathMapper.

(** ** A simulated cluster

    An in-memory instance of the client and plain instances of the
    collaborators, on which the methods can be run. *)

Module Sim.

Inductive entry :=
| EFile (data : bytes) (mtime : Z)
| EDir (mtime : Z).

Record cluster := mkCluster {
  entries : gmap string entry;
  clock : Z;
  (** paths on which the backend denies every operation but a stat *)
  denied : list string
}.

Definition info_of (p : string) (o : option entry) : fs.FileInfo :=
  match o with
  | Some (EFile d t) =>
      fs.mkFileInfo p fs.File (Some (Z.of_nat (length d))) (Some t)
  | Some (EDir t) => fs.mkFileInfo p fs.Directory None (Some t)
  | None => fs.mkFileInfo p fs.NotFound None None
  end.

Definition is_denied (s : cluster) (p : string) : bool :=
  existsb (String.eqb p) (denied s).

Definition under (dir k : string) : bool := startswith k (dir ++ "/").

Fixpoint has_slash (s : string) : bool :=
  match s with
  | EmptyString => false
  | String c r => Ascii.eqb c "/" || has_slash r
  end.

Definition child_of (dir k : string) : bool :=
  under dir k
  && let name := drop_chars (S (String.length dir)) k in
     negb (String.eqb name "") && negb (has_slash name).

Definition get_file_info (s : cluster) (p : string)
  : fs.error + fs.FileInfo :=
  inr (info_of p (entries s !! p)).

Definition get_file_info_selector (s : cluster) (p : string)
  (recursive : bool) : fs.error + list fs.FileInfo :=
  if is_denied s p then inl (fs.EPermission p)
  else
    match entries s !! p with
    | Some (EDir _) =>
        inr (map (λ ke : string * entry, info_of ke.1 (Some ke.2))
               (List.filter
                  (λ ke : string * entry,
                     if recursive then under p ke.1 else child_of p ke.1)
                  (map_to_list (entries s))))
    | _ => inl (fs.EIO ("Cannot list " ++ p))
    end.

Definition open_input_stream (s : cluster) (p : string)
  : fs.error + bytes :=
  if is_denied s p then inl (fs.EPermission p)
  else
    match entries s !! p with
    | Some (EFile d _) => inr d
    | _ => inl (fs.EIO ("Cannot open " ++ p))
    end.

Definition open_output_stream (p : string) (data : bytes) (s : cluster)
  : option fs.error * cluster :=
  if is_denied s p then (Some (fs.EPermission p), s)
  else
    match entries s !! p with
    | Some (EDir _) => (Some (fs.EIO ("Is a directory: " ++ p)), s)
    | _ =>
        (None,
         mkCluster (<[p := EFile data (clock s)]> (entries s))
                   (clock s + 1) (denied s))
    end.

Definition create_dir (p : string) (s : cluster)
  : option fs.error * cluster :=
  if is_denied s p then (Some (fs.EPermission p), s)
  else
    match entries s !! p with
    | Some (EFile _ _) => (Some (fs.EIO ("Not a directory: " ++ p)), s)
    | Some (EDir _) => (None, s)
    | None =>
        (None,
         mkCluster (<[p := EDir (clock s)]> (entries s))
                   (clock s + 1) (denied s))
    end.

Definition delete_dir (p : string) (s : cluster)
  : option fs.error * cluster :=
  if is_denied s p then (Some (fs.EPermission p), s)
  else
    match entries s !! p with
    | Some (EDir _) =>
        (None,
         mkCluster
           (list_to_map
              (List.filter
                 (λ ke : string * entry,
                    negb (String.eqb ke.1 p || under p ke.1))
                 (map_to_list (entries s))))
           (clock s) (denied s))
    | _ => (Some (fs.EIO ("Cannot delete directory " ++ p)), s)
    end.

Definition delete_file (p : string) (s : cluster)
  : option fs.error * cluster :=
  if is_denied s p then (Some (fs.EPermission p), s)
  else
    match entries s !! p with
    | Some (EFile _ _) =>
        (None, mkCluster (delete p (entries s)) (clock s) (denied s))
    | _ => (Some (fs.EIO ("Cannot delete file " ++ p)), s)
    end.

Definition move (src dst : string) (s : cluster)
  : option fs.error * cluster :=
  if is_denied s src || is_denied s dst then (Some (fs.EPermission src), s)
  else
    match entries s !! src, entries s !! dst with
    | Some _, None =>
        (None,
         mkCluster
           (list_to_map
              (map (λ ke : string * entry,
                      if String.eqb ke.1 src then (dst, ke.2)
                      else if under src ke.1 then
                        (dst ++ drop_chars (String.length src) ke.1, ke.2)
                      else ke)
                 (map_to_list (entries s))))
           (clock s) (denied s))
    | _, _ => (Some (fs.EIO ("Cannot move " ++ src)), s)
    end.

#[global] Instance hdfs : fs.HadoopFileSystem cluster :=
  fs.Build_HadoopFileSystem cluster get_file_info get_file_info_selector
    open_input_stream open_output_stream create_dir delete_dir delete_file
    move.

Fixpoint b64_index (c : byte) (alphabet : bytes) (i : N) : option N :=
  match alphabet with
  | [] => None
  | a :: r => if Byte.eqb a c then Some i else b64_index c r (i + 1)%N
  end.

(** [binascii.a2b_base64] as CPython 3.11 runs it by default: bytes outside
    the alphabet are skipped, and the input ends at the padding that
    completes a quad. *)
Fixpoint a2b_go (l : bytes) (quad_pos : nat) (leftchar : N) (pads : nat)
  (out : list N) : string + list N :=
  match l with
  | [] =>
      match quad_pos with
      | 0%nat => inr (rev out)
      | 1%nat => inl "Invalid base64-encoded string"
      | _ => inl "Incorrect padding"
      end
  | c :: r =>
      if Byte.eqb c b64_pad then
        if (2 <=? quad_pos)%nat then
          if (4 <=? quad_pos + S pads)%nat then inr (rev out)
          else a2b_go r quad_pos leftchar (S pads) out
        else a2b_go r quad_pos leftchar pads out
      else
        match b64_index c b64_alphabet 0%N with
        | None => a2b_go r quad_pos leftchar pads out
        | Some v =>
            match quad_pos with
            | 0%nat => a2b_go r 1%nat v 0%nat out
            | 1%nat =>
                a2b_go r 2%nat (v mod 16)%N 0%nat
                  (((leftchar * 4 + v / 16) mod 256)%N :: out)
            | 2%nat =>
                a2b_go r 3%nat (v mod 4)%N 0%nat
                  (((leftchar * 16 + v / 4) mod 256)%N :: out)
            | _ =>
                a2b_go r 0%nat 0%N 0%nat
                  (((leftchar * 64 + v) mod 256)%N :: out)
            end
        end
  end.

Definition decodebytes (b : bytes) : string + bytes :=
  match a2b_go b 0%nat 0%N 0%nat [] with
  | inl e => inl e
  | inr out => inr (map (λ n, default "000"%byte (Byte.of_N n)) out)
  end.

Definition repr (v : value) : string :=
  match v with
  | VNone => "None"
  | VBool true => "True"
  | VBool false => "False"
  | VStr s => "'" ++ s ++ "'"
  | _ => "<object>"
  end.

Definition guess_type (path : string) : option string :=
  if endswith path ".txt" then Some "text/plain"
  else if endswith path ".png" then Some "image/png"
  else None.

(** A notebook is held as its text; the empty text does not parse. *)
Definition nbformat_reads (text : string) : string + value :=
  if String.eqb text "" then inl "NotJSONError()" else inr (VStr text).

Definition nbformat_writes (nb : value) : string :=
  match nb with
  | VStr text => text
  | _ => "{}"
  end.

(** [str(kind)] from Python 3.11 on: the integer value of the member, in
    the order [pyarrow] declares them. *)
Definition FileType_str (k : fs.FileType) : string :=
  match k with
  | fs.NotFound => "0"
  | fs.Unknown => "1"
  | fs.File => "2"
  | fs.Directory => "3"
  end.

#[global] Instance collaborators : Collaborators :=
  Build_Collaborators guess_type repr decodebytes nbformat_reads
    (λ nb, nb) nbformat_writes (λ _, true) (λ nb _, nb) (λ _, inr None)
    FileType_str.

Definition config : Config :=
  mkConfig "/user/u/notebooks" "/user/jupyter/notebooks" false
    (Some ".ipynb_checkpoints").

Definition empty : cluster := mkCluster ∅ 0 [].

(** A home directory with two files, three directories, and a file the
    backend lets nobody touch. *)
Definition home : cluster :=
  mkCluster
    (list_to_map
       [("/user/u/notebooks", EDir 0);
        ("/user/u/notebooks/shared", EDir 1);
        ("/user/u/notebooks/a.txt", EFile (list_byte_of_string "hi") 2);
        ("/user/u/notebooks/blob", EFile ["255"%byte; "254"%byte] 3);
        ("/user/u/notebooks/proj", EDir 4);
        ("/user/u/notebooks/proj/.ipynb_checkpoints", EDir 5);
        ("/user/u/notebooks/full", EDir 6);
        ("/user/u/notebooks/full/x.txt", EFile (list_byte_of_string "x") 7);
        ("/user/u/notebooks/d.ipynb", EDir 8);
        ("/user/u/notebooks/locked", EFile (list_byte_of_string "z") 9)])
    10 ["/user/u/notebooks/locked"].

Definition a_txt_info : fs.FileInfo :=
  fs.mkFileInfo "/user/u/notebooks/a.txt" fs.File (Some 2%Z) (Some 2%Z).

Definition hi_model : Model :=
  <["type" := VStr "file"]>
    (<["format" := VStr "text"]> (<["content" := VStr "hi"]> ∅)).

Definition checkpoints_info : fs.FileInfo :=
  fs.mkFileInfo "/user/u/notebooks/proj/.ipynb_checkpoints" fs.Directory
    None (Some 5%Z).

Definition d_ipynb_info : fs.FileInfo :=
  fs.mkFileInfo "/user/u/notebooks/d.ipynb" fs.Directory None (Some 8%Z).

(** The model a run returned, or the empty dict. *)
Definition model_of (r : outcome Model * cluster) : Model :=
  match r.1 with
  | Return m => m
  | Raise _ => ∅
  end.

(** What [get] returns on [home]. *)
Definition got (path : string) (content : bool) (type format : value)
  : Model :=
  model_of (get config path content type format home).

(** A notebook model, and a file model that lacks its format. *)
Definition nb_model : Model :=
  <["type" := VStr "notebook"]> (<["content" := VStr "{}"]> ∅).

Definition no_format_model : Model :=
  <["type" := VStr "file"]> (<["content" := VStr "x"]> ∅).

(** The configuration of a manager whose checkpoints have no directory. *)
Definition no_checkpoints : Config :=
  mkConfig "/user/u/notebooks" "/user/jupyter/notebooks" false None.

(** A file model whose content is the base64 of 'hi'. *)
Definition b64_model : Model :=
  <["type" := VStr "file"]>
    (<["format" := VStr "base64"]> (<["content" := VStr "aGk="]> ∅)).

End Sim.

(** ** A cluster that cannot be reached *)

Module Offline.

Definition refused : fs.error := fs.EIO "Connection refused".

(** Every call fails, and the state, which holds nothing, stays. *)
#[global] Instance hdfs : fs.HadoopFileSystem unit :=
  fs.Build_HadoopFileSystem unit
    (λ _ _, inl refused) (λ _ _ _, inl refused) (λ _ _, inl refused)
    (λ _ _ s, (Some refused, s)) (λ _ s, (Some refused, s))
    (λ _ s, (Some refused, s)) (λ _ s, (Some refused, s))
    (λ _ _ s, (Some refused, s)).

End Offline.

(** * Properties *)

(** ** The method monad *)

Section Monad.
Context {FS : Type}.

Lemma bind_Return {A B} (m : Py FS A) (k : A → Py FS B) s a s' :
  m s = (Return a, s') → bind m k s = k a s'.
Proof. intros E. unfold bind. by rewrite E. Qed.

Lemma bind_Raise {A B} (m : Py FS A) (k : A → Py FS B) s e s' :
  m s = (Raise e, s') → bind m k s = (Raise e, s').
Proof. intros E. unfold bind. by rewrite E. Qed.

Lemma bind_inv_Return {A B} (m : Py FS A) (k : A → Py FS B) s b s2 :
  bind m k s = (Return b, s2) →
  ∃ a s1, m s = (Return a, s1) ∧ k a s1 = (Return b, s2).
Proof.
  unfold bind. destruct (m s) as [[a|e] s1]; intros E.
  - by exists a, s1.
  - discriminate.
Qed.

Lemma reads_ret {A} (E : exn → Prop) (s : FS) (a : A) :
  reads (raises_only E) s (ret a).
Proof. by exists (Return a). Qed.

Lemma reads_raise {A} (E : exn → Prop) (s : FS) e :
  E e → reads (raises_only E (A := A)) s (raise e).
Proof. intros He. by exists (Raise e). Qed.

Lemma reads_bind {A B} (E : exn → Prop) (s : FS) (m : Py FS A) (k : A → Py FS B) :
  reads (raises_only E) s m →
  (∀ a, m s = (Return a, s) → reads (raises_only E) s (k a)) →
  reads (raises_only E) s (bind m k).
Proof.
  intros (r & Em & Hr) Hk. unfold reads, bind. rewrite Em.
  destruct r as [a|e].
  - apply Hk, Em.
  - by exists (Raise e).
Qed.

Lemma reads_mapM {A B} (E : exn → Prop) (s : FS) (f : A → Py FS B) l :
  (∀ a, reads (raises_only E) s (f a)) →
  reads (raises_only E) s (mapM f l).
Proof.
  intros Hf. induction l as [|a l IH]; simpl.
  - apply reads_ret.
  - apply reads_bind; [apply Hf|]. intros b _.
    apply reads_bind; [apply IH|]. intros bs _. apply reads_ret.
Qed.

Lemma reads_filterM {A} (E : exn → Prop) (s : FS) (f : A → Py FS bool) l :
  (∀ a, reads (raises_only E) s (f a)) →
  reads (raises_only E) s (filterM f l).
Proof.
  intros Hf. induction l as [|a l IH]; simpl.
  - apply reads_ret.
  - apply reads_bind; [apply Hf|]. intros b _.
    apply reads_bind; [apply IH|]. intros bs _. apply reads_ret.
Qed.

Lemma reads_getitem (E : exn → Prop) (s : FS) (d : Model) key :
  E (KeyError key) → reads (raises_only E) s (getitem d key).
Proof.
  intros He. unfold getitem. destruct (d !! key).
  - apply reads_ret.
  - by apply reads_raise.
Qed.

End Monad.

(** ** Codecs *)

Lemma is_ascii_nth (l : bytes) (d : byte) (n : nat) :
  forallb is_ascii l = true → is_ascii d = true → is_ascii (nth n l d) = true.
Proof.
  revert n. induction l as [|a l IH]; intros [|n] Hl Hd; simpl in *; auto.
  - by apply andb_prop in Hl as [-> _].
  - apply andb_prop in Hl as [_ Hl]. by apply IH.
Qed.

Lemma b64_char_ascii (i : N) : is_ascii (b64_char i) = true.
Proof. unfold b64_char. by apply is_ascii_nth. Qed.

Lemma triples_ind {A} (P : list A → Prop) :
  P [] → (∀ a, P [a]) → (∀ a b, P [a; b]) →
  (∀ a b c r, P r → P (a :: b :: c :: r)) →
  ∀ l, P l.
Proof.
  intros H0 H1 H2 H3 l.
  assert (P l ∧ (∀ a, P (a :: l)) ∧ (∀ a b, P (a :: b :: l))) as [? _].
  { induction l as [|x l (IH0 & IH1 & IH2)]; [by auto|].
    split; [apply IH1|]. split; [intros a; apply IH2|].
    intros a b. by apply H3. }
  done.
Qed.

Lemma b64_quads_ascii (l : bytes) : forallb is_ascii (b64_quads l) = true.
Proof.
  induction l as [|a|a b|a b c r IH] using triples_ind.
  - done.
  - cbn [b64_quads forallb]. by rewrite !b64_char_ascii.
  - cbn [b64_quads forallb]. by rewrite !b64_char_ascii.
  - cbn [b64_quads forallb]. by rewrite !b64_char_ascii, IH.
Qed.

Lemma encode_lines_ascii (fuel : nat) (s : bytes) :
  forallb is_ascii (encode_lines fuel s) = true.
Proof.
  revert s. induction fuel as [|fuel IH]; intros s; [done|].
  destruct s as [|a s]; [done|].
  cbn [encode_lines]. unfold b2a_base64.
  by rewrite !forallb_app, b64_quads_ascii, IH.
Qed.

(** The fuel [encodebytes] gives is enough: more changes nothing, so the
    loop stops on the empty remainder and not on the fuel. *)
Lemma encode_lines_fuel (f1 f2 : nat) (s : bytes) :
  (length s ≤ f1)%nat → (length s ≤ f2)%nat →
  encode_lines f1 s = encode_lines f2 s.
Proof.
  revert f2 s. induction f1 as [|f1 IH]; intros f2 s H1 H2.
  - destruct s; [|simpl in H1; lia]. by destruct f2.
  - destruct s as [|a s]; [by destruct f2|].
    destruct f2 as [|f2]; [simpl in H2; lia|].
    cbn [encode_lines]. f_equal.
    apply IH; rewrite length_drop; simpl in *; unfold MAXBINSIZE; lia.
Qed.

Lemma encodebytes_unfold (a : byte) (s : bytes) :
  encodebytes (a :: s)
  = (b2a_base64 (take MAXBINSIZE (a :: s))
       ++ encodebytes (drop MAXBINSIZE (a :: s)))%list.
Proof.
  unfold encodebytes at 1. cbn [length encode_lines]. f_equal.
  apply encode_lines_fuel; [|done].
  rewrite length_drop. simpl. unfold MAXBINSIZE. lia.
Qed.

(** The ASCII decoding of a base64 encoding never fails. *)
Lemma decode_ascii_encodebytes (b : bytes) :
  decode_ascii (encodebytes b) = Some (string_of_list_byte (encodebytes b)).
Proof. unfold decode_ascii, encodebytes. by rewrite encode_lines_ascii. Qed.

Lemma eq_str_false (v : value) (lit : string) :
  v ≠ VStr lit → eq_str v lit = false.
Proof.
  destruct v; try done. simpl. intros Hne.
  apply String.eqb_neq. congruence.
Qed.

Lemma is_None_false (v : value) : v ≠ VNone → is_None v = false.
Proof. by destruct v. Qed.

(** ** The manager *)

Section Properties.
Context {FS : Type} `{!fs.HadoopFileSystem FS} `{!Utils} `{!Collaborators}.
Variable self : Config.

Lemma run_stat (s : FS) (p : string) (info : fs.FileInfo) :
  fs.get_file_info s p = inr info →
  fs_read (λ s, fs.get_file_info s p) s = (Return info, s).
Proof. intros E. unfold fs_read. by rewrite E. Qed.

Lemma run_is_file (s : FS) (p : string) (info : fs.FileInfo) :
  fs.get_file_info s p = inr info →
  is_file p s = (Return (fs.FileType_eqb (fs.type info) fs.File), s).
Proof. intros E. unfold is_file. by rewrite (bind_Return _ _ _ _ _ (run_stat _ _ _ E)). Qed.

Lemma run_is_dir (s : FS) (p : string) (info : fs.FileInfo) :
  fs.get_file_info s p = inr info →
  is_dir p s = (Return (fs.FileType_eqb (fs.type info) fs.Directory), s).
Proof. intros E. unfold is_dir. by rewrite (bind_Return _ _ _ _ _ (run_stat _ _ _ E)). Qed.

Lemma run_path_exist (s : FS) (p : string) (info : fs.FileInfo) :
  fs.get_file_info s p = inr info →
  path_exist p s
  = (Return (negb (fs.FileType_eqb (fs.type info) fs.NotFound)), s).
Proof. intros E. unfold path_exist. by rewrite (bind_Return _ _ _ _ _ (run_stat _ _ _ E)). Qed.

(** What a read under [perm_to_403] comes to. *)
Lemma run_perm_read {A} (path : string) (f : FS → fs.error + A) (s : FS) :
  perm_to_403 path (fs_read f) s
  = match f s with
    | inr a => (Return a, s)
    | inl (fs.EPermission _) =>
        (Raise (HTTPError 403 ("Permission denied: " ++ path)), s)
    | inl (fs.EIO msg) => (Raise (OSError msg), s)
    end.
Proof.
  unfold perm_to_403, try_except, fs_read.
  by destruct (f s) as [[?|?]|?].
Qed.

(** What a write under [perm_to_403] comes to. *)
Lemma run_perm_write (path : string) (f : FS → option fs.error * FS) (s : FS) :
  perm_to_403 path (fs_write f) s
  = match f s with
    | (None, s') => (Return tt, s')
    | (Some (fs.EPermission _), s') =>
        (Raise (HTTPError 403 ("Permission denied: " ++ path)), s')
    | (Some (fs.EIO msg), s') => (Raise (OSError msg), s')
    end.
Proof.
  unfold perm_to_403, try_except, fs_write.
  by destruct (f s) as [[[?|?]|] ?].
Qed.

(** The decoding policy of [_read_file], once the bytes are read. *)
Lemma run_read_file (path hdfs_path : string) (format : value)
  (s : FS) (info : fs.FileInfo) (bcontent : bytes) :
  fs.get_file_info s hdfs_path = inr info →
  fs.type info = fs.File →
  fs.open_input_stream s hdfs_path = inr bcontent →
  let base64 := string_of_list_byte (encodebytes bcontent) in
  _read_file path hdfs_path format s
  = if is_None format then
      match decode_utf8 bcontent with
      | Some text => (Return (text, "text"), s)
      | None => (Return (base64, "base64"), s)
      end
    else if eq_str format "text" then
      match decode_utf8 bcontent with
      | Some text => (Return (text, "text"), s)
      | None => (Raise (HTTPError 400 (path ++ " is not UTF-8 encoded")), s)
      end
    else (Return (base64, "base64"), s).
Proof.
  intros Hstat Hfile Hread base64. unfold _read_file.
  rewrite (bind_Return _ _ _ _ _ (run_is_file _ _ _ Hstat)).
  rewrite Hfile. cbn [fs.FileType_eqb negb].
  unfold bind. rewrite run_perm_read, Hread. cbv zeta.
  rewrite decode_ascii_encodebytes.
  by destruct (is_None format), (eq_str format "text"),
       (decode_utf8 bcontent).
Qed.

(** C1: a file that is read with its content is decoded by the requested
    format.  With no format the bytes are decoded as UTF-8 and tagged
    'text', and bytes that are not UTF-8 are base64-encoded and tagged
    'base64'; with format 'text' bytes that are not UTF-8 fail with a 400;
    with any other format the read succeeds with the base64 encoding. *)
Theorem read_file_decoding (path hdfs_path : string) (format : value)
  (s : FS) (info : fs.FileInfo) (bcontent : bytes) :
  fs.get_file_info s hdfs_path = inr info →
  fs.type info = fs.File →
  fs.open_input_stream s hdfs_path = inr bcontent →
  let base64 := string_of_list_byte (encodebytes bcontent) in
  (format = VNone →
     (∀ text, decode_utf8 bcontent = Some text →
        _read_file path hdfs_path format s = (Return (text, "text"), s))
     ∧ (decode_utf8 bcontent = None →
        _read_file path hdfs_path format s = (Return (base64, "base64"), s)))
  ∧ (format = VStr "text" →
     (∀ text, decode_utf8 bcontent = Some text →
        _read_file path hdfs_path format s = (Return (text, "text"), s))
     ∧ (decode_utf8 bcontent = None →
        _read_file path hdfs_path format s
        = (Raise (HTTPError 400 (path ++ " is not UTF-8 encoded")), s)))
  ∧ (format ≠ VNone → format ≠ VStr "text" →
     _read_file path hdfs_path format s = (Return (base64, "base64"), s)).
Proof.
  intros Hstat Hfile Hread base64.
  rewrite (run_read_file path _ format _ _ _ Hstat Hfile Hread).
  fold base64. split; [|split].
  - intros ->. cbn [is_None]. split.
    + by intros text ->.
    + by intros ->.
  - intros ->. cbn [is_None eq_str String.eqb Ascii.eqb Bool.eqb]. split.
    + by intros text ->.
    + by intros ->.
  - intros Hn Ht. by rewrite (is_None_false _ Hn), (eq_str_false _ _ Ht).
Qed.

(** *** An entry that is found is not reported missing *)

Local Abbreviation quiet s m := (reads (raises_only not_404) s m).

Lemma quiet_perm_read {A} (path : string) (f : FS → fs.error + A) (s : FS) :
  quiet s (perm_to_403 path (fs_read f)).
Proof.
  unfold reads. rewrite run_perm_read.
  destruct (f s) as [[?|?]|a]; eexists; (split; [done|]); by simpl.
Qed.

Lemma quiet_info_and_check_kind (path hdfs_path : string) (kind : fs.FileType)
  (s : FS) (info : fs.FileInfo) :
  fs.get_file_info s hdfs_path = inr info →
  fs.type info ≠ fs.NotFound →
  quiet s (_info_and_check_kind path hdfs_path kind).
Proof.
  intros E Hfound. unfold _info_and_check_kind, reads.
  rewrite (bind_Return _ _ _ _ _ (run_stat _ _ _ E)).
  destruct (fs.type info) eqn:Ht; [done|..];
    cbn [fs.FileType_eqb]; destruct kind; cbn [fs.FileType_eqb negb];
    eexists; (split; [done|]); by simpl.
Qed.

Lemma quiet_model_from_info (info : fs.FileInfo) (type : value) (s : FS) :
  quiet s (_model_from_info self info type).
Proof.
  unfold _model_from_info.
  destruct (to_api_path _ _); [by apply reads_raise|apply reads_ret].
Qed.

Lemma quiet_as_str (v : value) (s : FS) : quiet s (as_str v).
Proof. destruct v; try by apply reads_raise. apply reads_ret. Qed.

Lemma quiet_dir_model (path hdfs_path : string) (content : bool)
  (s : FS) (info : fs.FileInfo) :
  fs.get_file_info s hdfs_path = inr info →
  fs.type info ≠ fs.NotFound →
  quiet s (_dir_model self path hdfs_path content).
Proof.
  intros E Hfound. unfold _dir_model.
  apply reads_bind; [by eapply quiet_info_and_check_kind|]. intros i _.
  apply reads_bind; [apply quiet_model_from_info|]. intros model _.
  destruct content; [|apply reads_ret].
  apply reads_bind; [apply quiet_perm_read|]. intros records _.
  apply reads_bind.
  { apply reads_mapM. intros a. apply quiet_model_from_info. }
  intros contents _. apply reads_bind; [|intros; apply reads_ret].
  apply reads_filterM. intros c.
  apply reads_bind; [by apply reads_getitem|]. intros v _.
  apply reads_bind; [apply quiet_as_str|]. intros n _. apply reads_ret.
Qed.

Lemma quiet_read_file (path hdfs_path : string) (format : value)
  (s : FS) (info : fs.FileInfo) :
  fs.get_file_info s hdfs_path = inr info →
  quiet s (_read_file path hdfs_path format).
Proof.
  intros E. unfold _read_file.
  apply reads_bind.
  { eexists. by rewrite (run_is_file _ _ _ E). }
  intros f _. destruct (negb f); [by apply reads_raise|].
  apply reads_bind; [apply quiet_perm_read|]. intros bcontent _. cbv zeta.
  rewrite decode_ascii_encodebytes.
  destruct (is_None format), (eq_str format "text"),
    (decode_utf8 bcontent);
    first [apply reads_ret | by apply reads_raise].
Qed.

Lemma quiet_file_model (path hdfs_path : string) (content : bool)
  (format : value) (s : FS) (info : fs.FileInfo) :
  fs.get_file_info s hdfs_path = inr info →
  fs.type info ≠ fs.NotFound →
  quiet s (_file_model self path hdfs_path content format).
Proof.
  intros E Hfound. unfold _file_model.
  apply reads_bind; [by eapply quiet_info_and_check_kind|]. intros i _.
  apply reads_bind; [apply quiet_model_from_info|]. intros model _.
  destruct content; [|apply reads_ret].
  apply reads_bind; [by eapply quiet_read_file|]. intros [c f] _.
  apply reads_bind; [by apply reads_getitem|]. intros mimetype _.
  apply reads_bind; [|intros; apply reads_ret].
  destruct (is_None mimetype); [|apply reads_ret].
  apply reads_bind; [by apply reads_getitem|]. intros; apply reads_ret.
Qed.

Lemma quiet_validate_notebook_model (model : Model) (s : FS) :
  quiet s (validate_notebook_model model).
Proof.
  unfold validate_notebook_model.
  apply reads_bind; [by apply reads_getitem|]. intros nb _.
  destruct (validate_nb nb) as [?|[?|]];
    first [apply reads_ret | by apply reads_raise].
Qed.

Lemma quiet_notebook_model (path hdfs_path : string) (content : bool)
  (s : FS) (info : fs.FileInfo) :
  fs.get_file_info s hdfs_path = inr info →
  fs.type info ≠ fs.NotFound →
  quiet s (_notebook_model self path hdfs_path content).
Proof.
  intros E Hfound. unfold _notebook_model.
  apply reads_bind; [by eapply quiet_info_and_check_kind|]. intros i _.
  apply reads_bind; [apply quiet_model_from_info|]. intros model _.
  destruct content; [|apply reads_ret].
  apply reads_bind; [|intros; apply quiet_validate_notebook_model].
  unfold _read_notebook.
  apply reads_bind; [apply quiet_perm_read|]. intros bcontent _. cbv zeta.
  destruct (decode_utf8 bcontent) as [text|]; [|by apply reads_raise].
  destruct (nbformat_reads text); [by apply reads_raise|apply reads_ret].
Qed.

Lemma quiet_infer_type (hdfs_path : string) (s : FS) (info : fs.FileInfo) :
  fs.get_file_info s hdfs_path = inr info →
  quiet s (infer_type hdfs_path).
Proof.
  intros E. unfold infer_type.
  destruct (endswith hdfs_path ".ipynb"); [apply reads_ret|].
  apply reads_bind.
  { eexists. by rewrite (run_is_dir _ _ _ E). }
  intros [] _; apply reads_ret.
Qed.

Lemma quiet_build_model (path hdfs_path : string) (content : bool)
  (type format : value) (s : FS) (info : fs.FileInfo) :
  fs.get_file_info s hdfs_path = inr info →
  fs.type info ≠ fs.NotFound →
  quiet s (build_model self path hdfs_path content type format).
Proof.
  intros E Hfound. unfold build_model.
  apply reads_bind.
  { destruct (is_None type); [|apply reads_ret].
    apply reads_bind; [by eapply quiet_infer_type|].
    intros; apply reads_ret. }
  intros t _.
  destruct (eq_str t "directory"); [by eapply quiet_dir_model|].
  destruct (eq_str t "notebook"); [by eapply quiet_notebook_model|].
  by eapply quiet_file_model.
Qed.

(** [get], once the stat has answered. *)
Lemma run_get (path : string) (content : bool) (type format : value)
  (s : FS) (info : fs.FileInfo) :
  let hdfs_path :=
    to_fs_path path
      (get_prefix_from_fs_path path (root_dir self) (shared_dir self)) in
  let hidden :=
    is_hidden hdfs_path
      (get_prefix_from_hdfs_path hdfs_path (root_dir self) (shared_dir self))
  in
  fs.get_file_info s hdfs_path = inr info →
  get self path content type format s
  = if negb (negb (fs.FileType_eqb (fs.type info) fs.NotFound))
    then (Raise (HTTPError 404 ("No such file or directory: " ++ path)), s)
    else if negb (allow_hidden self) && hidden
    then (Raise (HTTPError 404 ("No such file or directory: " ++ path)), s)
    else build_model self path hdfs_path content type format s.
Proof.
  intros hdfs_path hidden E. unfold get. fold hdfs_path. fold hidden.
  rewrite (bind_Return _ _ _ _ _ (run_path_exist _ _ _ E)).
  destruct (negb (negb (fs.FileType_eqb (fs.type info) fs.NotFound)));
    [done|].
  by destruct (negb (allow_hidden self) && hidden).
Qed.

(** [get] only reads. *)
Lemma get_leaves_state (path : string) (content : bool) (type format : value)
  (s s' : FS) (r : outcome Model) :
  get self path content type format s = (r, s') → s' = s.
Proof.
  destruct (fs.get_file_info s
              (to_fs_path path
                 (get_prefix_from_fs_path path (root_dir self)
                    (shared_dir self)))) as [e|info] eqn:E.
  - unfold get, path_exist, bind, fs_read. rewrite E. by intros [= _ <-].
  - rewrite (run_get _ _ _ _ _ _ E).
    destruct (fs.FileType_eqb (fs.type info) fs.NotFound) eqn:Ht;
      cbn [negb]; [by intros [= _ <-]|].
    destruct (negb (allow_hidden self) && _); [by intros [= _ <-]|].
    destruct (quiet_build_model path _ content type format s info E)
      as (r0 & Er & _).
    { intros Hnf. by rewrite Hnf in Ht. }
    rewrite Er. by intros [= _ <-].
Qed.

(** C2: [get] fails with a 404 exactly when the physical path does not
    exist, or the path is hidden and hidden entries are not served;
    otherwise it goes on to build a model. *)
Theorem get_not_found_iff (path : string) (content : bool)
  (type format : value) (s : FS) (info : fs.FileInfo) :
  let hdfs_path :=
    to_fs_path path
      (get_prefix_from_fs_path path (root_dir self) (shared_dir self)) in
  let hidden :=
    is_hidden hdfs_path
      (get_prefix_from_hdfs_path hdfs_path (root_dir self) (shared_dir self))
  in
  fs.get_file_info s hdfs_path = inr info →
  ((∃ msg, (get self path content type format s).1
           = Raise (HTTPError 404 msg))
   ↔ fs.type info = fs.NotFound ∨ (allow_hidden self = false ∧ hidden = true))
  ∧ (fs.type info ≠ fs.NotFound →
     ¬ (allow_hidden self = false ∧ hidden = true) →
     get self path content type format s
     = build_model self path hdfs_path content type format s).
Proof.
  intros hdfs_path hidden E.
  pose proof (run_get path content type format s info E) as Hget.
  fold hdfs_path in Hget. fold hidden in Hget.
  split.
  - rewrite Hget. split.
    + intros [msg Hmsg].
      destruct (fs.FileType_eqb (fs.type info) fs.NotFound) eqn:Ht.
      { left. by destruct (fs.type info). }
      cbn [negb] in Hmsg.
      destruct (negb (allow_hidden self) && hidden) eqn:Hh.
      { right. apply andb_prop in Hh as [Ha Hh].
        split; [by destruct (allow_hidden self)|done]. }
      destruct (quiet_build_model path hdfs_path content type format
                  s info E) as (r & Er & Hr).
      { intros Hnf. by rewrite Hnf in Ht. }
      rewrite Er in Hmsg. simpl in Hmsg. subst r. by destruct (Hr msg).
    + intros [Ht|[Ha Hh]].
      * rewrite Ht. cbn. eauto.
      * rewrite Ha, Hh. destruct (fs.type info); cbn; eauto.
  - intros Hfound Hserve. rewrite Hget.
    destruct (fs.type info); [done|..]; cbn [fs.FileType_eqb negb];
      (destruct (negb (allow_hidden self) && hidden) eqn:Hh; [|done];
       apply andb_prop in Hh as [Ha Hh]; destruct Hserve;
       split; [by destruct (allow_hidden self)|done]).
Qed.

(** *** Saving *)

(** A save of a file model is [_save_file] and then the re-read. *)
Lemma save_file_run (model : Model) (path : string) (s : FS) :
  model !! "type" = Some (VStr "file") →
  is_Some (model !! "content") →
  save self model path s
  = (_save_file path
       (to_fs_path path
          (get_prefix_from_fs_path path (root_dir self) (shared_dir self)))
       model;;
     get self path false (VStr "file") VNone) s.
Proof.
  intros Ht Hc. unfold save. rewrite Ht.
  rewrite (bool_decide_eq_true_2 _ Hc).
  cbn [negb andb eq_str String.eqb Ascii.eqb Bool.eqb].
  unfold bind, ret.
  destruct (_save_file _ _ _ s) as [[[]|e] s1]; [|done].
  by destruct (get _ _ _ _ _ s1) as [[m|e] s2].
Qed.

(** X29: [_save_file] on a model that has a format and a content.  A
    hashable format that is neither 'text' nor 'base64' fails with a 400
    before anything is written; with 'text' the content is UTF-8 encoded and
    written; with 'base64' the content is decoded and the decoded bytes are
    written, and content that does not decode fails with a 400 and nothing
    is written. *)
Theorem save_file_by_format (path hdfs_path : string) (model : Model)
  (format content : value) (s : FS) :
  model !! "format" = Some format →
  model !! "content" = Some content →
  let write b :=
    perm_to_403 path (fs_write (fs.open_output_stream hdfs_path b)) s in
  let encoding_error (e : string) :=
    (Raise (HTTPError 400 ("Encoding error saving " ++ path ++ ": " ++ e)),
     s) in
  (hashable format → format ≠ VStr "text" → format ≠ VStr "base64" →
     _save_file path hdfs_path model s
     = (Raise (HTTPError 400
          "Must specify format of file contents as 'text' or 'base64'"), s))
  ∧ (format = VStr "text" → ∀ text, content = VStr text →
     _save_file path hdfs_path model s
     = match encode_utf8 text with
       | Some b => write b
       | None => encoding_error "UnicodeEncodeError"
       end)
  ∧ (format = VStr "base64" → ∀ text, content = VStr text →
     _save_file path hdfs_path model s
     = match encode_ascii text with
       | Some b64 =>
           match decodebytes b64 with
           | inr b => write b
           | inl e => encoding_error e
           end
       | None => encoding_error "UnicodeEncodeError"
       end)
  ∧ (model !! "type" = Some (VStr "file") →
     save self model path s
     = (_save_file path
          (to_fs_path path
             (get_prefix_from_fs_path path (root_dir self) (shared_dir self)))
          model;;
        get self path false (VStr "file") VNone) s).
Proof.
  intros Hf Hc write encoding_error.
  assert (Hrun : ∀ known,
    in_text_base64 format s = (Return known, s) →
    _save_file path hdfs_path model s
    = if negb known then
        (Raise (HTTPError 400
           "Must specify format of file contents as 'text' or 'base64'"), s)
      else
        (let* bcontent :=
           try_except
             (if eq_str format "text" then encode encode_utf8 content
              else
                let* b64_bytes := encode encode_ascii content in
                match decodebytes b64_bytes with
                | inr b => ret b
                | inl e => raise (Exception e)
                end)
             (λ e, raise (HTTPError 400
                            ("Encoding error saving " ++ path ++ ": "
                             ++ str_exn e))) in
         perm_to_403 path
           (fs_write (fs.open_output_stream hdfs_path bcontent))) s).
  { intros known Hk. unfold _save_file, getitem. rewrite Hf, Hc.
    unfold bind at 1 2 3. unfold ret at 1 2. rewrite Hk.
    by destruct known. }
  repeat split.
  - intros Hh Ht Hb. rewrite (Hrun false); [done|].
    unfold in_text_base64.
    rewrite (eq_str_false _ _ Ht), (eq_str_false _ _ Hb).
    by destruct format.
  - intros -> text ->. rewrite (Hrun true); [|done].
    cbn [negb eq_str String.eqb Ascii.eqb Bool.eqb encode].
    unfold bind, try_except, encoding_error, write.
    by destruct (encode_utf8 text).
  - intros -> text ->. rewrite (Hrun true); [|done].
    cbn [negb eq_str String.eqb Ascii.eqb Bool.eqb encode].
    unfold bind, try_except, encoding_error, write.
    destruct (encode_ascii text); [|done]. cbn.
    by destruct (decodebytes _).
  - intros Ht. apply save_file_run; [done|]. by rewrite Hc.
Qed.

(** *** Deleting *)

Lemma run_is_dir_empty (path hdfs_path : string) (s : FS)
  (files : list fs.FileInfo) :
  fs.get_file_info_selector s hdfs_path false = inr files →
  ∃ empty, _is_dir_empty self path hdfs_path s = (Return empty, s)
           ∧ (empty = false ↔ remains self files).
Proof.
  intros El. unfold _is_dir_empty, list_dir.
  unfold bind. rewrite run_perm_read, El.
  destruct files as [|f files].
  { exists true. split; [done|]. split; [done|].
    intros (f & Hf & _). by apply elem_of_nil in Hf. }
  eexists. split; [reflexivity|].
  rewrite bool_decide_eq_false. unfold remains.
  set (names := map (λ f0, rsplit_last (fs.path f0)) (f :: files)).
  split.
  - intros Hne. apply set_choose_L in Hne as [n Hn].
    apply elem_of_difference in Hn as [Hn Hcp].
    apply elem_of_list_to_set, list_elem_of_fmap in Hn as (g & -> & Hg).
    exists g. split; [done|]. intros Heq. apply Hcp.
    rewrite <- Heq. by apply elem_of_singleton.
  - intros (g & Hg & Hcp) Hempty.
    assert (rsplit_last (fs.path g)
              ∈ (list_to_set names ∖
                   match checkpoint_dir self with
                   | Some d => {[d]}
                   | None => ∅
                   end : gset string)) as Hin.
    { apply elem_of_difference. split.
      - apply elem_of_list_to_set, list_elem_of_fmap. by exists g.
      - destruct (checkpoint_dir self) as [d|]; [|set_solver].
        intros Hd%elem_of_singleton. congruence. }
    rewrite Hempty in Hin. by apply not_elem_of_empty in Hin.
Qed.

(** C4: deleting.  A path that does not exist fails with a 404.  A directory
    fails with 'Directory not empty' exactly when a child remains once the
    checkpoint directory name is set aside, and is deleted otherwise.  A file
    is deleted without further condition. *)
Theorem delete_file_cases (path : string) (s : FS) (info : fs.FileInfo) :
  let hdfs_path :=
    to_fs_path path
      (get_prefix_from_fs_path path (root_dir self) (shared_dir self)) in
  let not_empty :=
    (Raise (HTTPError 400 ("Directory " ++ path ++ " not empty")), s) in
  fs.get_file_info s hdfs_path = inr info →
  (fs.type info = fs.NotFound →
     delete_file self path s
     = (Raise (HTTPError 404
          ("File or directory does not exist: " ++ path)), s))
  ∧ (fs.type info = fs.Directory →
     ∀ files, fs.get_file_info_selector s hdfs_path false = inr files →
       (delete_file self path s = not_empty ↔ remains self files)
       ∧ (¬ remains self files →
          delete_file self path s
          = perm_to_403 path (fs_write (fs.delete_dir hdfs_path)) s))
  ∧ (fs.type info = fs.File →
     delete_file self path s
     = perm_to_403 path (fs_write (fs.delete_file hdfs_path)) s).
Proof.
  intros hdfs_path not_empty E.
  assert (Hrun : delete_file self path s
    = if negb (negb (fs.FileType_eqb (fs.type info) fs.NotFound)) then
        (Raise (HTTPError 404
           ("File or directory does not exist: " ++ path)), s)
      else if fs.FileType_eqb (fs.type info) fs.Directory then
        (let* empty := _is_dir_empty self path hdfs_path in
         if negb empty then
           raise (HTTPError 400 ("Directory " ++ path ++ " not empty"))
         else perm_to_403 path (fs_write (fs.delete_dir hdfs_path))) s
      else perm_to_403 path (fs_write (fs.delete_file hdfs_path)) s).
  { unfold delete_file. fold hdfs_path.
    rewrite (bind_Return _ _ _ _ _ (run_path_exist _ _ _ E)).
    destruct (negb (negb _)); [done|].
    rewrite (bind_Return _ _ _ _ _ (run_is_dir _ _ _ E)).
    by destruct (fs.FileType_eqb _ fs.Directory). }
  rewrite Hrun. clear Hrun. split; [|split].
  - by intros ->.
  - intros -> files El. cbn [fs.FileType_eqb negb].
    destruct (run_is_dir_empty path hdfs_path s files El)
      as (empty & Hempty & Hiff).
    rewrite (bind_Return _ _ _ _ _ Hempty).
    destruct empty; cbn [negb].
    + split; [split|done].
      * intros Heq. exfalso. rewrite run_perm_write in Heq.
        destruct (fs.delete_dir hdfs_path s) as [[[?|?]|] ?]; discriminate.
      * intros Hr. by apply Hiff in Hr.
    + split; [split|].
      * intros _. by apply Hiff.
      * done.
      * intros Hn. destruct Hn. by apply Hiff.
  - by intros ->.
Qed.

(** *** Renaming *)

(** C5 (amended): renaming.  Equal paths are a no-op that leaves the state
    as it is; a destination that exists fails with a 409 before any move,
    and the state is as it was; otherwise the move is made, a backend
    failure for lack of permission surfaces as the 403 outcome, and any
    other backend failure is re-raised as a 500 that carries its cause. *)
Theorem rename_file_cases (old_path new_path : string) (s : FS) :
  let old_hdfs_path :=
    to_fs_path old_path
      (get_prefix_from_fs_path old_path (root_dir self) (shared_dir self)) in
  let new_hdfs_path :=
    to_fs_path new_path
      (get_prefix_from_fs_path new_path (root_dir self) (shared_dir self)) in
  (old_path = new_path →
     rename_file self old_path new_path s = (Return tt, s))
  ∧ (old_path ≠ new_path →
     ∀ info, fs.get_file_info s new_hdfs_path = inr info →
       (fs.type info ≠ fs.NotFound →
          rename_file self old_path new_path s
          = (Raise (HTTPError 409 ("File already exists: " ++ new_path)), s))
       ∧ (fs.type info = fs.NotFound →
          rename_file self old_path new_path s
          = match fs.move old_hdfs_path new_hdfs_path s with
            | (None, s') => (Return tt, s')
            | (Some (fs.EPermission _), s') =>
                (Raise (HTTPError 403 ("Permission denied: " ++ old_path)),
                 s')
            | (Some (fs.EIO cause), s') =>
                (Raise (HTTPError 500
                   ("Unknown error renaming file: " ++ old_path
                    ++ String "010" cause)), s')
            end)).
Proof.
  intros old_hdfs_path new_hdfs_path. split.
  - intros ->. unfold rename_file. by rewrite String.eqb_refl.
  - intros Hne info E. unfold rename_file.
    apply String.eqb_neq in Hne. rewrite Hne.
    fold old_hdfs_path. fold new_hdfs_path.
    rewrite (bind_Return _ _ _ _ _ (run_path_exist _ _ _ E)).
    split.
    + intros Hfound. by destruct (fs.type info).
    + intros ->. cbn [fs.FileType_eqb negb].
      unfold try_except at 1. rewrite run_perm_write.
      by destruct (fs.move old_hdfs_path new_hdfs_path s) as [[[?|?]|] ?].
Qed.

(** What [_save_directory] does when the path may be served: the existence
    test is [exists_], which maps its argument as an API path once more. *)
Lemma run_save_directory (path hdfs_path : string) (s : FS)
  (info : fs.FileInfo) :
  (negb (allow_hidden self)
   && is_hidden hdfs_path
        (get_prefix_from_hdfs_path hdfs_path (root_dir self)
           (shared_dir self))) = false →
  fs.get_file_info s
    (to_fs_path hdfs_path
       (get_prefix_from_fs_path hdfs_path (root_dir self) (shared_dir self)))
  = inr info →
  fs.type info = fs.NotFound →
  _save_directory self path hdfs_path s
  = perm_to_403 path (fs_write (fs.create_dir hdfs_path)) s.
Proof.
  intros Hh E Ht. unfold _save_directory, exists_. rewrite Hh.
  rewrite (bind_Return _ _ _ _ _ (run_path_exist _ _ _ E)).
  by rewrite Ht.
Qed.

(** C9 (amended): a model whose 'type' is none of 'notebook', 'file' and
    'directory' fails with a 400 and the filesystem state is as it was; the
    error is 'Unhandled contents type' when the model has a 'content' field
    and 'No file content provided' when it has none. *)
Theorem save_unhandled_type (model : Model) (path : string) (typ : value)
  (s : FS) :
  model !! "type" = Some typ →
  typ ≠ VStr "notebook" → typ ≠ VStr "file" → typ ≠ VStr "directory" →
  save self model path s
  = (Raise (HTTPError 400
       (match model !! "content" with
        | Some _ => "Unhandled contents type: " ++ format_s typ
        | None => "No file content provided"
        end)), s).
Proof.
  intros Ht Hn Hf Hd. unfold save. rewrite Ht.
  rewrite (eq_str_false _ _ Hn), (eq_str_false _ _ Hf),
    (eq_str_false _ _ Hd).
  destruct (model !! "content") as [c|].
  - by rewrite bool_decide_eq_true_2.
  - rewrite bool_decide_eq_false_2; [done|]. by intros [? ?].
Qed.

(** *** Timestamps *)

Lemma stamped_insert (t : value) (m : Model) (k : string) (v : value) :
  k ≠ "created" → k ≠ "last_modified" →
  stamped t m → stamped t (<[k := v]> m).
Proof. intros ?? [??]. split; by rewrite lookup_insert_ne. Qed.

Lemma stat_inv (p : string) (s s' : FS) (info : fs.FileInfo) :
  fs_read (λ s, fs.get_file_info s p) s = (Return info, s') →
  fs.get_file_info s p = inr info ∧ s' = s.
Proof.
  unfold fs_read. destruct (fs.get_file_info s p) as [e|i]; [done|].
  by intros [= -> ->].
Qed.

Lemma perm_read_inv {A} (path : string) (f : FS → fs.error + A)
  (s s' : FS) (a : A) :
  perm_to_403 path (fs_read f) s = (Return a, s') → f s = inr a ∧ s' = s.
Proof.
  rewrite run_perm_read. destruct (f s) as [[?|?]|?]; try done.
  by intros [= -> ->].
Qed.

Lemma getitem_inv (d : Model) (key : string) (s s' : FS) (v : value) :
  getitem d key s = (Return v, s') → d !! key = Some v ∧ s' = s.
Proof.
  unfold getitem. destruct (d !! key); [|done]. by intros [= -> ->].
Qed.

Lemma info_and_check_kind_inv (path hdfs_path : string) (kind : fs.FileType)
  (s s' : FS) (info : fs.FileInfo) :
  _info_and_check_kind path hdfs_path kind s = (Return info, s') →
  fs.get_file_info s hdfs_path = inr info ∧ s' = s.
Proof.
  unfold _info_and_check_kind. intros Hrun.
  apply bind_inv_Return in Hrun as (i & s1 & Hstat & Hrun).
  apply stat_inv in Hstat as [Hstat ->].
  destruct (fs.FileType_eqb (fs.type i) fs.NotFound); [done|].
  destruct (negb _); [done|]. by injection Hrun as -> ->.
Qed.

Lemma model_from_info_stamped (info : fs.FileInfo) (type : value)
  (s s' : FS) (m : Model) :
  _model_from_info self info type s = (Return m, s') →
  stamped (timestamp_of info) m ∧ s' = s.
Proof.
  unfold _model_from_info. destruct (to_api_path _ _); [done|].
  intros [= <- ->]. by repeat split.
Qed.

Lemma mapM_inv {A B} (f : A → Py FS B) (P : B → Prop) (l : list A)
  (s s' : FS) (bs : list B) :
  (∀ a s1 s2 b, a ∈ l → f a s1 = (Return b, s2) → P b) →
  mapM f l s = (Return bs, s') → Forall P bs.
Proof.
  revert s s' bs. induction l as [|a l IH]; intros s s' bs Hf Hrun.
  - injection Hrun as <- _. constructor.
  - cbn [mapM] in Hrun.
    apply bind_inv_Return in Hrun as (b & s1 & Hb & Hrun).
    apply bind_inv_Return in Hrun as (bs' & s2 & Hbs & Hrun).
    injection Hrun as <- _. constructor.
    + eapply Hf; [|done]. by left.
    + eapply IH; [|done]. intros a' ? ? b' Ha'. apply Hf. by right.
Qed.

Lemma filterM_inv {A} (f : A → Py FS bool) (P : A → Prop) (l : list A)
  (s s' : FS) (r : list A) :
  Forall P l → filterM f l s = (Return r, s') → Forall P r.
Proof.
  revert s s' r. induction l as [|a l IH]; intros s s' r Hl Hrun.
  - injection Hrun as <- _. constructor.
  - cbn [filterM] in Hrun.
    apply bind_inv_Return in Hrun as (keep & s1 & _ & Hrun).
    apply bind_inv_Return in Hrun as (rest & s2 & Hrest & Hrun).
    injection Hrun as <- _. inversion Hl as [|? ? Ha Hl']; subst.
    specialize (IH _ _ _ Hl' Hrest).
    destruct keep; [by constructor|done].
Qed.

Lemma dir_model_stamped (path hdfs_path : string) (content : bool)
  (s s' : FS) (m : Model) :
  _dir_model self path hdfs_path content s = (Return m, s') →
  ∃ info, fs.get_file_info s hdfs_path = inr info
          ∧ stamped (timestamp_of info) m
          ∧ (content = true →
             ∃ records,
               fs.get_file_info_selector s hdfs_path false = inr records
               ∧ listing_stamped records m).
Proof.
  unfold _dir_model. intros Hrun.
  apply bind_inv_Return in Hrun as (info & s1 & Hinfo & Hrun).
  apply info_and_check_kind_inv in Hinfo as [Hinfo ->].
  apply bind_inv_Return in Hrun as (model & s1 & Hmodel & Hrun).
  apply model_from_info_stamped in Hmodel as [Hmodel ->].
  exists info. split; [done|]. destruct content.
  - apply bind_inv_Return in Hrun as (records & s1 & Hrec & Hrun).
    unfold list_dir in Hrec. apply perm_read_inv in Hrec as [Hrec ->].
    apply bind_inv_Return in Hrun as (contents & s1 & Hcontents & Hrun).
    apply bind_inv_Return in Hrun as (listed & s2 & Hlisted & Hrun).
    injection Hrun as <- _. split.
    { by do 2 (apply stamped_insert; [done..|]). }
    intros _. exists records. split; [done|]. intros l Hl.
    rewrite lookup_insert_ne, lookup_insert_eq in Hl by done.
    injection Hl as <-. apply Forall_fmap.
    eapply filterM_inv; [|done].
    eapply (mapM_inv _ (λ c, ∃ i, i ∈ records ∧ stamped (timestamp_of i) c))
      in Hcontents.
    + eapply Forall_impl; [done|]. intros d (i & ? & ?). by exists d, i.
    + intros i ? ? d Hi Hd. exists i. split; [done|].
      by apply model_from_info_stamped in Hd as [? _].
  - injection Hrun as <- _. by split.
Qed.

Lemma file_model_stamped (path hdfs_path : string) (content : bool)
  (format : value) (s s' : FS) (m : Model) :
  _file_model self path hdfs_path content format s = (Return m, s') →
  ∃ info, fs.get_file_info s hdfs_path = inr info
          ∧ stamped (timestamp_of info) m.
Proof.
  unfold _file_model. intros Hrun.
  apply bind_inv_Return in Hrun as (info & s1 & Hinfo & Hrun).
  apply info_and_check_kind_inv in Hinfo as [Hinfo ->].
  apply bind_inv_Return in Hrun as (model & s1 & Hmodel & Hrun).
  apply model_from_info_stamped in Hmodel as [Hmodel ->].
  exists info. split; [done|]. destruct content.
  - apply bind_inv_Return in Hrun as ([c f] & s1 & _ & Hrun).
    apply bind_inv_Return in Hrun as (mimetype & s2 & _ & Hrun).
    apply bind_inv_Return in Hrun as (model' & s3 & Hmodel' & Hrun).
    injection Hrun as <- _.
    do 2 (apply stamped_insert; [done..|]).
    destruct (is_None mimetype).
    + apply bind_inv_Return in Hmodel' as (dt & s4 & _ & Hmodel').
      injection Hmodel' as <- _. by apply stamped_insert.
    + by injection Hmodel' as <- _.
  - by injection Hrun as <- _.
Qed.

Lemma notebook_model_stamped (path hdfs_path : string) (content : bool)
  (s s' : FS) (m : Model) :
  _notebook_model self path hdfs_path content s = (Return m, s') →
  ∃ info, fs.get_file_info s hdfs_path = inr info
          ∧ stamped (timestamp_of info) m.
Proof.
  unfold _notebook_model. intros Hrun.
  apply bind_inv_Return in Hrun as (info & s1 & Hinfo & Hrun).
  apply info_and_check_kind_inv in Hinfo as [Hinfo ->].
  apply bind_inv_Return in Hrun as (model & s1 & Hmodel & Hrun).
  apply model_from_info_stamped in Hmodel as [Hmodel ->].
  exists info. split; [done|]. destruct content.
  - apply bind_inv_Return in Hrun as (contents & s1 & _ & Hrun).
    unfold validate_notebook_model in Hrun.
    apply bind_inv_Return in Hrun as (nb & s2 & _ & Hrun).
    destruct (validate_nb nb) as [?|[msg|]]; [done|..];
      injection Hrun as <- _;
      by repeat (apply stamped_insert; [done..|]).
  - by injection Hrun as <- _.
Qed.

Lemma get_stamped (path : string) (content : bool) (type format : value)
  (s s' : FS) (m : Model) :
  get self path content type format s = (Return m, s') →
  ∃ info,
    fs.get_file_info s
      (to_fs_path path
         (get_prefix_from_fs_path path (root_dir self) (shared_dir self)))
    = inr info
    ∧ stamped (timestamp_of info) m.
Proof.
  unfold get. intros Hrun.
  apply bind_inv_Return in Hrun as (found & s1 & Hfound & Hrun).
  unfold path_exist in Hfound.
  apply bind_inv_Return in Hfound as (i & s2 & Hstat & Hfound).
  apply stat_inv in Hstat as [Hstat ->]. injection Hfound as _ <-.
  destruct (negb found); [done|].
  destruct (negb (allow_hidden self) && _); [done|].
  apply bind_inv_Return in Hrun as (t & s1 & Ht & Hrun).
  assert (s1 = s) as ->.
  { destruct (is_None type); [|by injection Ht as _ <-].
    apply bind_inv_Return in Ht as (t' & s2 & Ht' & Ht).
    injection Ht as _ <-. unfold infer_type in Ht'.
    destruct (endswith _ _); [by injection Ht' as _ <-|].
    apply bind_inv_Return in Ht' as (d & s3 & Hd & Ht').
    rewrite (run_is_dir _ _ _ Hstat) in Hd. injection Hd as _ <-.
    by destruct d; injection Ht' as _ <-. }
  destruct (eq_str t "directory").
  { apply dir_model_stamped in Hrun as (info & ? & ? & _). by exists info. }
  destruct (eq_str t "notebook").
  { by apply notebook_model_stamped in Hrun. }
  by apply file_model_stamped in Hrun.
Qed.

(** C10: in every model made from backend metadata, 'created' equals
    'last_modified', and both are the backend's modification time: in what
    [_model_from_info] builds, in what [get] returns, in the children a
    directory model lists, and in what [save] returns after its re-read
    (there the time is the one the backend holds once the save is done). *)
Theorem created_is_last_modified :
  (∀ info type (s s' : FS) m,
     _model_from_info self info type s = (Return m, s') →
     stamped (timestamp_of info) m)
  ∧ (∀ path content type format (s s' : FS) m,
     get self path content type format s = (Return m, s') →
     ∃ info,
       fs.get_file_info s
         (to_fs_path path
            (get_prefix_from_fs_path path (root_dir self) (shared_dir self)))
       = inr info
       ∧ stamped (timestamp_of info) m)
  ∧ (∀ path hdfs_path (s s' : FS) m,
     _dir_model self path hdfs_path true s = (Return m, s') →
     ∃ records,
       fs.get_file_info_selector s hdfs_path false = inr records
       ∧ listing_stamped records m)
  ∧ (∀ model path (s s' : FS) m,
     save self model path s = (Return m, s') →
     ∃ info,
       fs.get_file_info s'
         (to_fs_path path
            (get_prefix_from_fs_path path (root_dir self) (shared_dir self)))
       = inr info
       ∧ stamped (timestamp_of info) m).
Proof.
  split; [|split; [|split]].
  - intros info type s s' m Hrun.
    by apply model_from_info_stamped in Hrun as [? _].
  - intros. by eapply get_stamped.
  - intros path hdfs_path s s' m Hrun.
    apply dir_model_stamped in Hrun as (info & _ & _ & Hl). by apply Hl.
  - intros model path s s' m Hrun. unfold save in Hrun.
    destruct (model !! "type") as [typ|]; [|done].
    destruct (negb _ && negb _); [done|].
    apply bind_inv_Return in Hrun as (message & s1 & _ & Hrun).
    apply bind_inv_Return in Hrun as (m' & s2 & Hget & Hrun).
    pose proof (get_leaves_state _ _ _ _ _ _ _ Hget) as ->.
    apply get_stamped in Hget as (info & Hstat & Hm').
    exists info.
    destruct (negb (is_None message)); injection Hrun as <- <-;
      (split; [done|]); [|done].
    by apply stamped_insert.
Qed.

(** *** Type inference in [get] *)

(** With no explicit type, [get] asks [infer_type], which looks at the
    suffix before the metadata: a directory is served as one only when its
    HDFS path does not end in [.ipynb]. *)
Lemma get_directory_by_suffix (path : string) (content : bool)
  (format : value) (s : FS) (info : fs.FileInfo) :
  let hdfs_path :=
    to_fs_path path
      (get_prefix_from_fs_path path (root_dir self) (shared_dir self)) in
  fs.get_file_info s hdfs_path = inr info →
  fs.type info = fs.Directory →
  (negb (allow_hidden self)
   && is_hidden hdfs_path
        (get_prefix_from_hdfs_path hdfs_path (root_dir self)
           (shared_dir self))) = false →
  get self path content VNone format s
  = if endswith hdfs_path ".ipynb" then
      (Raise (HTTPError 400 (path ++ " is not a " ++ FileType_str fs.File)),
       s)
    else _dir_model self path hdfs_path content s.
Proof.
  intros hdfs_path E Ht Hh. unfold get. fold hdfs_path.
  rewrite (bind_Return _ _ _ _ _ (run_path_exist _ _ _ E)).
  rewrite Ht, Hh. cbn [fs.FileType_eqb negb is_None].
  unfold infer_type. destruct (endswith hdfs_path ".ipynb").
  - unfold bind at 1 2. unfold ret at 1 2.
    cbn [eq_str String.eqb Ascii.eqb Bool.eqb].
    unfold _notebook_model, _info_and_check_kind.
    erewrite bind_Raise; [done|].
    rewrite (bind_Return _ _ _ _ _ (run_stat _ _ _ E)). by rewrite Ht.
  - unfold bind at 1 2 3. rewrite (run_is_dir _ _ _ E), Ht. done.
Qed.

End Properties.

(** ** The path mapping *)

Lemma prefix_empty (s : string) : String.prefix "" s = true.
Proof. by destruct s. Qed.

Lemma prefix_cons (c d : ascii) (a s : string) :
  String.prefix (String c a) (String d s)
  = (if Ascii.ascii_dec c d then String.prefix a s else false).
Proof. done. Qed.

Lemma append_cons (c : ascii) (a p : string) :
  String c a ++ p = String c (a ++ p).
Proof. done. Qed.

Lemma startswith_app (a p : string) : startswith (a ++ p) a = true.
Proof.
  unfold startswith. induction a as [|c a IH]; [apply prefix_empty|].
  rewrite append_cons, prefix_cons. by destruct (Ascii.ascii_dec c c).
Qed.

Lemma drop_chars_app (a p : string) : drop_chars (String.length a) (a ++ p) = p.
Proof. induction a as [|c a IH]; [by destruct p|done]. Qed.

(** A root that reaches past another into a rooted remainder lies inside
    that other root. *)
Lemma startswith_app_longer (a b p : string) :
  startswith (a ++ p) b = true →
  (String.length a < String.length b)%nat →
  PathMapper.rooted p = true →
  startswith b (a ++ "/") = true.
Proof.
  unfold startswith. revert b. induction a as [|c a IH]; intros b Hb Hlen Hp.
  - destruct b as [|cb b]; [simpl in Hlen; lia|].
    change ("" ++ p) with p in Hb. change ("" ++ "/") with "/".
    destruct p as [|cp p]; [done|]. rewrite prefix_cons in Hb |- *.
    destruct (Ascii.ascii_dec cb cp) as [->|]; [|done].
    unfold PathMapper.rooted, startswith in Hp.
    change (String cp p =? "") with false in Hp. rewrite prefix_cons in Hp.
    cbn [orb] in Hp.
    destruct (Ascii.ascii_dec "/" cp) as [<-|]; [|done].
    apply prefix_empty.
  - destruct b as [|cb b]; [simpl in Hlen; lia|].
    rewrite append_cons, prefix_cons in Hb. rewrite append_cons, prefix_cons.
    destruct (Ascii.ascii_dec cb c) as [->|]; [|done].
    destruct (Ascii.ascii_dec c c); [|done].
    apply IH; [done| simpl in Hlen; lia | done].
Qed.

(** Two prefixes of one string of the same length are the same string. *)
Lemma startswith_same_length (a b p : string) :
  startswith (a ++ p) b = true →
  String.length a = String.length b → a = b.
Proof.
  unfold startswith. revert b. induction a as [|c a IH]; intros b Hb Hlen.
  - by destruct b.
  - destruct b as [|cb b]; [done|]. rewrite append_cons, prefix_cons in Hb.
    destruct (Ascii.ascii_dec cb c) as [->|]; [|done].
    f_equal. apply IH; [done|]. simpl in Hlen. lia.
Qed.
Lemma get_prefix_from_hdfs_path_app (R R' p : string) (pick_second : bool) :
  PathMapper.rooted p = true →
  PathMapper.nested R R' = false →
  PathMapper.nested R' R = false →
  (if pick_second
   then PathMapper.get_prefix_from_hdfs_path (R ++ p) R' R
   else PathMapper.get_prefix_from_hdfs_path (R ++ p) R R') = R.
Proof.
  intros Hp Hn Hn'. unfold PathMapper.nested in *.
  apply orb_false_elim in Hn as [Hne Hn].
  apply orb_false_elim in Hn' as [_ Hn'].
  apply String.eqb_neq in Hne.
  unfold PathMapper.get_prefix_from_hdfs_path.
  rewrite startswith_app.
  destruct (startswith (R ++ p) R') eqn:HR'.
  - destruct (lt_eq_lt_dec (String.length R) (String.length R'))
      as [[Hlt|Heq]|Hgt].
    + by rewrite (startswith_app_longer R R' p HR' Hlt Hp) in Hn.
    + by destruct Hne; eapply startswith_same_length.
    + destruct pick_second; cbn [negb orb andb].
      * apply Nat.ltb_lt in Hgt. by rewrite Hgt.
      * by rewrite (proj2 (Nat.ltb_ge _ _)) by lia.
  - by destruct pick_second; cbn [negb orb andb].
Qed.

(** C8: of a rooted logical path, with roots of which none lies inside the
    other: [toPhysical] resolves into the shared root exactly when the path
    lies under the shared-namespace prefix, and into the private root
    otherwise; and [toLogical] gives the path back. *)
Theorem toLogical_toPhysical (self : Config) (p : string) :
  PathMapper.rooted p = true →
  PathMapper.nested (root_dir self) (shared_dir self) = false →
  PathMapper.nested (shared_dir self) (root_dir self) = false →
  let resolved :=
    PathMapper.get_prefix_from_hdfs_path (PathMapper.toPhysical self p)
      (root_dir self) (shared_dir self) in
  (PathMapper.under_shared p = true →
     PathMapper.toPhysical self p = shared_dir self ++ p
     ∧ resolved = shared_dir self)
  ∧ (PathMapper.under_shared p = false →
     PathMapper.toPhysical self p = root_dir self ++ p
     ∧ resolved = root_dir self)
  ∧ (resolved = shared_dir self ↔ PathMapper.under_shared p = true)
  ∧ PathMapper.toLogical self (PathMapper.toPhysical self p) = inr p.
Proof.
  intros Hp Hn Hn' resolved.
  assert (Hne : root_dir self ≠ shared_dir self).
  { unfold PathMapper.nested in Hn. apply orb_false_elim in Hn as [Hne _].
    by apply String.eqb_neq. }
  assert (Hshared : PathMapper.under_shared p = true →
            PathMapper.toPhysical self p = shared_dir self ++ p
            ∧ resolved = shared_dir self).
  { intros Hu. unfold resolved, PathMapper.toPhysical,
      PathMapper.get_prefix_from_fs_path, PathMapper.to_fs_path.
    rewrite Hu. split; [done|].
    apply (get_prefix_from_hdfs_path_app _ _ p true); done. }
  assert (Hprivate : PathMapper.under_shared p = false →
            PathMapper.toPhysical self p = root_dir self ++ p
            ∧ resolved = root_dir self).
  { intros Hu. unfold resolved, PathMapper.toPhysical,
      PathMapper.get_prefix_from_fs_path, PathMapper.to_fs_path.
    rewrite Hu. split; [done|].
    apply (get_prefix_from_hdfs_path_app _ _ p false); done. }
  split; [done|]. split; [done|]. split.
  - split.
    + intros Hr. destruct (PathMapper.under_shared p) eqn:Hu; [done|].
      destruct (Hprivate eq_refl) as [_ Hr']. congruence.
    + intros Hu. by destruct (Hshared Hu).
  - unfold PathMapper.toLogical. fold resolved.
    destruct (PathMapper.under_shared p) eqn:Hu.
    + destruct (Hshared eq_refl) as [-> ->].
      unfold PathMapper.to_api_path.
      by rewrite startswith_app, drop_chars_app.
    + destruct (Hprivate eq_refl) as [-> ->].
      unfold PathMapper.to_api_path.
      by rewrite startswith_app, drop_chars_app.
Qed.

(** ** Runs on the simulated cluster *)

(** C1 on [home]: [a.txt] read with no format comes back as text. *)
Lemma read_file_decoding_witness :
  _read_file "/a.txt" "/user/u/notebooks/a.txt" VNone Sim.home
  = (Return ("hi", "text"), Sim.home).
Proof.
  exact (proj1 (proj1 (read_file_decoding "/a.txt" "/user/u/notebooks/a.txt"
                         VNone Sim.home Sim.a_txt_info (list_byte_of_string "hi")
                         eq_refl eq_refl eq_refl) eq_refl)
               "hi" eq_refl).
Defined.

(** C2 on [home]: a path that is not there is a 404. *)
Lemma get_not_found_iff_witness :
  ∃ msg, (get Sim.config "/missing" true VNone VNone Sim.home).1
         = Raise (HTTPError 404 msg).
Proof.
  exact (proj2 (proj1 (get_not_found_iff Sim.config "/missing" true VNone
                         VNone Sim.home
                         (fs.mkFileInfo "/user/u/notebooks/missing"
                            fs.NotFound None None) eq_refl))
               (or_introl eq_refl)).
Defined.

(** X29 on [home]: a text model is written as its UTF-8 bytes. *)
Lemma save_file_by_format_witness :
  _save_file "/n.txt" "/user/u/notebooks/n.txt" Sim.hi_model Sim.home
  = perm_to_403 "/n.txt"
      (fs_write (fs.open_output_stream "/user/u/notebooks/n.txt"
                   (list_byte_of_string "hi"))) Sim.home.
Proof.
  exact (proj1 (proj2 (save_file_by_format Sim.config "/n.txt"
                         "/user/u/notebooks/n.txt" Sim.hi_model (VStr "text")
                         (VStr "hi") Sim.home eq_refl eq_refl))
               eq_refl "hi" eq_refl).
Defined.

(** C3 on [home]: a file model that does not say its format.  The test
    whose 400 asks to specify the format is not reached: the subscript
    [model['format']] raises [KeyError] before it, and a format that is a
    list makes the set membership of the test itself raise.  A format that
    is null does get the 400. *)
Lemma save_file_format_unchecked :
  (Sim.no_format_model !! "type" = Some (VStr "file"))
  ∧ (Sim.no_format_model !! "content" = Some (VStr "x"))
  ∧ (Sim.no_format_model !! "format" = None)
  ∧ (save Sim.config Sim.no_format_model "/x" Sim.home
     = (Raise (KeyError "format"), Sim.home))
  ∧ (save Sim.config Sim.no_format_model "/x" Sim.home
     ≠ (Raise (HTTPError 400
          "Must specify format of file contents as 'text' or 'base64'"),
        Sim.home))
  ∧ (save Sim.config (<["format" := VList []]> Sim.no_format_model) "/x"
       Sim.home
     = (Raise (Exception "TypeError"), Sim.home))
  ∧ (save Sim.config (<["format" := VNone]> Sim.no_format_model) "/x"
       Sim.home
     = (Raise (HTTPError 400
          "Must specify format of file contents as 'text' or 'base64'"),
        Sim.home)).
Proof. by repeat split. Qed.

(** C4 on [home]: a directory that holds only the checkpoint directory is
    deleted. *)
Lemma delete_file_cases_witness :
  delete_file Sim.config "/proj" Sim.home
  = perm_to_403 "/proj" (fs_write (fs.delete_dir "/user/u/notebooks/proj"))
      Sim.home.
Proof.
  refine (proj2 (proj1 (proj2 (delete_file_cases Sim.config "/proj" Sim.home
                                 (fs.mkFileInfo "/user/u/notebooks/proj"
                                    fs.Directory None (Some 4%Z)) eq_refl))
                       eq_refl [Sim.checkpoints_info] eq_refl) _).
  intros (f & Hf & Hne). apply list_elem_of_singleton in Hf as ->.
  by apply Hne.
Defined.

(** C5 on [home]: a rename onto a free name moves the file. *)
Lemma rename_file_cases_witness :
  (rename_file Sim.config "/a.txt" "/b.txt" Sim.home).1 = Return tt.
Proof.
  rewrite (proj2 (proj2 (rename_file_cases Sim.config "/a.txt" "/b.txt"
                           Sim.home)
                        ltac:(discriminate)
                        (fs.mkFileInfo "/user/u/notebooks/b.txt" fs.NotFound
                           None None) eq_refl) eq_refl).
  reflexivity.
Defined.

(** C5, as stated, fails on [home]: the backend refuses the move of
    [locked] for lack of permission, the destination is free, and the
    rename ends in the 403 outcome, not in a 500. *)
Lemma rename_file_permission_counterexample :
  (fs.get_file_info Sim.home "/user/u/notebooks/free"
   = inr (fs.mkFileInfo "/user/u/notebooks/free" fs.NotFound None None))
  ∧ (fs.move "/user/u/notebooks/locked" "/user/u/notebooks/free" Sim.home
     = (Some (fs.EPermission "/user/u/notebooks/locked"), Sim.home))
  ∧ (rename_file Sim.config "/locked" "/free" Sim.home
     = (Raise (HTTPError 403 "Permission denied: /locked"), Sim.home))
  ∧ (∀ msg, (rename_file Sim.config "/locked" "/free" Sim.home).1
            ≠ Raise (HTTPError 500 msg)).
Proof. by repeat split. Qed.

(** C6 on [home]: [a.txt] is a file, and saving a directory model over it
    does not fail with 'Not a directory': [exists_] is asked about the HDFS
    path as if it were an API path, finds nothing, and [create_dir] runs on
    the occupied path. *)
Lemma save_directory_over_file :
  (fs.get_file_info Sim.home "/user/u/notebooks/a.txt" = inr Sim.a_txt_info)
  ∧ (path_exist "/user/u/notebooks/a.txt" Sim.home = (Return true, Sim.home))
  ∧ (exists_ Sim.config "/user/u/notebooks/a.txt" Sim.home
     = (Return false, Sim.home))
  ∧ (_save_directory Sim.config "/a.txt" "/user/u/notebooks/a.txt" Sim.home
     = perm_to_403 "/a.txt"
         (fs_write (fs.create_dir "/user/u/notebooks/a.txt")) Sim.home)
  ∧ (save Sim.config (<["type" := VStr "directory"]> ∅) "/a.txt" Sim.home
     = (Raise (OSError "Not a directory: /user/u/notebooks/a.txt"),
        Sim.home))
  ∧ (save Sim.config (<["type" := VStr "directory"]> ∅) "/a.txt" Sim.home
     ≠ (Raise (HTTPError 400 "Not a directory: /a.txt"), Sim.home)).
Proof. by repeat split. Qed.

(** C7 on [home]: [d.ipynb] is a directory; [_model_from_info] types it
    'directory' with no size, and [get] without a type infers 'notebook'
    from the suffix and fails with a 400. *)
Lemma get_directory_named_ipynb :
  (fs.get_file_info Sim.home "/user/u/notebooks/d.ipynb" = inr Sim.d_ipynb_info)
  ∧ (Sim.model_of (_model_from_info Sim.config Sim.d_ipynb_info VNone Sim.home)
       !! "type" = Some (VStr "directory"))
  ∧ (Sim.model_of (_model_from_info Sim.config Sim.d_ipynb_info VNone Sim.home)
       !! "size" = Some VNone)
  ∧ (infer_type "/user/u/notebooks/d.ipynb" Sim.home
     = (Return "notebook", Sim.home))
  ∧ (get Sim.config "/d.ipynb" true VNone VNone Sim.home
     = (Raise (HTTPError 400 "/d.ipynb is not a 2"), Sim.home)).
Proof. by repeat split. Qed.

(** C8 on the simulated configuration: a path under the shared prefix. *)
Lemma toLogical_toPhysical_witness :
  PathMapper.toPhysical Sim.config "/shared/x" = "/user/jupyter/notebooks/shared/x"
  ∧ PathMapper.toLogical Sim.config
      (PathMapper.toPhysical Sim.config "/shared/x") = inr "/shared/x".
Proof.
  split.
  - exact (proj1 (proj1 (toLogical_toPhysical Sim.config "/shared/x"
                           eq_refl eq_refl eq_refl) eq_refl)).
  - exact (proj2 (proj2 (proj2 (toLogical_toPhysical Sim.config "/shared/x"
                                  eq_refl eq_refl eq_refl)))).
Defined.

(** C9 on [home]: an unknown type with content. *)
Lemma save_unhandled_type_witness :
  save Sim.config (<["type" := VStr "foo"]> (<["content" := VStr "x"]> ∅))
    "/x" Sim.home
  = (Raise (HTTPError 400 "Unhandled contents type: foo"), Sim.home).
Proof.
  exact (save_unhandled_type Sim.config
           (<["type" := VStr "foo"]> (<["content" := VStr "x"]> ∅))
           "/x" (VStr "foo") Sim.home eq_refl
           ltac:(discriminate) ltac:(discriminate) ltac:(discriminate)).
Defined.

(** C9, as stated, fails on [home]: an unknown type without content is
    refused for the missing content, not as an unhandled type. *)
Lemma save_unhandled_type_counterexample :
  save Sim.config (<["type" := VStr "foo"]> ∅) "/x" Sim.home
  = (Raise (HTTPError 400 "No file content provided"), Sim.home)
  ∧ save Sim.config (<["type" := VStr "foo"]> ∅) "/x" Sim.home
    ≠ (Raise (HTTPError 400 "Unhandled contents type: foo"), Sim.home).
Proof. by split. Qed.

(** C10 on [home]: the model of [a.txt] carries its mtime twice. *)
Lemma created_is_last_modified_witness :
  stamped (VDatetime 2)
    (Sim.model_of (get Sim.config "/a.txt" true VNone VNone Sim.home)).
Proof.
  assert (get Sim.config "/a.txt" true VNone VNone Sim.home
          = (Return (Sim.model_of
                       (get Sim.config "/a.txt" true VNone VNone Sim.home)),
             Sim.home)) as Hget by (vm_compute; reflexivity).
  destruct (proj1 (proj2 (created_is_last_modified Sim.config)) _ _ _ _ _ _ _
              Hget) as (info & Hinfo & Hstamped).
  injection Hinfo as <-. exact Hstamped.
Defined.
Example encodebytes_hi :
  decode_ascii (encodebytes (list_byte_of_string "hi")) = Some ("aGk=" ++ String "010" "").
Proof. reflexivity. Qed.

Example decode_utf8_hello :
  decode_utf8 ["h"; "195"; "169"; "l"; "l"; "o"]%byte
  = Some (string_of_list_byte ["h"; "195"; "169"; "l"; "l"; "o"]%byte).
Proof. reflexivity. Qed.

Example decode_utf8_bad : decode_utf8 ["255"]%byte = None.
Proof. reflexivity. Qed.

Example decode_utf8_surrogate : decode_utf8 ["237"; "160"; "128"]%byte = None.
Proof. reflexivity. Qed.

Example rsplit_last_ex : rsplit_last "/user/u/notebooks/a/b.txt" = "b.txt".
Proof. reflexivity. Qed.

Example endswith_ex : endswith "a/b.ipynb" ".ipynb" = true ∧ endswith "ipynb" ".ipynb" = false.
Proof. split; reflexivity. Qed.

Example decodebytes_encodebytes :
  Sim.decodebytes
    (encodebytes
       (list_byte_of_string
          "sixty-one bytes of text, so that the encoding takes two lines"))
  = inr (list_byte_of_string
           "sixty-one bytes of text, so that the encoding takes two lines").
Proof. vm_compute. reflexivity. Qed.

Example decodebytes_bad_padding :
  Sim.decodebytes (list_byte_of_string "aGk") = inl "Incorrect padding".
Proof. reflexivity. Qed.

(** Section 8, end to end: a directory, a text file in it, and both read
    back. *)
Example save_then_get :
  let s1 := (save Sim.config (<["type" := VStr "directory"]> ∅) "/p"
               Sim.home).2 in
  let s2 := (save Sim.config Sim.hi_model "/p/x.txt" s1).2 in
  let file := Sim.model_of (get Sim.config "/p/x.txt" true VNone VNone s2) in
  let dir := Sim.model_of (get Sim.config "/p" false VNone VNone s2) in
  file !! "content" = Some (VStr "hi")
  ∧ file !! "format" = Some (VStr "text")
  ∧ file !! "size" = Some (VInt 2)
  ∧ file !! "name" = Some (VStr "x.txt")
  ∧ dir !! "type" = Some (VStr "directory")
  ∧ dir !! "size" = Some VNone.
Proof. vm_compute. by repeat split. Qed.

(** * Further properties of the manager *)

Section Inversion.
Context {FS : Type} `{!fs.HadoopFileSystem FS} `{!Utils} `{!Collaborators}.
Variable self : Config.

Lemma FileType_eqb_eq (a b : fs.FileType) :
  fs.FileType_eqb a b = true ↔ a = b.
Proof. by destruct a, b. Qed.

Lemma model_from_info_inv (info : fs.FileInfo) (type : value) (s s' : FS)
  (m : Model) :
  _model_from_info self info type s = (Return m, s') →
  ∃ p,
    to_api_path (fs.path info)
      (get_prefix_from_hdfs_path (fs.path info) (root_dir self)
         (shared_dir self)) = inr p
    ∧ m = model_of_info info type p ∧ s' = s.
Proof.
  unfold _model_from_info. destruct (to_api_path _ _) as [e|p]; [done|].
  intros [= <- ->]. by exists p.
Qed.

Lemma info_and_check_kind_kind (path hdfs_path : string) (kind : fs.FileType)
  (s s' : FS) (info : fs.FileInfo) :
  _info_and_check_kind path hdfs_path kind s = (Return info, s') →
  fs.get_file_info s hdfs_path = inr info ∧ fs.type info = kind ∧ s' = s.
Proof.
  unfold _info_and_check_kind. intros Hrun.
  apply bind_inv_Return in Hrun as (i & s1 & Hstat & Hrun).
  apply stat_inv in Hstat as [Hstat ->].
  destruct (fs.FileType_eqb (fs.type i) fs.NotFound); [done|].
  destruct (fs.FileType_eqb (fs.type i) kind) eqn:Hk; [|done].
  injection Hrun as -> ->. by apply FileType_eqb_eq in Hk.
Qed.

Lemma read_file_inv (path hdfs_path : string) (format : value) (s s' : FS)
  (c f : string) :
  _read_file path hdfs_path format s = (Return (c, f), s') →
  ∃ info b,
    fs.get_file_info s hdfs_path = inr info ∧ fs.type info = fs.File
    ∧ fs.open_input_stream s hdfs_path = inr b ∧ s' = s
    ∧ ((f = "text" ∧ decode_utf8 b = Some c
        ∧ (is_None format = true ∨ eq_str format "text" = true))
       ∨ (f = "base64" ∧ c = string_of_list_byte (encodebytes b)
          ∧ (is_None format = true → decode_utf8 b = None))).
Proof.
  intros Hrun. pose proof Hrun as Hrun'. unfold _read_file in Hrun'.
  apply bind_inv_Return in Hrun' as (fl & s1 & Hfile & Hrun').
  unfold is_file in Hfile.
  apply bind_inv_Return in Hfile as (info & s2 & Hstat & Hfile).
  apply stat_inv in Hstat as [Hstat ->]. injection Hfile as <- <-.
  destruct (fs.FileType_eqb (fs.type info) fs.File) eqn:Ht; [|done].
  apply FileType_eqb_eq in Ht. cbn [negb] in Hrun'.
  apply bind_inv_Return in Hrun' as (b & s1 & Hread & _).
  apply perm_read_inv in Hread as [Hread _].
  rewrite (run_read_file path _ format _ _ _ Hstat Ht Hread) in Hrun.
  exists info, b. repeat (split; [done|]).
  destruct (is_None format) eqn:Hn.
  - destruct (decode_utf8 b) as [text|] eqn:Hd; injection Hrun as <- <- <-.
    + split; [done|]. left. by auto.
    + split; [done|]. right. by auto.
  - destruct (eq_str format "text") eqn:He.
    + destruct (decode_utf8 b) as [text|] eqn:Hd; [|done].
      injection Hrun as <- <- <-. split; [done|]. left. by auto.
    + injection Hrun as <- <- <-. split; [done|]. right.
      repeat split. done.
Qed.

Lemma mapM_Forall2 {A B} (f : A → Py FS B) (l : list A) (s s' : FS)
  (bs : list B) :
  mapM f l s = (Return bs, s') →
  Forall2 (λ a b, ∃ s1 s2, f a s1 = (Return b, s2)) l bs.
Proof.
  revert s s' bs. induction l as [|a l IH]; intros s s' bs Hrun.
  - injection Hrun as <- _. constructor.
  - cbn [mapM] in Hrun.
    apply bind_inv_Return in Hrun as (b & s1 & Hb & Hrun).
    apply bind_inv_Return in Hrun as (bs' & s2 & Hbs & Hrun).
    injection Hrun as <- _. constructor; [by eauto|by eapply IH].
Qed.

Lemma mapM_leaves_state {A B} (f : A → Py FS B) (l : list A) (s s' : FS)
  (bs : list B) :
  (∀ a s1 s2 b, f a s1 = (Return b, s2) → s2 = s1) →
  mapM f l s = (Return bs, s') → s' = s.
Proof.
  intros Hf. revert s s' bs. induction l as [|a l IH]; intros s s' bs Hrun.
  - by injection Hrun as _ <-.
  - cbn [mapM] in Hrun.
    apply bind_inv_Return in Hrun as (b & s1 & Hb & Hrun).
    apply bind_inv_Return in Hrun as (bs' & s2 & Hbs & Hrun).
    injection Hrun as _ <-. apply Hf in Hb as ->. by eapply IH.
Qed.

Lemma filterM_pure {A} (f : A → Py FS bool) (g : A → bool) (l : list A)
  (s : FS) :
  Forall (λ a, f a s = (Return (g a), s)) l →
  filterM f l s = (Return (List.filter g l), s).
Proof.
  induction 1 as [|a l Ha Hl IH]; [done|].
  cbn [filterM List.filter].
  rewrite (bind_Return _ _ _ _ _ Ha), (bind_Return _ _ _ _ _ IH).
  by destruct (g a).
Qed.

(** On a dict that [_model_from_info] built, the test of [_dir_model] is
    [listable]. *)
Lemma run_listable (info : fs.FileInfo) (type : value) (p : string) (s : FS) :
  (let* v := getitem (model_of_info info type p) "name" in
   let* n := as_str v in
   ret (should_list n && negb (startswith n "."))) s
  = (Return (listable (model_of_info info type p)), s).
Proof. done. Qed.

Lemma dir_model_inv (path hdfs_path : string) (content : bool) (s s' : FS)
  (m : Model) :
  _dir_model self path hdfs_path content s = (Return m, s') →
  ∃ info p,
    fs.get_file_info s hdfs_path = inr info ∧ fs.type info = fs.Directory
    ∧ s' = s ∧ api_path_of self info = inr p
    ∧ let base := model_of_info info (VStr "directory") p in
      if content then
        ∃ records contents,
          fs.get_file_info_selector s hdfs_path false = inr records
          ∧ Forall2 (λ i c, ∃ q, api_path_of self i = inr q
                                 ∧ c = model_of_info i VNone q)
              records contents
          ∧ m = <["format" := VStr "json"]>
                  (<["content" :=
                       VList (map VDict (List.filter listable contents))]>
                     base)
      else m = base.
Proof.
  unfold _dir_model. intros Hrun.
  apply bind_inv_Return in Hrun as (info & s1 & Hinfo & Hrun).
  apply info_and_check_kind_kind in Hinfo as (Hinfo & Hkind & ->).
  apply bind_inv_Return in Hrun as (model & s1 & Hmodel & Hrun).
  apply model_from_info_inv in Hmodel as (p & Hp & -> & ->).
  exists info, p. cbv zeta. destruct content.
  - apply bind_inv_Return in Hrun as (records & s1 & Hrec & Hrun).
    unfold list_dir in Hrec. apply perm_read_inv in Hrec as [Hrec ->].
    apply bind_inv_Return in Hrun as (contents & s1 & Hcontents & Hrun).
    assert (s1 = s) as ->.
    { eapply mapM_leaves_state; [|done]. intros i ? ? c Hc.
      by apply model_from_info_inv in Hc as (_ & _ & _ & ->). }
    apply mapM_Forall2 in Hcontents.
    assert (Forall2 (λ i c, ∃ q, api_path_of self i = inr q
                                 ∧ c = model_of_info i VNone q)
              records contents) as Hshape.
    { eapply Forall2_impl; [done|]. intros i c (s1 & s2 & Hc).
      apply model_from_info_inv in Hc as (q & Hq & -> & _). by exists q. }
    assert (Forall
              (λ c : Model,
                 (let* v := getitem c "name" in
                  let* n := as_str v in
                  ret (should_list n && negb (startswith n "."))) s
                 = (Return (listable c), s)) contents) as Hpure.
    { clear -Hshape. induction Hshape as [|i c ? ? (q & _ & ->) _ IH];
        constructor; [apply run_listable|done]. }
    apply bind_inv_Return in Hrun as (listed & s2 & Hlisted & Hrun).
    rewrite (filterM_pure _ listable _ _ Hpure) in Hlisted.
    injection Hlisted as <- <-. injection Hrun as <- <-.
    repeat (split; [done|]). by exists records, contents.
  - by injection Hrun as <- <-.
Qed.

Lemma model_of_info_lookup (info : fs.FileInfo) (t p : string) :
  let m := model_of_info info (VStr t) p in
  m !! "name" = Some (VStr (rsplit_last p))
  ∧ m !! "path" = Some (VStr p)
  ∧ m !! "type" = Some (VStr t)
  ∧ m !! "content" = Some VNone
  ∧ m !! "format" = Some VNone
  ∧ m !! "writable" = Some (VBool true)
  ∧ m !! "message" = None
  ∧ m !! "mimetype"
    = Some (if String.eqb t "file" then of_option VStr (guess_type p)
            else VNone)
  ∧ m !! "size"
    = Some (if negb (String.eqb t "directory")
            then of_option VInt (fs.size info) else VNone).
Proof. by repeat split. Qed.

Lemma file_model_inv (path hdfs_path : string) (content : bool)
  (format : value) (s s' : FS) (m : Model) :
  _file_model self path hdfs_path content format s = (Return m, s') →
  ∃ info p,
    fs.get_file_info s hdfs_path = inr info ∧ fs.type info = fs.File
    ∧ s' = s ∧ api_path_of self info = inr p
    ∧ let base := model_of_info info (VStr "file") p in
      if content then
        ∃ c f,
          _read_file path hdfs_path format s = (Return (c, f), s)
          ∧ m = <["format" := VStr f]>
                  (<["content" := VStr c]>
                     match guess_type p with
                     | Some _ => base
                     | None =>
                         <["mimetype" :=
                             VStr (if String.eqb f "text" then "text/plain"
                                   else "application/octet-stream")]> base
                     end)
      else m = base.
Proof.
  unfold _file_model. intros Hrun.
  apply bind_inv_Return in Hrun as (info & s1 & Hinfo & Hrun).
  apply info_and_check_kind_kind in Hinfo as (Hinfo & Hkind & ->).
  apply bind_inv_Return in Hrun as (model & s1 & Hmodel & Hrun).
  apply model_from_info_inv in Hmodel as (p & Hp & -> & ->).
  exists info, p. cbv zeta. destruct content.
  - apply bind_inv_Return in Hrun as ([c f] & s1 & Hread & Hrun).
    pose proof Hread as Hread'.
    apply read_file_inv in Hread' as (i & b & _ & _ & _ & -> & Hf).
    apply bind_inv_Return in Hrun as (mimetype & s2 & Hmt & Hrun).
    apply getitem_inv in Hmt as [Hmt ->].
    destruct (model_of_info_lookup info "file" p)
      as (_ & _ & _ & _ & _ & _ & _ & Hmt' & _).
    rewrite Hmt' in Hmt. injection Hmt as <-.
    cbn [String.eqb Ascii.eqb Bool.eqb] in Hrun.
    apply bind_inv_Return in Hrun as (model' & s3 & Hmodel' & Hrun).
    injection Hrun as <- <-.
    destruct (guess_type p) as [mt|]; cbn [of_option is_None] in Hmodel'.
    + injection Hmodel' as <- <-. repeat (split; [done|]). by exists c, f.
    + apply bind_inv_Return in Hmodel' as (dt & s4 & Hdt & Hmodel').
      injection Hmodel' as <- <-. apply getitem_inv in Hdt as [Hdt ->].
      repeat (split; [done|]). exists c, f. split; [done|].
      by destruct Hf as [(-> & _)|(-> & _)]; injection Hdt as <-.
  - by injection Hrun as <- <-.
Qed.

Lemma notebook_model_inv (path hdfs_path : string) (content : bool)
  (s s' : FS) (m : Model) :
  _notebook_model self path hdfs_path content s = (Return m, s') →
  ∃ info p,
    fs.get_file_info s hdfs_path = inr info ∧ fs.type info = fs.File
    ∧ s' = s ∧ api_path_of self info = inr p
    ∧ let base := model_of_info info (VStr "notebook") p in
      if content then
        ∃ b text nb,
          fs.open_input_stream s hdfs_path = inr b
          ∧ decode_utf8 b = Some text ∧ nbformat_reads text = inr nb
          ∧ let full :=
              <["format" := VStr "json"]>
                (<["content" := mark_trusted_cells nb path]> base) in
            match validate_nb (mark_trusted_cells nb path) with
            | inr None => m = full
            | inr (Some msg) => m = <["message" := VStr msg]> full
            | inl _ => False
            end
      else m = base.
Proof.
  unfold _notebook_model. intros Hrun.
  apply bind_inv_Return in Hrun as (info & s1 & Hinfo & Hrun).
  apply info_and_check_kind_kind in Hinfo as (Hinfo & Hkind & ->).
  apply bind_inv_Return in Hrun as (model & s1 & Hmodel & Hrun).
  apply model_from_info_inv in Hmodel as (p & Hp & -> & ->).
  exists info, p. cbv zeta. destruct content.
  - apply bind_inv_Return in Hrun as (nb & s1 & Hnb & Hrun).
    unfold _read_notebook in Hnb.
    apply bind_inv_Return in Hnb as (b & s2 & Hb & Hnb).
    apply perm_read_inv in Hb as [Hb ->]. cbv zeta in Hnb.
    destruct (decode_utf8 b) as [text|] eqn:Hd; [|done].
    destruct (nbformat_reads text) as [e|nb'] eqn:Hp'; [done|].
    injection Hnb as <- <-.
    unfold validate_notebook_model in Hrun.
    apply bind_inv_Return in Hrun as (c & s2 & Hc & Hrun).
    apply getitem_inv in Hc as [Hc ->].
    rewrite lookup_insert_ne, lookup_insert_eq in Hc by done.
    injection Hc as <-. cbv zeta.
    destruct (validate_nb _) as [e|[msg|]] eqn:Hv; [done|..];
      injection Hrun as <- <-; repeat (split; [done|]);
      exists b, text, nb'; repeat (split; [done|]); by rewrite Hv.
  - by injection Hrun as <- <-.
Qed.

Lemma get_inv (path : string) (content : bool) (type format : value)
  (s s' : FS) (m : Model) :
  let hdfs_path :=
    to_fs_path path
      (get_prefix_from_fs_path path (root_dir self) (shared_dir self)) in
  get self path content type format s = (Return m, s') →
  s' = s
  ∧ ∃ info,
      fs.get_file_info s hdfs_path = inr info
      ∧ (negb (allow_hidden self)
         && is_hidden hdfs_path
              (get_prefix_from_hdfs_path hdfs_path (root_dir self)
                 (shared_dir self))) = false
      ∧ ∃ t,
          (if is_None type
           then ∃ i, infer_type hdfs_path s = (Return i, s) ∧ t = VStr i
           else t = type)
          ∧ if eq_str t "directory" then
              _dir_model self path hdfs_path content s = (Return m, s)
            else if eq_str t "notebook" then
              _notebook_model self path hdfs_path content s = (Return m, s)
            else _file_model self path hdfs_path content format s
                 = (Return m, s).
Proof.
  intros hdfs_path Hrun.
  pose proof (get_leaves_state self _ _ _ _ _ _ _ Hrun) as ->.
  split; [done|]. unfold get in Hrun. fold hdfs_path in Hrun.
  apply bind_inv_Return in Hrun as (found & s1 & Hfound & Hrun).
  unfold path_exist in Hfound.
  apply bind_inv_Return in Hfound as (info & s2 & Hstat & Hfound).
  apply stat_inv in Hstat as [Hstat ->]. injection Hfound as <- <-.
  exists info. split; [done|].
  destruct (negb (negb _)); [done|].
  destruct (negb (allow_hidden self) && _) eqn:Hh; [done|].
  split; [done|].
  apply bind_inv_Return in Hrun as (t & s1 & Ht & Hrun).
  exists t.
  assert (s1 = s ∧ if is_None type
                   then ∃ i, infer_type hdfs_path s = (Return i, s)
                             ∧ t = VStr i
                   else t = type) as [-> Ht'].
  { destruct (is_None type); [|by injection Ht as <- <-].
    apply bind_inv_Return in Ht as (i & s2 & Hi & Ht).
    injection Ht as <- <-.
    assert (s2 = s) as ->; [|by eauto].
    unfold infer_type in Hi.
    destruct (endswith _ _); [by injection Hi as _ <-|].
    apply bind_inv_Return in Hi as (d & s3 & Hd & Hi).
    rewrite (run_is_dir _ _ _ Hstat) in Hd. injection Hd as _ <-.
    by destruct d; injection Hi as _ <-. }
  split; [done|].
  destruct (eq_str t "directory"); [done|].
  by destruct (eq_str t "notebook").
Qed.

End Inversion.

Section Further.
Context {FS : Type} `{!fs.HadoopFileSystem FS} `{!Utils} `{!Collaborators}.
Variable self : Config.

(** ** What [get] raises *)

Local Abbreviation tame s m := (reads (raises_only (surfaced [400%Z; 403%Z])) s m).

Local Ltac surf := first [done | simpl; set_solver].

Lemma tame_perm_read {A} (path : string) (f : FS → fs.error + A) (s : FS) :
  tame s (perm_to_403 path (fs_read f)).
Proof.
  unfold reads. rewrite run_perm_read.
  destruct (f s) as [[?|?]|a]; eexists; (split; [done|]); surf.
Qed.

Lemma tame_info_and_check_kind (path hdfs_path : string) (kind : fs.FileType)
  (s : FS) (info : fs.FileInfo) :
  fs.get_file_info s hdfs_path = inr info →
  fs.type info ≠ fs.NotFound →
  tame s (_info_and_check_kind path hdfs_path kind).
Proof.
  intros E Hfound. unfold _info_and_check_kind, reads.
  rewrite (bind_Return _ _ _ _ _ (run_stat _ _ _ E)).
  destruct (fs.type info) eqn:Ht; [done|..];
    cbn [fs.FileType_eqb]; destruct kind; cbn [fs.FileType_eqb negb];
    eexists; (split; [done|]); surf.
Qed.

Lemma tame_model_from_info (info : fs.FileInfo) (type : value) (s : FS) :
  tame s (_model_from_info self info type).
Proof.
  unfold _model_from_info.
  destruct (to_api_path _ _); [by apply reads_raise|apply reads_ret].
Qed.

Lemma tame_build_model (path hdfs_path : string) (content : bool)
  (type format : value) (s : FS) (info : fs.FileInfo) :
  fs.get_file_info s hdfs_path = inr info →
  fs.type info ≠ fs.NotFound →
  tame s (build_model self path hdfs_path content type format).
Proof.
  intros E Hfound. unfold build_model.
  apply reads_bind.
  { destruct (is_None type); [|apply reads_ret].
    apply reads_bind; [|intros; apply reads_ret].
    unfold infer_type. destruct (endswith _ _); [apply reads_ret|].
    apply reads_bind.
    { eexists. by rewrite (run_is_dir _ _ _ E). }
    intros [] _; apply reads_ret. }
  intros t _.
  destruct (eq_str t "directory"); [|destruct (eq_str t "notebook")].
  - unfold _dir_model.
    apply reads_bind; [by eapply tame_info_and_check_kind|]. intros i _.
    apply reads_bind; [apply tame_model_from_info|]. intros model _.
    destruct content; [|apply reads_ret].
    apply reads_bind; [apply tame_perm_read|]. intros records _.
    apply reads_bind.
    { apply reads_mapM. intros a. apply tame_model_from_info. }
    intros contents _. apply reads_bind; [|intros; apply reads_ret].
    apply reads_filterM. intros c.
    apply reads_bind; [by apply reads_getitem|]. intros v _.
    apply reads_bind; [|intros; apply reads_ret].
    destruct v; first [apply reads_ret | by apply reads_raise].
  - unfold _notebook_model.
    apply reads_bind; [by eapply tame_info_and_check_kind|]. intros i _.
    apply reads_bind; [apply tame_model_from_info|]. intros model _.
    destruct content; [|apply reads_ret].
    apply reads_bind.
    + unfold _read_notebook.
      apply reads_bind; [apply tame_perm_read|]. intros b _. cbv zeta.
      destruct (decode_utf8 b) as [text|]; [|apply reads_raise; surf].
      destruct (nbformat_reads text);
        [apply reads_raise; surf|apply reads_ret].
    + intros nb _. unfold validate_notebook_model.
      apply reads_bind; [by apply reads_getitem|]. intros c _.
      destruct (validate_nb c) as [?|[?|]];
        first [apply reads_ret | by apply reads_raise].
  - unfold _file_model.
    apply reads_bind; [by eapply tame_info_and_check_kind|]. intros i _.
    apply reads_bind; [apply tame_model_from_info|]. intros model _.
    destruct content; [|apply reads_ret].
    apply reads_bind.
    + unfold _read_file. apply reads_bind.
      { eexists. by rewrite (run_is_file _ _ _ E). }
      intros f _. destruct (negb f); [apply reads_raise; surf|].
      apply reads_bind; [apply tame_perm_read|]. intros b _. cbv zeta.
      rewrite decode_ascii_encodebytes.
      destruct (is_None format), (eq_str format "text"), (decode_utf8 b);
        first [apply reads_ret | apply reads_raise; surf].
    + intros [c f] _.
      apply reads_bind; [by apply reads_getitem|]. intros mimetype _.
      apply reads_bind; [|intros; apply reads_ret].
      destruct (is_None mimetype); [|apply reads_ret].
      apply reads_bind; [by apply reads_getitem|]. intros; apply reads_ret.
Qed.

(** X1: [get] never changes the filesystem, whatever it is asked and
    whatever it returns or raises. *)
Theorem get_only_reads (path : string) (content : bool) (type format : value)
  (s : FS) :
  (get self path content type format s).2 = s.
Proof.
  destruct (get self path content type format s) as [r s'] eqn:E.
  by apply get_leaves_state in E.
Qed.

(** X2: once the stat of the path has answered, [get] raises no raw
    [PermissionError] (a listing or a read that the backend denies comes out
    as a 403), and an [HTTPError] it raises has status 400, 403 or 404. *)
Theorem get_error_surface (path : string) (content : bool)
  (type format : value) (s : FS) (info : fs.FileInfo) (e : exn) :
  fs.get_file_info s
    (to_fs_path path
       (get_prefix_from_fs_path path (root_dir self) (shared_dir self)))
  = inr info →
  (get self path content type format s).1 = Raise e →
  surfaced [400%Z; 403%Z; 404%Z] e.
Proof.
  intros E. rewrite (run_get self _ _ _ _ _ _ E).
  destruct (negb (negb _)) eqn:Hnf; [intros [= <-]; surf|].
  destruct (negb (allow_hidden self) && _); [intros [= <-]; surf|].
  destruct (tame_build_model path _ content type format s info E)
    as (r & -> & Hr).
  { intros Ht. by rewrite Ht in Hnf. }
  intros [= ->]. destruct e as [st msg| | | |]; simpl in Hr |- *; [|done..].
  rewrite !elem_of_cons, elem_of_nil in Hr. rewrite !elem_of_cons. tauto.
Qed.

(** ** The models [get] returns *)

Local Ltac lookups :=
  repeat first [rewrite lookup_insert_eq | rewrite lookup_insert_ne by done].

(** The three ways in which [get] returns a model. *)
Lemma get_cases (path : string) (content : bool) (type format : value)
  (s s' : FS) (m : Model) :
  let hdfs_path :=
    to_fs_path path
      (get_prefix_from_fs_path path (root_dir self) (shared_dir self)) in
  get self path content type format s = (Return m, s') →
  ∃ info p,
    fs.get_file_info s hdfs_path = inr info ∧ api_path_of self info = inr p
    ∧ ((fs.type info = fs.Directory
        ∧ let base := model_of_info info (VStr "directory") p in
          if content then
            ∃ records contents,
              fs.get_file_info_selector s hdfs_path false = inr records
              ∧ Forall2 (λ i c, ∃ q, api_path_of self i = inr q
                                     ∧ c = model_of_info i VNone q)
                  records contents
              ∧ m = <["format" := VStr "json"]>
                      (<["content" :=
                           VList (map VDict (List.filter listable contents))]>
                         base)
          else m = base)
       ∨ (fs.type info = fs.File
          ∧ let base := model_of_info info (VStr "notebook") p in
            if content then
              ∃ nb,
                let full :=
                  <["format" := VStr "json"]> (<["content" := nb]> base) in
                m = full ∨ ∃ msg, m = <["message" := VStr msg]> full
            else m = base)
       ∨ (fs.type info = fs.File
          ∧ let base := model_of_info info (VStr "file") p in
            if content then
              ∃ c f,
                _read_file path hdfs_path format s = (Return (c, f), s)
                ∧ m = <["format" := VStr f]>
                        (<["content" := VStr c]>
                           match guess_type p with
                           | Some _ => base
                           | None =>
                               <["mimetype" :=
                                   VStr (if String.eqb f "text"
                                         then "text/plain"
                                         else "application/octet-stream")]>
                                 base
                           end)
            else m = base)).
Proof.
  intros hdfs_path Hrun.
  apply get_inv in Hrun as (-> & info & Hstat & _ & t & _ & Hrun).
  fold hdfs_path in Hstat, Hrun.
  destruct (eq_str t "directory"); [|destruct (eq_str t "notebook")].
  - apply dir_model_inv in Hrun as (i & p & Hs & Hk & _ & Hp & Hm).
    rewrite Hs in Hstat. injection Hstat as <-.
    exists i, p. repeat (split; [done|]). left. by split.
  - apply notebook_model_inv in Hrun as (i & p & Hs & Hk & _ & Hp & Hm).
    rewrite Hs in Hstat. injection Hstat as <-.
    exists i, p. repeat (split; [done|]). right. left. split; [done|].
    cbv zeta in Hm |- *. destruct content; [|done].
    destruct Hm as (b & text & nb & _ & _ & _ & Hm).
    exists (mark_trusted_cells nb path).
    destruct (validate_nb _) as [?|[msg|]]; [done|right; by exists msg|
      by left].
  - apply file_model_inv in Hrun as (i & p & Hs & Hk & _ & Hp & Hm).
    rewrite Hs in Hstat. injection Hstat as <-.
    exists i, p. repeat (split; [done|]). right. right. by split.
Qed.

(** X3: a model that [get] returns holds content exactly when content was
    asked for.  Without content both 'content' and 'format' are null; with
    content a directory holds a list and format 'json', a notebook format
    'json', and a file a string and format 'text' or 'base64'. *)
Theorem get_content_as_requested (path : string) (content : bool)
  (type format : value) (s s' : FS) (m : Model) :
  get self path content type format s = (Return m, s') →
  if content then
    (m !! "type" = Some (VStr "directory")
     ∧ m !! "format" = Some (VStr "json")
     ∧ ∃ l, m !! "content" = Some (VList l))
    ∨ (m !! "type" = Some (VStr "notebook")
       ∧ m !! "format" = Some (VStr "json")
       ∧ is_Some (m !! "content"))
    ∨ (m !! "type" = Some (VStr "file")
       ∧ (m !! "format" = Some (VStr "text")
          ∨ m !! "format" = Some (VStr "base64"))
       ∧ ∃ c, m !! "content" = Some (VStr c))
  else m !! "content" = Some VNone ∧ m !! "format" = Some VNone.
Proof.
  intros Hrun.
  apply get_cases in Hrun as (info & p & _ & _ & [[_ Hm]|[[_ Hm]|[_ Hm]]]);
    cbv zeta in Hm; destruct content.
  - destruct Hm as (records & contents & _ & _ & ->). left.
    lookups. split; [apply (model_of_info_lookup info "directory" p)|].
    split; [done|by eauto].
  - subst m. split; apply (model_of_info_lookup info "directory" p).
  - destruct Hm as (nb & [->|[msg ->]]); right; left; lookups;
      (split; [apply (model_of_info_lookup info "notebook" p)|]);
      (split; [done|by eauto]).
  - subst m. split; apply (model_of_info_lookup info "notebook" p).
  - destruct Hm as (c & f & Hread & ->). right. right. lookups.
    apply read_file_inv in Hread as (i & b & _ & _ & _ & _ & Hf).
    split; [|split; [|by eauto]].
    + destruct (guess_type p); lookups;
        apply (model_of_info_lookup info "file" p).
    + destruct Hf as [(Hf & _)|(Hf & _)]; rewrite Hf; by auto.
  - subst m. split; apply (model_of_info_lookup info "file" p).
Qed.

(** The fields of a model that [get] returns are those [_model_from_info]
    gave it, but for 'content', 'format', 'message', and the 'mimetype' of a
    file. *)
Lemma get_base (path : string) (content : bool) (type format : value)
  (s s' : FS) (m : Model) :
  get self path content type format s = (Return m, s') →
  ∃ info p t,
    fs.get_file_info s
      (to_fs_path path
         (get_prefix_from_fs_path path (root_dir self) (shared_dir self)))
    = inr info
    ∧ api_path_of self info = inr p
    ∧ ((t = "directory" ∧ fs.type info = fs.Directory)
       ∨ ((t = "notebook" ∨ t = "file") ∧ fs.type info = fs.File))
    ∧ (∀ k, k ≠ "content" → k ≠ "format" → k ≠ "mimetype" →
            k ≠ "message" →
            m !! k = model_of_info info (VStr t) p !! k)
    ∧ (t ≠ "file" → m !! "mimetype" = Some VNone).
Proof.
  intros Hrun.
  apply get_cases in Hrun
    as (info & p & Hs & Hp & [[Hk Hm]|[[Hk Hm]|[Hk Hm]]]);
    cbv zeta in Hm.
  - exists info, p, "directory". repeat (split; [by auto|]).
    destruct content;
      [destruct Hm as (records & contents & _ & _ & ->)|subst m].
    + split; [intros k ? ? ? ?; by lookups|]. intros _. by lookups.
    + by split.
  - exists info, p, "notebook". repeat (split; [by auto|]).
    destruct content; [destruct Hm as (nb & [->|[msg ->]])|subst m].
    + split; [intros k ? ? ? ?; by lookups|]. intros _. by lookups.
    + split; [intros k ? ? ? ?; by lookups|]. intros _. by lookups.
    + by split.
  - exists info, p, "file". repeat (split; [by auto|]).
    destruct content; [destruct Hm as (c & f & _ & ->)|subst m].
    + split; [|done]. intros k ? ? ? ?. lookups.
      destruct (guess_type p); by lookups.
    + by split.
Qed.

(** X4: the type of a model that [get] returns is 'directory', 'notebook'
    or 'file', whatever type was asked for, and it agrees with the backend:
    'directory' goes with a backend directory, the other two with a backend
    file. *)
Theorem get_type_matches_backend (path : string) (content : bool)
  (type format : value) (s s' : FS) (m : Model) :
  get self path content type format s = (Return m, s') →
  ∃ info,
    fs.get_file_info s
      (to_fs_path path
         (get_prefix_from_fs_path path (root_dir self) (shared_dir self)))
    = inr info
    ∧ ((m !! "type" = Some (VStr "directory")
        ∧ fs.type info = fs.Directory)
       ∨ ((m !! "type" = Some (VStr "notebook")
           ∨ m !! "type" = Some (VStr "file"))
          ∧ fs.type info = fs.File)).
Proof.
  intros Hrun.
  apply get_base in Hrun as (info & p & t & Hs & _ & Ht & Hk & _).
  exists info. split; [done|].
  rewrite (Hk "type") by done.
  destruct (model_of_info_lookup info t p) as (_ & _ & -> & _).
  destruct Ht as [[-> ?]|[[->| ->] ?]]; by auto.
Qed.

(** X5: every model that [get] returns is writable; a directory has null
    size and null mimetype, a notebook null mimetype, and a notebook or a
    file has the size the backend reports. *)
Theorem get_size_and_mimetype (path : string) (content : bool)
  (type format : value) (s s' : FS) (m : Model) :
  get self path content type format s = (Return m, s') →
  ∃ info,
    fs.get_file_info s
      (to_fs_path path
         (get_prefix_from_fs_path path (root_dir self) (shared_dir self)))
    = inr info
    ∧ m !! "writable" = Some (VBool true)
    ∧ (m !! "type" = Some (VStr "directory") →
       m !! "size" = Some VNone ∧ m !! "mimetype" = Some VNone)
    ∧ (m !! "type" = Some (VStr "notebook") →
       m !! "size" = Some (of_option VInt (fs.size info))
       ∧ m !! "mimetype" = Some VNone)
    ∧ (m !! "type" = Some (VStr "file") →
       m !! "size" = Some (of_option VInt (fs.size info))).
Proof.
  intros Hrun.
  apply get_base in Hrun as (info & p & t & Hs & _ & Ht & Hk & Hmt).
  exists info. split; [done|].
  rewrite (Hk "writable"), (Hk "type"), (Hk "size") by done.
  destruct (model_of_info_lookup info t p)
    as (_ & _ & -> & _ & _ & -> & _ & _ & ->).
  split; [done|].
  destruct Ht as [[-> _]|[[->| ->] _]];
    (split; [|split]); intros [=]; split || idtac; auto.
Qed.

(** X6: the mimetype of a file model is the one guessed from the API path;
    when none is guessed it is null without content, 'text/plain' with text
    content and 'application/octet-stream' with base64 content. *)
Theorem get_file_mimetype (path : string) (content : bool)
  (type format : value) (s s' : FS) (m : Model) :
  get self path content type format s = (Return m, s') →
  m !! "type" = Some (VStr "file") →
  ∃ p,
    m !! "path" = Some (VStr p)
    ∧ match guess_type p with
      | Some guessed => m !! "mimetype" = Some (VStr guessed)
      | None =>
          (m !! "format" = Some VNone ∧ m !! "mimetype" = Some VNone)
          ∨ (m !! "format" = Some (VStr "text")
             ∧ m !! "mimetype" = Some (VStr "text/plain"))
          ∨ (m !! "format" = Some (VStr "base64")
             ∧ m !! "mimetype" = Some (VStr "application/octet-stream"))
      end.
Proof.
  intros Hrun Htype.
  apply get_cases in Hrun
    as (info & p & Hs & Hp & [[Hk Hm]|[[Hk Hm]|[Hk Hm]]]);
    cbv zeta in Hm.
  - exfalso. destruct content;
      [destruct Hm as (records & contents & _ & _ & ->)|subst m];
      revert Htype; lookups;
      by destruct (model_of_info_lookup info "directory" p)
        as (_ & _ & -> & _).
  - exfalso. destruct content;
      [destruct Hm as (nb & [->|[msg ->]])|subst m];
      revert Htype; lookups;
      by destruct (model_of_info_lookup info "notebook" p)
        as (_ & _ & -> & _).
  - exists p.
    destruct (model_of_info_lookup info "file" p)
      as (_ & Hpath & _ & _ & Hfmt & _ & _ & Hmt & _).
    cbn [String.eqb Ascii.eqb Bool.eqb] in Hmt.
    destruct content; [destruct Hm as (c & f & Hread & ->)|subst m].
    + apply read_file_inv in Hread as (i & b & _ & _ & _ & _ & Hf).
      lookups. destruct (guess_type p) as [guessed|]; lookups;
        (split; [done|]); [done|].
      destruct Hf as [(Hf & _)|(Hf & _)]; rewrite Hf; by auto.
    + split; [done|]. rewrite Hmt.
      destruct (guess_type p); [done|]. by left.
Qed.

(** ** Directory listings *)

Lemma model_of_info_child (i : fs.FileInfo) (q : string) :
  let c := model_of_info i VNone q in
  c !! "name" = Some (VStr (rsplit_last q))
  ∧ c !! "path" = Some (VStr q)
  ∧ c !! "content" = Some VNone
  ∧ c !! "format" = Some VNone
  ∧ listable c
    = should_list (rsplit_last q) && negb (startswith (rsplit_last q) ".").
Proof. by repeat split. Qed.

(** X7: the listing of a directory model holds, in the order of the
    backend's listing, the models of exactly those children whose name
    [should_list] accepts and that does not start with a dot; the children
    carry no content of their own. *)
Theorem dir_model_listing (path hdfs_path : string) (s s' : FS) (m : Model) :
  _dir_model self path hdfs_path true s = (Return m, s') →
  ∃ records contents,
    fs.get_file_info_selector s hdfs_path false = inr records
    ∧ Forall2 (λ i c, ∃ q, api_path_of self i = inr q
                           ∧ c = model_of_info i VNone q) records contents
    ∧ m !! "content"
      = Some (VList (map VDict (List.filter listable contents)))
    ∧ (∀ c, c ∈ contents →
         (c ∈ List.filter listable contents
          ↔ ∃ n, c !! "name" = Some (VStr n) ∧ should_list n = true
                 ∧ startswith n "." = false))
    ∧ (∀ c, c ∈ contents →
         c !! "content" = Some VNone ∧ c !! "format" = Some VNone).
Proof.
  intros Hrun.
  apply dir_model_inv in Hrun as (info & p & _ & _ & _ & _ & Hm).
  cbv zeta in Hm. destruct Hm as (records & contents & Hrec & Hshape & ->).
  exists records, contents. repeat (split; [done|]).
  assert (∀ c, c ∈ contents → ∃ i q, c = model_of_info i VNone q) as Hc.
  { intros c Hin. apply list_elem_of_lookup in Hin as [k Hk].
    destruct (Forall2_lookup_r _ _ _ _ _ Hshape Hk) as (i & _ & q & _ & ->).
    by eauto. }
  split.
  - intros c Hin. destruct (Hc c Hin) as (i & q & ->).
    destruct (model_of_info_child i q) as (Hn & _ & _ & _ & Hl).
    rewrite list_elem_of_In, filter_In, <- list_elem_of_In, Hl. split.
    + intros [_ Hkeep]. apply andb_prop in Hkeep as [? ?%negb_true_iff].
      by eauto.
    + intros (n & Hn' & ? & ?). rewrite Hn in Hn'. injection Hn' as <-.
      split; [done|]. apply andb_true_intro. by rewrite negb_true_iff.
  - intros c Hin. destruct (Hc c Hin) as (i & q & ->).
    split; apply (model_of_info_child i q).
Qed.

(** ** Names *)

Lemma string_app_nil_r (s : string) : s ++ "" = s.
Proof. induction s as [|c s IH]; [done|]. by rewrite append_cons, IH. Qed.

Lemma string_app_assoc (a b c : string) : (a ++ b) ++ c = a ++ (b ++ c).
Proof.
  induction a as [|x a IH]; [done|]. by rewrite !append_cons, IH.
Qed.

Lemma contains_slash_app (a b : string) :
  contains_slash (a ++ b) = contains_slash a || contains_slash b.
Proof.
  induction a as [|x a IH]; [done|].
  rewrite append_cons. cbn [contains_slash]. by rewrite IH, orb_assoc.
Qed.

Lemma rsplit_go_spec (s pre : string) :
  contains_slash pre = false →
  contains_slash (rsplit_go s (pre ++ s)) = false
  ∧ (pre ++ s = rsplit_go s (pre ++ s)
     ∨ ∃ q, pre ++ s = q ++ "/" ++ rsplit_go s (pre ++ s)).
Proof.
  revert pre. induction s as [|c s IH]; intros pre Hpre.
  - cbn [rsplit_go]. rewrite string_app_nil_r. by auto.
  - cbn [rsplit_go]. destruct (Ascii.eqb c "/") eqn:Hc.
    + apply Ascii.eqb_eq in Hc as ->.
      destruct (IH "" eq_refl) as [Hno Hsplit].
      change ("" ++ s) with s in Hno, Hsplit. split; [done|]. right.
      destruct Hsplit as [Heq|[q Hq]].
      * exists pre. by rewrite <- Heq.
      * exists (pre ++ "/" ++ q). rewrite !string_app_assoc.
        do 2 f_equal. exact Hq.
    + assert (pre ++ String c s = (pre ++ String c "") ++ s) as ->.
      { by rewrite string_app_assoc. }
      apply IH. rewrite contains_slash_app. cbn [contains_slash].
      by rewrite Hpre, Hc.
Qed.

(** [rsplit_last s] holds no slash, and is all of [s] or what follows a
    slash in it. *)
Lemma rsplit_last_spec (s : string) :
  contains_slash (rsplit_last s) = false
  ∧ (s = rsplit_last s ∨ ∃ q, s = q ++ "/" ++ rsplit_last s).
Proof. exact (rsplit_go_spec s "" eq_refl). Qed.

(** X8: in a model that [get] returns, 'path' is the API path of the entry
    the backend reported, and 'name' is its last segment: it holds no slash,
    and the path is the name alone or ends in a slash and the name. *)
Theorem get_name_is_last_segment (path : string) (content : bool)
  (type format : value) (s s' : FS) (m : Model) :
  get self path content type format s = (Return m, s') →
  ∃ info p n,
    fs.get_file_info s
      (to_fs_path path
         (get_prefix_from_fs_path path (root_dir self) (shared_dir self)))
    = inr info
    ∧ api_path_of self info = inr p
    ∧ m !! "path" = Some (VStr p)
    ∧ m !! "name" = Some (VStr n)
    ∧ contains_slash n = false
    ∧ (p = n ∨ ∃ q, p = q ++ "/" ++ n).
Proof.
  intros Hrun.
  apply get_base in Hrun as (info & p & t & Hs & Hp & _ & Hk & _).
  exists info, p, (rsplit_last p). repeat (split; [done|]).
  rewrite (Hk "path"), (Hk "name") by done.
  destruct (model_of_info_lookup info t p) as (-> & -> & _).
  repeat (split; [done|]). apply rsplit_last_spec.
Qed.

(** ** Saving *)

Lemma eq_str_true (v : value) (lit : string) :
  eq_str v lit = true → v = VStr lit.
Proof.
  destruct v; try done. simpl. by intros ->%String.eqb_eq.
Qed.

(** What UTF-8 encodes, UTF-8 decodes, and the other way round. *)
Lemma decode_utf8_encode_utf8 (text : string) (b : bytes) :
  encode_utf8 text = Some b ↔ decode_utf8 b = Some text.
Proof.
  unfold encode_utf8, decode_utf8. split.
  - destruct (utf8_valid _) eqn:Hv; [|done]. intros [= <-].
    by rewrite Hv, string_of_list_byte_of_string.
  - destruct (utf8_valid (map _ b)) eqn:Hv; [|done]. intros [= <-].
    by rewrite list_byte_of_string_of_list_byte, Hv.
Qed.

Lemma run_info_and_check_kind (path hdfs_path : string)
  (kind : fs.FileType) (s : FS) (info : fs.FileInfo) :
  fs.get_file_info s hdfs_path = inr info →
  fs.type info = kind →
  kind ≠ fs.NotFound →
  _info_and_check_kind path hdfs_path kind s = (Return info, s).
Proof.
  intros E <- Hfound. unfold _info_and_check_kind.
  rewrite (bind_Return _ _ _ _ _ (run_stat _ _ _ E)).
  by destruct (fs.type info).
Qed.

Lemma run_model_from_info (info : fs.FileInfo) (type : value) (p : string)
  (s : FS) :
  api_path_of self info = inr p →
  _model_from_info self info type s = (Return (model_of_info info type p), s).
Proof.
  unfold api_path_of, _model_from_info. by intros ->.
Qed.

(** [save], when it returns: the dispatch on the type returned a message,
    and the model is the one [get] then read, with that message. *)
Lemma save_inv (model : Model) (path : string) (s s' : FS) (m : Model) :
  let hdfs_path :=
    to_fs_path path
      (get_prefix_from_fs_path path (root_dir self) (shared_dir self)) in
  save self model path s = (Return m, s') →
  ∃ typ message m0,
    model !! "type" = Some typ
    ∧ ((typ = VStr "notebook"
        ∧ _save_notebook path hdfs_path model s = (Return message, s'))
       ∨ (typ = VStr "file" ∧ message = VNone
          ∧ _save_file path hdfs_path model s = (Return tt, s'))
       ∨ (typ = VStr "directory" ∧ message = VNone
          ∧ _save_directory self path hdfs_path s = (Return tt, s')))
    ∧ get self path false typ VNone s' = (Return m0, s')
    ∧ m = if negb (is_None message) then <["message" := message]> m0
          else m0.
Proof.
  intros hdfs_path Hrun. unfold save in Hrun. fold hdfs_path in Hrun.
  destruct (model !! "type") as [typ|]; [|done].
  destruct (negb _ && negb _); [done|].
  apply bind_inv_Return in Hrun as (message & s1 & Hdispatch & Hrun).
  apply bind_inv_Return in Hrun as (m0 & s2 & Hget & Hrun).
  pose proof (get_leaves_state self _ _ _ _ _ _ _ Hget) as ->.
  assert (s' = s1 ∧ m = if negb (is_None message)
                        then <["message" := message]> m0 else m0)
    as [-> ->].
  { by destruct (negb (is_None message)); injection Hrun as <- <-. }
  exists typ, message, m0. split; [done|]. split; [|done].
  destruct (eq_str typ "notebook") eqn:Hn.
  { left. by apply eq_str_true in Hn. }
  destruct (eq_str typ "file") eqn:Hf.
  { right. left. apply eq_str_true in Hf.
    apply bind_inv_Return in Hdispatch as ([] & s2 & Hsave & Hret).
    by injection Hret as <- <-. }
  destruct (eq_str typ "directory") eqn:Hd; [|done].
  right. right. apply eq_str_true in Hd.
  apply bind_inv_Return in Hdispatch as ([] & s2 & Hsave & Hret).
  by injection Hret as <- <-.
Qed.

(** X9: the model that [save] returns is read from the backend after the
    write: it carries no content and no format, and its type is the type
    of the model that was saved. *)
Theorem save_returns_model_without_content (model : Model) (path : string)
  (s s' : FS) (m : Model) :
  save self model path s = (Return m, s') →
  m !! "content" = Some VNone
  ∧ m !! "format" = Some VNone
  ∧ m !! "type" = model !! "type"
  ∧ (m !! "type" = Some (VStr "notebook")
     ∨ m !! "type" = Some (VStr "file")
     ∨ m !! "type" = Some (VStr "directory")).
Proof.
  intros Hrun.
  apply save_inv in Hrun as (typ & message & m0 & Htyp & Hd & Hget & ->).
  rewrite Htyp.
  assert (∃ t, typ = VStr t
               ∧ (t = "notebook" ∨ t = "file" ∨ t = "directory"))
    as (t & -> & Ht).
  { destruct Hd as [[-> _]|[(-> & _)|(-> & _)]]; by eauto. }
  apply get_inv in Hget as (_ & info & _ & _ & t' & Ht' & Hbuild).
  cbn [is_None] in Ht'. subst t'.
  assert (∃ i p, m0 = model_of_info i (VStr t) p) as (i & p & ->).
  { destruct Ht as [->|[->| ->]];
      cbn [eq_str String.eqb Ascii.eqb Bool.eqb] in Hbuild.
    - apply notebook_model_inv in Hbuild as (i & p & _ & _ & _ & _ & Hm).
      by eauto.
    - apply file_model_inv in Hbuild as (i & p & _ & _ & _ & _ & Hm).
      by eauto.
    - apply dir_model_inv in Hbuild as (i & p & _ & _ & _ & _ & Hm).
      by eauto. }
  destruct (model_of_info_lookup i t p)
    as (_ & _ & Htype & Hc & Hf & _).
  assert (∀ k, k ≠ "message" →
            (if negb (is_None message)
             then <["message" := message]> (model_of_info i (VStr t) p)
             else model_of_info i (VStr t) p) !! k
            = model_of_info i (VStr t) p !! k) as Hk.
  { intros k Hne. destruct (negb (is_None message)); by lookups. }
  rewrite !Hk by done. repeat (split; [done|]).
  rewrite Htype. destruct Ht as [->|[->| ->]]; by auto.
Qed.

(** [_save_file], once the format is known to be 'text' or 'base64'. *)
Lemma run_save_file (path hdfs_path : string) (model : Model)
  (format content : value) (s : FS) :
  model !! "format" = Some format →
  model !! "content" = Some content →
  format = VStr "text" ∨ format = VStr "base64" →
  _save_file path hdfs_path model s
  = (let* bcontent :=
       try_except
         (if eq_str format "text" then encode encode_utf8 content
          else
            let* b64_bytes := encode encode_ascii content in
            match decodebytes b64_bytes with
            | inr b => ret b
            | inl e => raise (Exception e)
            end)
         (λ e, raise (HTTPError 400
                        ("Encoding error saving " ++ path ++ ": "
                         ++ str_exn e))) in
     perm_to_403 path (fs_write (fs.open_output_stream hdfs_path bcontent)))
      s.
Proof.
  intros Hf Hc Hfmt. unfold _save_file, getitem. rewrite Hf, Hc.
  unfold bind at 1 2 3. unfold ret at 1 2.
  by destruct Hfmt as [-> | ->].
Qed.

(** X10: a file saved as text is read back as the same text.  When [save]
    returns for a model of type 'file' and format 'text', and the backend
    then hands back the bytes it was given, [get] with content, for type
    'file' and format 'text' or none, returns that text with format
    'text'. *)
Theorem save_text_then_get (model : Model) (path text : string)
  (format : value) (s s' : FS) (m : Model) :
  let hdfs_path :=
    to_fs_path path
      (get_prefix_from_fs_path path (root_dir self) (shared_dir self)) in
  model !! "type" = Some (VStr "file") →
  model !! "format" = Some (VStr "text") →
  model !! "content" = Some (VStr text) →
  save self model path s = (Return m, s') →
  (∀ b, encode_utf8 text = Some b →
        fs.open_input_stream s' hdfs_path = inr b) →
  format = VNone ∨ format = VStr "text" →
  ∃ m',
    get self path true (VStr "file") format s' = (Return m', s')
    ∧ m' !! "content" = Some (VStr text)
    ∧ m' !! "format" = Some (VStr "text")
    ∧ m' !! "type" = Some (VStr "file").
Proof.
  intros hdfs_path Ht Hf Hc Hrun Hback Hformat.
  apply save_inv in Hrun as (typ & message & m0 & Htyp & Hd & Hget & _).
  fold hdfs_path in Hd. rewrite Ht in Htyp. injection Htyp as <-.
  destruct Hd as [[[=] _]|[(_ & _ & Hsave)|([=] & _)]].
  assert (∃ b, encode_utf8 text = Some b) as [b Hb].
  { rewrite (run_save_file _ _ _ _ _ _ Hf Hc) in Hsave by auto.
    cbn [eq_str String.eqb Ascii.eqb Bool.eqb encode] in Hsave.
    destruct (encode_utf8 text) as [b|]; [by eauto|].
    by unfold bind, try_except, raise in Hsave. }
  specialize (Hback b Hb). apply decode_utf8_encode_utf8 in Hb.
  apply get_inv in Hget as (_ & info & Hstat & Hh & t & -> & Hbuild).
  fold hdfs_path in Hstat, Hh, Hbuild.
  cbn [eq_str String.eqb Ascii.eqb Bool.eqb] in Hbuild.
  apply file_model_inv in Hbuild as (i & p & Hs & Hk & _ & Hp & _).
  rewrite Hs in Hstat. injection Hstat as <-.
  assert (_read_file path hdfs_path format s' = (Return (text, "text"), s'))
    as Hread.
  { rewrite (run_read_file path _ format _ _ _ Hs Hk Hback), Hb.
    by destruct Hformat as [-> | ->]. }
  assert (∃ m', _file_model self path hdfs_path true format s'
                = (Return m', s')
                ∧ m' !! "content" = Some (VStr text)
                ∧ m' !! "format" = Some (VStr "text")
                ∧ m' !! "type" = Some (VStr "file")) as (m' & Hm' & Hl).
  { unfold _file_model.
    rewrite (bind_Return _ _ _ _ _
               (run_info_and_check_kind path _ _ _ _ Hs Hk
                  ltac:(done))).
    rewrite (bind_Return _ _ _ _ _ (run_model_from_info _ _ _ _ Hp)).
    rewrite (bind_Return _ _ _ _ _ Hread).
    destruct (model_of_info_lookup i "file" p)
      as (_ & _ & Htype & _ & _ & _ & _ & Hmt & _).
    unfold getitem at 1. rewrite Hmt.
    cbn [String.eqb Ascii.eqb Bool.eqb].
    destruct (guess_type p) as [guessed|]; cbn [of_option is_None].
    - eexists. split; [reflexivity|]. by lookups.
    - eexists. split; [reflexivity|]. by lookups. }
  exists m'. split; [|done].
  rewrite (run_get self _ _ _ _ _ _ Hs). fold hdfs_path.
  rewrite Hk, Hh. cbn [fs.FileType_eqb negb].
  unfold build_model. cbn [is_None].
  unfold bind at 1. unfold ret at 1.
  by cbn [eq_str String.eqb Ascii.eqb Bool.eqb].
Qed.

(** X11: a file model without a 'format' key is not refused with a 400:
    [save] raises [KeyError] for 'format', and writes nothing. *)
Theorem save_file_without_format (model : Model) (path : string) (s : FS) :
  model !! "type" = Some (VStr "file") →
  is_Some (model !! "content") →
  model !! "format" = None →
  save self model path s = (Raise (KeyError "format"), s).
Proof.
  intros Ht Hc Hf. rewrite (save_file_run self _ _ _ Ht Hc).
  apply bind_Raise. unfold _save_file, getitem. by rewrite Hf.
Qed.

(** X12: content that is not a string cannot be encoded: with format
    'text' or 'base64', [_save_file] fails with a 400 and writes nothing. *)
Theorem save_file_content_not_a_string (path hdfs_path : string)
  (model : Model) (format content : value) (s : FS) :
  model !! "format" = Some format →
  model !! "content" = Some content →
  format = VStr "text" ∨ format = VStr "base64" →
  (∀ text, content ≠ VStr text) →
  _save_file path hdfs_path model s
  = (Raise (HTTPError 400
       ("Encoding error saving " ++ path ++ ": AttributeError")), s).
Proof.
  intros Hf Hc Hfmt Hstr.
  rewrite (run_save_file _ _ _ _ _ _ Hf Hc Hfmt).
  destruct content as [| | |text| | |]; [..|by destruct (Hstr text)| | |];
    by destruct Hfmt as [-> | ->].
Qed.

(** X13: the message of a saved notebook.  When [save] returns for a
    notebook model, a validation message becomes the 'message' of the
    returned model; without one, the returned model has the message the
    saved model came with, if it had one that is not null. *)
Theorem save_notebook_message (model : Model) (path : string) (c : value)
  (s s' : FS) (m : Model) :
  model !! "type" = Some (VStr "notebook") →
  model !! "content" = Some c →
  save self model path s = (Return m, s') →
  match validate_nb c with
  | inr (Some msg) => m !! "message" = Some (VStr msg)
  | inr None =>
      m !! "message"
      = match model !! "message" with
        | Some VNone | None => None
        | Some v => Some v
        end
  | inl _ => False
  end.
Proof.
  intros Ht Hc Hrun.
  apply save_inv in Hrun as (typ & message & m0 & Htyp & Hd & Hget & ->).
  rewrite Ht in Htyp. injection Htyp as <-.
  destruct Hd as [[_ Hsave]|[([=] & _)|([=] & _)]].
  assert (m0 !! "message" = None) as Hm0.
  { apply get_inv in Hget as (_ & info & _ & _ & t & -> & Hbuild).
    cbn [eq_str String.eqb Ascii.eqb Bool.eqb] in Hbuild.
    apply notebook_model_inv in Hbuild as (i & p & _ & _ & _ & _ & ->).
    apply (model_of_info_lookup i "notebook" p). }
  unfold _save_notebook in Hsave.
  apply bind_inv_Return in Hsave as (c' & s1 & Hc' & Hsave).
  apply getitem_inv in Hc' as [Hc' ->]. rewrite Hc in Hc'.
  injection Hc' as <-.
  apply bind_inv_Return in Hsave as (b & s1 & _ & Hsave).
  apply bind_inv_Return in Hsave as ([] & s2 & _ & Hsave).
  apply bind_inv_Return in Hsave as (model' & s3 & Hv & Hsave).
  injection Hsave as <- _.
  unfold validate_notebook_model in Hv.
  apply bind_inv_Return in Hv as (c' & s4 & Hc' & Hv).
  apply getitem_inv in Hc' as [Hc' ->]. rewrite Hc in Hc'.
  injection Hc' as <-.
  destruct (validate_nb c) as [e|[msg|]]; [done|..];
    injection Hv as <- _; unfold dict_get.
  - rewrite lookup_insert_eq. cbn. by rewrite lookup_insert_eq.
  - destruct (model !! "message") as [v|]; cbn [default id is_None negb];
      [|done].
    destruct v; cbn [is_None negb]; by rewrite ?lookup_insert_eq.
Qed.

(** ** Errors of [rename_file] and [delete_file] *)

(** X14: once the stat of the destination has answered, [rename_file]
    raises nothing but an [HTTPError], with status 409, 403 or 500: no
    exception of the backend leaves it as it came. *)
Theorem rename_file_raises_http (old_path new_path : string) (s : FS)
  (info : fs.FileInfo) (e : exn) :
  fs.get_file_info s
    (to_fs_path new_path
       (get_prefix_from_fs_path new_path (root_dir self) (shared_dir self)))
  = inr info →
  (rename_file self old_path new_path s).1 = Raise e →
  http_only [409%Z; 403%Z; 500%Z] e.
Proof.
  intros E. unfold rename_file.
  destruct (String.eqb old_path new_path); [done|].
  rewrite (bind_Return _ _ _ _ _ (run_path_exist _ _ _ E)).
  destruct (negb _).
  { intros [= <-]. simpl. set_solver. }
  unfold try_except at 1. rewrite run_perm_write.
  destruct (fs.move _ _ s) as [[[?|?]|] ?]; [..|done];
    intros [= <-]; simpl; set_solver.
Qed.

(** X15: once the stat of the path has answered, [delete_file] raises an
    [HTTPError] with status 404, 400 or 403, or the backend's own [OSError]:
    a backend failure other than for permission is not wrapped, and a raw
    [PermissionError] never comes out. *)
Theorem delete_file_error_surface (path : string) (s : FS)
  (info : fs.FileInfo) (e : exn) :
  fs.get_file_info s
    (to_fs_path path
       (get_prefix_from_fs_path path (root_dir self) (shared_dir self)))
  = inr info →
  (delete_file self path s).1 = Raise e →
  http_only [404%Z; 400%Z; 403%Z] e ∨ ∃ msg, e = OSError msg.
Proof.
  intros E. unfold delete_file.
  rewrite (bind_Return _ _ _ _ _ (run_path_exist _ _ _ E)).
  destruct (negb (negb _)).
  { intros [= <-]. left. simpl. set_solver. }
  rewrite (bind_Return _ _ _ _ _ (run_is_dir _ _ _ E)).
  destruct (fs.FileType_eqb _ fs.Directory).
  - unfold _is_dir_empty, list_dir. unfold bind at 1 2.
    rewrite run_perm_read.
    destruct (fs.get_file_info_selector s _ false) as [[?|?]|files].
    + intros [= <-]. left. simpl. set_solver.
    + intros [= <-]. by eauto.
    + destruct files as [|f files]; unfold ret at 1;
        [cbn [negb]|destruct (bool_decide _); cbn [negb]];
        try (intros [= <-]; left; simpl; set_solver);
        rewrite run_perm_write;
        (destruct (fs.delete_dir _ s) as [[[?|?]|] ?]; [..|done];
         intros [= <-]; [left; simpl; set_solver|by eauto]).
  - rewrite run_perm_write.
    destruct (fs.delete_file _ s) as [[[?|?]|] ?]; [..|done];
      intros [= <-]; [left; simpl; set_solver|by eauto].
Qed.

(** ** Existence tests *)

(** X16: on one state, [file_exists] and [dir_exists] are never both true,
    and each of them implies [exists_]; [exists_] alone is true for an
    entry whose type is unknown. *)
Theorem exists_tests_agree (path : string) (s : FS) (info : fs.FileInfo) :
  fs.get_file_info s
    (to_fs_path path
       (get_prefix_from_fs_path path (root_dir self) (shared_dir self)))
  = inr info →
  ∃ f d x,
    file_exists self path s = (Return f, s)
    ∧ dir_exists self path s = (Return d, s)
    ∧ exists_ self path s = (Return x, s)
    ∧ (f = true ↔ fs.type info = fs.File)
    ∧ (d = true ↔ fs.type info = fs.Directory)
    ∧ (x = true ↔ fs.type info ≠ fs.NotFound)
    ∧ f && d = false
    ∧ (f || d = true → x = true).
Proof.
  intros E. unfold file_exists, dir_exists, exists_.
  rewrite (run_is_file _ _ _ E), (run_is_dir _ _ _ E),
    (run_path_exist _ _ _ E).
  do 3 eexists. repeat (split; [reflexivity|]).
  by destruct (fs.type info).
Qed.

(** ** Reading without content, and reading what does not fit *)

(** X17: without content, [get] for an explicit type needs nothing but the
    stat: when the entry may be served, has an API path and is of the kind
    the type calls for, [get] returns the model of its metadata; it lists
    nothing and opens no stream. *)
Theorem get_without_content (path : string) (t : string) (format : value)
  (s : FS) (info : fs.FileInfo) (p : string) :
  let hdfs_path :=
    to_fs_path path
      (get_prefix_from_fs_path path (root_dir self) (shared_dir self)) in
  fs.get_file_info s hdfs_path = inr info →
  (negb (allow_hidden self)
   && is_hidden hdfs_path
        (get_prefix_from_hdfs_path hdfs_path (root_dir self)
           (shared_dir self))) = false →
  api_path_of self info = inr p →
  (t = "directory" ∧ fs.type info = fs.Directory)
  ∨ ((t = "notebook" ∨ t = "file") ∧ fs.type info = fs.File) →
  get self path false (VStr t) format s
  = (Return (model_of_info info (VStr t) p), s).
Proof.
  intros hdfs_path E Hh Hp Ht.
  rewrite (run_get self _ _ _ _ _ _ E). fold hdfs_path. rewrite Hh.
  assert (fs.type info ≠ fs.NotFound) as Hfound.
  { destruct Ht as [[_ ->]|[_ ->]]; done. }
  destruct (fs.FileType_eqb (fs.type info) fs.NotFound) eqn:Hnf.
  { by apply FileType_eqb_eq in Hnf. }
  cbn [negb]. unfold build_model. cbn [is_None].
  unfold bind at 1. unfold ret at 1.
  destruct Ht as [[-> Hk]|[[->| ->] Hk]];
    cbn [eq_str String.eqb Ascii.eqb Bool.eqb];
    unfold _dir_model, _notebook_model, _file_model;
    rewrite (bind_Return _ _ _ _ _
               (run_info_and_check_kind path _ _ _ _ E Hk ltac:(done)));
    by rewrite (bind_Return _ _ _ _ _ (run_model_from_info _ _ _ _ Hp)).
Qed.

(** X18: an explicit type that does not fit the entry is refused with a
    400: 'directory' for a backend file, and any other type for a backend
    directory.  The message names the path and ends in [str] of the kind
    that the type calls for. *)
Theorem get_type_mismatch (path : string) (content : bool)
  (type format : value) (s : FS) (info : fs.FileInfo) :
  let hdfs_path :=
    to_fs_path path
      (get_prefix_from_fs_path path (root_dir self) (shared_dir self)) in
  fs.get_file_info s hdfs_path = inr info →
  (negb (allow_hidden self)
   && is_hidden hdfs_path
        (get_prefix_from_hdfs_path hdfs_path (root_dir self)
           (shared_dir self))) = false →
  type ≠ VNone →
  (type = VStr "directory" → fs.type info = fs.File →
     get self path content type format s
     = (Raise (HTTPError 400
          (path ++ " is not a " ++ FileType_str fs.Directory)), s))
  ∧ (type ≠ VStr "directory" → fs.type info = fs.Directory →
     get self path content type format s
     = (Raise (HTTPError 400
          (path ++ " is not a " ++ FileType_str fs.File)), s)).
Proof.
  intros hdfs_path E Hh Hn. split.
  - intros -> Hk. rewrite (run_get self _ _ _ _ _ _ E). fold hdfs_path.
    rewrite Hh, Hk. unfold build_model.
    cbn [fs.FileType_eqb negb is_None]. unfold bind at 1. unfold ret at 1.
    cbn [eq_str String.eqb Ascii.eqb Bool.eqb].
    unfold _dir_model, _info_and_check_kind.
    erewrite bind_Raise; [done|].
    rewrite (bind_Return _ _ _ _ _ (run_stat _ _ _ E)). by rewrite Hk.
  - intros Hd Hk. rewrite (run_get self _ _ _ _ _ _ E). fold hdfs_path.
    rewrite Hh, Hk. unfold build_model. rewrite (is_None_false _ Hn).
    cbn [fs.FileType_eqb negb]. unfold bind at 1. unfold ret at 1.
    rewrite (eq_str_false _ _ Hd).
    destruct (eq_str type "notebook");
      unfold _notebook_model, _file_model, _info_and_check_kind;
      (erewrite bind_Raise; [done|]);
      rewrite (bind_Return _ _ _ _ _ (run_stat _ _ _ E)); by rewrite Hk.
Qed.

(** X19: a notebook that cannot be read is a 400.  When the entry is a
    servable file with an API path and its bytes are not UTF-8, or are text
    that [nbformat] does not parse, [get] with content for type 'notebook'
    fails with 'Unreadable Notebook' and the text of the failure. *)
Theorem get_unreadable_notebook (path : string) (format : value) (s : FS)
  (info : fs.FileInfo) (p : string) (b : bytes) :
  let hdfs_path :=
    to_fs_path path
      (get_prefix_from_fs_path path (root_dir self) (shared_dir self)) in
  fs.get_file_info s hdfs_path = inr info →
  fs.type info = fs.File →
  (negb (allow_hidden self)
   && is_hidden hdfs_path
        (get_prefix_from_hdfs_path hdfs_path (root_dir self)
           (shared_dir self))) = false →
  api_path_of self info = inr p →
  fs.open_input_stream s hdfs_path = inr b →
  get self path true (VStr "notebook") format s
  = match decode_utf8 b with
    | None =>
        (Raise (HTTPError 400
           ("Unreadable Notebook: " ++ path
            ++ String "010" "UnicodeDecodeError")), s)
    | Some text =>
        match nbformat_reads text with
        | inl e =>
            (Raise (HTTPError 400
               ("Unreadable Notebook: " ++ path ++ String "010" e)), s)
        | inr nb =>
            validate_notebook_model
              (<["format" := VStr "json"]>
                 (<["content" := mark_trusted_cells nb path]>
                    (model_of_info info (VStr "notebook") p))) s
        end
    end.
Proof.
  intros hdfs_path E Hk Hh Hp Hb.
  rewrite (run_get self _ _ _ _ _ _ E). fold hdfs_path. rewrite Hh, Hk.
  cbn [fs.FileType_eqb negb]. unfold build_model. cbn [is_None].
  unfold bind at 1. unfold ret at 1.
  cbn [eq_str String.eqb Ascii.eqb Bool.eqb]. unfold _notebook_model.
  rewrite (bind_Return _ _ _ _ _
             (run_info_and_check_kind path _ _ _ _ E Hk ltac:(done))).
  rewrite (bind_Return _ _ _ _ _ (run_model_from_info _ _ _ _ Hp)).
  unfold _read_notebook. unfold bind at 1 2. rewrite run_perm_read, Hb.
  cbv zeta. destruct (decode_utf8 b) as [text|]; [|done].
  by destruct (nbformat_reads text).
Qed.

(** ** Emptiness without a checkpoint directory *)

(** X20: when the checkpoints object has no [checkpoint_dir], nothing is
    set aside: a directory counts as empty exactly when its listing is
    empty. *)
Theorem is_dir_empty_without_checkpoint_dir (path hdfs_path : string)
  (s : FS) (files : list fs.FileInfo) :
  checkpoint_dir self = None →
  fs.get_file_info_selector s hdfs_path false = inr files →
  ∃ empty,
    _is_dir_empty self path hdfs_path s = (Return empty, s)
    ∧ (empty = true ↔ files = []).
Proof.
  intros Hcp El.
  destruct (run_is_dir_empty self path hdfs_path s files El)
    as (empty & Hrun & Hiff).
  exists empty. split; [done|].
  assert (remains self files ↔ files ≠ []) as Hr.
  { unfold remains. rewrite Hcp. split.
    - intros (f & Hf & _) ->. by apply elem_of_nil in Hf.
    - destruct files as [|f files]; [done|]. intros _.
      exists f. split; [by left|done]. }
  destruct empty; split; try done.
  - intros _. destruct files; [done|].
    assert (true = false) by (apply Hiff, Hr; done). done.
  - intros ->. assert (remains self []) as Hrem by by apply Hiff.
    apply Hr in Hrem. done.
Qed.

(** ** Hidden paths and [save] *)

(** X21: a hidden path does not keep a file from being written.  With
    hidden entries not allowed, [save] for a text file at a hidden path
    writes the bytes and only then fails, with the 404 of the read that
    follows. *)
Theorem save_hidden_file_is_written (model : Model) (path text : string)
  (b : bytes) (s s' : FS) (info : fs.FileInfo) :
  let hdfs_path :=
    to_fs_path path
      (get_prefix_from_fs_path path (root_dir self) (shared_dir self)) in
  model !! "type" = Some (VStr "file") →
  model !! "format" = Some (VStr "text") →
  model !! "content" = Some (VStr text) →
  encode_utf8 text = Some b →
  allow_hidden self = false →
  is_hidden hdfs_path
    (get_prefix_from_hdfs_path hdfs_path (root_dir self) (shared_dir self))
  = true →
  fs.open_output_stream hdfs_path b s = (None, s') →
  fs.get_file_info s' hdfs_path = inr info →
  save self model path s
  = (Raise (HTTPError 404 ("No such file or directory: " ++ path)), s').
Proof.
  intros hdfs_path Ht Hf Hc Hb Ha Hh Hw Hstat.
  rewrite (save_file_run self _ _ _ Ht) by (by rewrite Hc).
  fold hdfs_path.
  assert (_save_file path hdfs_path model s = (Return tt, s')) as Hsave.
  { rewrite (run_save_file _ _ _ _ _ _ Hf Hc) by auto.
    cbn [eq_str String.eqb Ascii.eqb Bool.eqb encode]. rewrite Hb.
    unfold bind, try_except, ret. by rewrite run_perm_write, Hw. }
  rewrite (bind_Return _ _ _ _ _ Hsave).
  rewrite (run_get self _ _ _ _ _ _ Hstat). fold hdfs_path.
  rewrite Ha, Hh. by destruct (negb (negb _)).
Qed.

(** X22: a hidden directory is refused before the backend is asked
    anything: with hidden entries not allowed, [save] for a directory model
    at a hidden path fails with a 400 and leaves the state as it is. *)
Theorem save_hidden_directory_refused (model : Model) (path : string)
  (s : FS) :
  let hdfs_path :=
    to_fs_path path
      (get_prefix_from_fs_path path (root_dir self) (shared_dir self)) in
  model !! "type" = Some (VStr "directory") →
  allow_hidden self = false →
  is_hidden hdfs_path
    (get_prefix_from_hdfs_path hdfs_path (root_dir self) (shared_dir self))
  = true →
  save self model path s
  = (Raise (HTTPError 400
       ("Cannot create hidden directory " ++ repr (VStr path))), s).
Proof.
  intros hdfs_path Ht Ha Hh. unfold save. rewrite Ht. fold hdfs_path.
  cbn [eq_str String.eqb Ascii.eqb Bool.eqb negb]. rewrite andb_false_r.
  apply bind_Raise, bind_Raise. unfold _save_directory. by rewrite Ha, Hh.
Qed.

(** X23: with hidden entries not allowed, [save] at a hidden path never
    returns a model, whatever the model is. *)
Theorem save_hidden_never_returns (model : Model) (path : string) (s : FS) :
  let hdfs_path :=
    to_fs_path path
      (get_prefix_from_fs_path path (root_dir self) (shared_dir self)) in
  allow_hidden self = false →
  is_hidden hdfs_path
    (get_prefix_from_hdfs_path hdfs_path (root_dir self) (shared_dir self))
  = true →
  ∃ e, (save self model path s).1 = Raise e.
Proof.
  intros hdfs_path Ha Hh.
  destruct (save self model path s) as [[m|e] s'] eqn:Hrun; [|by eauto].
  apply save_inv in Hrun as (typ & message & m0 & _ & _ & Hget & _).
  apply get_inv in Hget as (_ & info & _ & Hvis & _).
  fold hdfs_path in Hvis. by rewrite Ha, Hh in Hvis.
Qed.

(** ** What [save] writes *)

Lemma perm_write_inv (path : string) (f : FS → option fs.error * FS)
  (s s' : FS) :
  perm_to_403 path (fs_write f) s = (Return tt, s') → f s = (None, s').
Proof.
  rewrite run_perm_write. destruct (f s) as [[[?|?]|] s1]; [done..|].
  by intros [= ->].
Qed.

Lemma save_file_inv (path hdfs_path : string) (model : Model) (s s' : FS) :
  _save_file path hdfs_path model s = (Return tt, s') →
  ∃ text b,
    model !! "content" = Some (VStr text)
    ∧ ((model !! "format" = Some (VStr "text") ∧ encode_utf8 text = Some b)
       ∨ (model !! "format" = Some (VStr "base64")
          ∧ ∃ b64, encode_ascii text = Some b64 ∧ decodebytes b64 = inr b))
    ∧ fs.open_output_stream hdfs_path b s = (None, s').
Proof.
  intros Hrun. unfold _save_file in Hrun.
  apply bind_inv_Return in Hrun as (format & s1 & Hf & Hrun).
  apply getitem_inv in Hf as [Hf ->].
  apply bind_inv_Return in Hrun as (content & s1 & Hc & Hrun).
  apply getitem_inv in Hc as [Hc ->].
  apply bind_inv_Return in Hrun as (known & s1 & Hk & Hrun).
  assert (s1 = s ∧ known = (eq_str format "text" || eq_str format "base64"))
    as [-> ->].
  { destruct format; try done; by injection Hk as <- <-. }
  destruct (eq_str format "text") eqn:Ht.
  - apply eq_str_true in Ht as ->. cbn [orb negb] in Hrun.
    apply bind_inv_Return in Hrun as (b & s1 & Hb & Hw).
    apply perm_write_inv in Hw.
    unfold try_except in Hb.
    destruct content as [| | |text| | |]; try done.
    cbn [encode] in Hb. destruct (encode_utf8 text) as [b'|] eqn:Hb'; [|done].
    injection Hb as <- <-. exists text, b'. by auto.
  - destruct (eq_str format "base64") eqn:H64; [|done].
    apply eq_str_true in H64 as ->. cbn [orb negb] in Hrun.
    apply bind_inv_Return in Hrun as (b & s1 & Hb & Hw).
    apply perm_write_inv in Hw.
    unfold try_except in Hb.
    destruct content as [| | |text| | |]; try done.
    unfold bind in Hb. cbn [encode] in Hb.
    destruct (encode_ascii text) as [b64|] eqn:Hb64; [|done].
    unfold ret in Hb.
    destruct (decodebytes b64) as [e|b'] eqn:Hd; [done|].
    injection Hb as <- <-. exists text, b'.
    split; [done|]. split; [|done]. right. by eauto.
Qed.

Lemma save_notebook_inv (path hdfs_path : string) (model : Model)
  (s s' : FS) (message : value) :
  _save_notebook path hdfs_path model s = (Return message, s') →
  ∃ c b,
    model !! "content" = Some c
    ∧ encode_utf8 (nbformat_writes (nbformat_from_dict c)) = Some b
    ∧ fs.open_output_stream hdfs_path b s = (None, s').
Proof.
  intros Hrun. unfold _save_notebook in Hrun.
  apply bind_inv_Return in Hrun as (c & s1 & Hc & Hrun).
  apply getitem_inv in Hc as [Hc ->]. cbv zeta in Hrun.
  apply bind_inv_Return in Hrun as (b & s1 & Hb & Hrun).
  cbn [encode] in Hb.
  destruct (encode_utf8 _) as [b'|] eqn:Hb'; [|done].
  injection Hb as <- <-.
  apply bind_inv_Return in Hrun as ([] & s1 & Hw & Hrun).
  apply perm_write_inv in Hw.
  apply bind_inv_Return in Hrun as (model' & s2 & Hv & Hrun).
  injection Hrun as _ <-.
  unfold validate_notebook_model in Hv.
  apply bind_inv_Return in Hv as (c' & s3 & Hc' & Hv).
  apply getitem_inv in Hc' as [_ ->].
  assert (s2 = s1) as ->.
  { by destruct (validate_nb c') as [?|[?|]]; injection Hv as _ <-. }
  exists c, b'. by auto.
Qed.

Lemma save_directory_inv (path hdfs_path : string) (s s' : FS) :
  _save_directory self path hdfs_path s = (Return tt, s') →
  s' = s ∨ fs.create_dir hdfs_path s = (None, s').
Proof.
  intros Hrun. unfold _save_directory in Hrun.
  destruct (negb (allow_hidden self) && _); [done|].
  apply bind_inv_Return in Hrun as (found & s1 & Hfound & Hrun).
  unfold exists_, path_exist in Hfound.
  apply bind_inv_Return in Hfound as (info & s2 & Hstat & Hfound).
  apply stat_inv in Hstat as [_ ->]. injection Hfound as _ <-.
  destruct (negb found).
  - right. by apply perm_write_inv in Hrun.
  - left. apply bind_inv_Return in Hrun as (d & s1 & Hd & Hrun).
    unfold is_dir in Hd.
    apply bind_inv_Return in Hd as (info' & s2 & Hstat & Hd).
    apply stat_inv in Hstat as [_ ->]. injection Hd as _ <-.
    destruct (negb d); [done|]. by injection Hrun as <-.
Qed.

(** X24: a [save] that returns has written once.  For a notebook the state
    it leaves is the one after writing the UTF-8 text that [nbformat]
    serialises; for a file the one after writing the encoded text or the
    decoded base64; for a directory the one after creating it, or the
    state it started from. *)
Theorem save_writes_once (model : Model) (path : string) (s s' : FS)
  (m : Model) :
  let hdfs_path :=
    to_fs_path path
      (get_prefix_from_fs_path path (root_dir self) (shared_dir self)) in
  save self model path s = (Return m, s') →
  (model !! "type" = Some (VStr "notebook")
   ∧ ∃ c b,
       model !! "content" = Some c
       ∧ encode_utf8 (nbformat_writes (nbformat_from_dict c)) = Some b
       ∧ fs.open_output_stream hdfs_path b s = (None, s'))
  ∨ (model !! "type" = Some (VStr "file")
     ∧ ∃ text b,
         model !! "content" = Some (VStr text)
         ∧ ((model !! "format" = Some (VStr "text")
             ∧ encode_utf8 text = Some b)
            ∨ (model !! "format" = Some (VStr "base64")
               ∧ ∃ b64, encode_ascii text = Some b64
                        ∧ decodebytes b64 = inr b))
         ∧ fs.open_output_stream hdfs_path b s = (None, s'))
  ∨ (model !! "type" = Some (VStr "directory")
     ∧ (s' = s ∨ fs.create_dir hdfs_path s = (None, s'))).
Proof.
  intros hdfs_path Hrun.
  apply save_inv in Hrun as (typ & message & m0 & Htyp & Hd & _).
  fold hdfs_path in Hd. rewrite Htyp.
  destruct Hd as [[-> Hsave]|[(-> & _ & Hsave)|(-> & _ & Hsave)]].
  - left. split; [done|]. exact (save_notebook_inv _ _ _ _ _ _ Hsave).
  - right. left. split; [done|]. exact (save_file_inv _ _ _ _ _ Hsave).
  - right. right. split; [done|]. exact (save_directory_inv _ _ _ _ Hsave).
Qed.

(** X25: base64 content that is saved is read back in canonical form.
    When [save] returns for a model of type 'file' and format 'base64', and
    the backend then hands back the bytes it was given, [get] with content
    and format 'base64' returns the base64 encoding of the bytes that the
    saved content decodes to. *)
Theorem save_base64_then_get (model : Model) (path text : string)
  (s s' : FS) (m : Model) :
  let hdfs_path :=
    to_fs_path path
      (get_prefix_from_fs_path path (root_dir self) (shared_dir self)) in
  model !! "type" = Some (VStr "file") →
  model !! "format" = Some (VStr "base64") →
  model !! "content" = Some (VStr text) →
  save self model path s = (Return m, s') →
  (∀ b64 b, encode_ascii text = Some b64 → decodebytes b64 = inr b →
            fs.open_input_stream s' hdfs_path = inr b) →
  ∃ m' b64 b,
    encode_ascii text = Some b64
    ∧ decodebytes b64 = inr b
    ∧ get self path true (VStr "file") (VStr "base64") s' = (Return m', s')
    ∧ m' !! "content" = Some (VStr (string_of_list_byte (encodebytes b)))
    ∧ m' !! "format" = Some (VStr "base64")
    ∧ m' !! "type" = Some (VStr "file").
Proof.
  intros hdfs_path Ht Hf Hc Hrun Hback.
  apply save_inv in Hrun as (typ & message & m0 & Htyp & Hd & Hget & _).
  fold hdfs_path in Hd. rewrite Ht in Htyp. injection Htyp as <-.
  destruct Hd as [[[=] _]|[(_ & _ & Hsave)|([=] & _)]].
  apply save_file_inv in Hsave as (text' & b & Hc' & Hfmt & _).
  rewrite Hc in Hc'. injection Hc' as <-.
  destruct Hfmt as [[Hf' _]|(_ & b64 & Hb64 & Hdec)];
    [by rewrite Hf in Hf'|].
  specialize (Hback b64 b Hb64 Hdec).
  apply get_inv in Hget as (_ & info & Hstat & Hh & t & -> & Hbuild).
  fold hdfs_path in Hstat, Hh, Hbuild.
  cbn [eq_str String.eqb Ascii.eqb Bool.eqb] in Hbuild.
  apply file_model_inv in Hbuild as (i & p & Hs & Hk & _ & Hp & _).
  rewrite Hs in Hstat. injection Hstat as <-.
  assert (_read_file path hdfs_path (VStr "base64") s'
          = (Return (string_of_list_byte (encodebytes b), "base64"), s'))
    as Hread.
  { by rewrite (run_read_file path _ _ _ _ _ Hs Hk Hback). }
  assert (∃ m', _file_model self path hdfs_path true (VStr "base64") s'
                = (Return m', s')
                ∧ m' !! "content"
                  = Some (VStr (string_of_list_byte (encodebytes b)))
                ∧ m' !! "format" = Some (VStr "base64")
                ∧ m' !! "type" = Some (VStr "file")) as (m' & Hm' & Hl).
  { unfold _file_model.
    rewrite (bind_Return _ _ _ _ _
               (run_info_and_check_kind path _ _ _ _ Hs Hk
                  ltac:(done))).
    rewrite (bind_Return _ _ _ _ _ (run_model_from_info _ _ _ _ Hp)).
    rewrite (bind_Return _ _ _ _ _ Hread).
    destruct (model_of_info_lookup i "file" p)
      as (_ & _ & Htype & _ & _ & _ & _ & Hmt & _).
    unfold getitem at 1. rewrite Hmt.
    cbn [String.eqb Ascii.eqb Bool.eqb].
    destruct (guess_type p) as [guessed|]; cbn [of_option is_None].
    - eexists. split; [reflexivity|]. by lookups.
    - eexists. split; [reflexivity|]. by lookups. }
  exists m', b64, b. repeat (split; [done|]). split; [|done].
  rewrite (run_get self _ _ _ _ _ _ Hs). fold hdfs_path.
  rewrite Hk, Hh. cbn [fs.FileType_eqb negb].
  unfold build_model. cbn [is_None].
  unfold bind at 1. unfold ret at 1.
  by cbn [eq_str String.eqb Ascii.eqb Bool.eqb].
Qed.

(** ** The type that [get] infers *)

(** X26: when no type is asked for, the type of the model that [get]
    returns is inferred from the HDFS path and the backend: 'notebook' for
    a path that ends in '.ipynb', else 'directory' for a backend directory,
    else 'file'. *)
Theorem get_infers_type (path : string) (content : bool) (format : value)
  (s s' : FS) (m : Model) :
  let hdfs_path :=
    to_fs_path path
      (get_prefix_from_fs_path path (root_dir self) (shared_dir self)) in
  get self path content VNone format s = (Return m, s') →
  ∃ info,
    fs.get_file_info s hdfs_path = inr info
    ∧ m !! "type"
      = Some (VStr (if endswith hdfs_path ".ipynb" then "notebook"
                    else if fs.FileType_eqb (fs.type info) fs.Directory
                         then "directory"
                         else "file")).
Proof.
  intros hdfs_path Hrun.
  apply get_inv in Hrun as (_ & info & Hstat & _ & t & Ht & Hbuild).
  fold hdfs_path in Hstat, Ht, Hbuild.
  exists info. split; [done|].
  cbn [is_None] in Ht. destruct Ht as (i & Hi & ->).
  unfold infer_type in Hi.
  destruct (endswith hdfs_path ".ipynb").
  - injection Hi as <-. cbn [eq_str String.eqb Ascii.eqb Bool.eqb] in Hbuild.
    apply notebook_model_inv in Hbuild as (j & p & _ & _ & _ & _ & Hm).
    cbv zeta in Hm. destruct content.
    + destruct Hm as (b & text & nb & _ & _ & _ & Hm).
      destruct (validate_nb _) as [?|[msg|]]; [done|..]; subst m; lookups;
        apply (model_of_info_lookup j "notebook" p).
    + subst m. apply (model_of_info_lookup j "notebook" p).
  - rewrite (bind_Return _ _ _ _ _ (run_is_dir _ _ _ Hstat)) in Hi.
    destruct (fs.FileType_eqb _ _); injection Hi as <-;
      cbn [eq_str String.eqb Ascii.eqb Bool.eqb] in Hbuild.
    + apply dir_model_inv in Hbuild as (j & p & _ & _ & _ & _ & Hm).
      cbv zeta in Hm. destruct content.
      * destruct Hm as (records & contents & _ & _ & ->). lookups.
        apply (model_of_info_lookup j "directory" p).
      * subst m. apply (model_of_info_lookup j "directory" p).
    + apply file_model_inv in Hbuild as (j & p & _ & _ & _ & _ & Hm).
      cbv zeta in Hm. destruct content.
      * destruct Hm as (c & f & _ & ->). lookups.
        destruct (guess_type p); lookups;
          apply (model_of_info_lookup j "file" p).
      * subst m. apply (model_of_info_lookup j "file" p).
Qed.

(** ** Failures of the backend that are not translated *)

Lemma run_stat_fail (s : FS) (p : string) (err : fs.error) :
  fs.get_file_info s p = inl err →
  fs_read (λ s, fs.get_file_info s p) s = (Raise (fs_exn err), s).
Proof. intros E. unfold fs_read. by rewrite E. Qed.

(** X27: [ensure_root_directory] fails only with what the backend raised,
    as it raised it: the exception is the one of the first of its two
    [create_dir] calls that failed, the state is the one that call left, and
    the shared directory is not tried after a failure on the root. *)
Theorem ensure_root_directory_failure (s : FS) (e : exn) :
  (ensure_root_directory self s).1 = Raise e →
  ∃ err,
    e = fs_exn err
    ∧ (fs.create_dir (root_dir self) s
       = (Some err, (ensure_root_directory self s).2)
       ∨ ∃ s1,
           fs.create_dir (root_dir self) s = (None, s1)
           ∧ fs.create_dir (root_dir self ++ "/shared") s1
             = (Some err, (ensure_root_directory self s).2)).
Proof.
  unfold ensure_root_directory, bind, fs_write.
  destruct (fs.create_dir (root_dir self) s) as [[err|] s1] eqn:Hroot.
  - intros [= <-]. exists err. by auto.
  - destruct (fs.create_dir (root_dir self ++ "/shared") s1)
      as [[err|] s2] eqn:Hshared; [|done].
    intros [= <-]. exists err. split; [done|]. right. by eauto.
Qed.

(** X28: a stat that fails is not translated.  The methods ask for the
    metadata of the path outside [perm_to_403]: when the backend refuses
    that call, [get], [delete_file], [rename_file] onto the path,
    [file_exists], [dir_exists] and [exists] all raise the backend's
    exception as it came, a [PermissionError] included, and change
    nothing. *)
Theorem stat_failure_is_not_translated (path : string) (s : FS)
  (err : fs.error) :
  let hdfs_path :=
    to_fs_path path
      (get_prefix_from_fs_path path (root_dir self) (shared_dir self)) in
  fs.get_file_info s hdfs_path = inl err →
  (∀ content type format,
     get self path content type format s = (Raise (fs_exn err), s))
  ∧ delete_file self path s = (Raise (fs_exn err), s)
  ∧ (∀ old_path, old_path ≠ path →
       rename_file self old_path path s = (Raise (fs_exn err), s))
  ∧ file_exists self path s = (Raise (fs_exn err), s)
  ∧ dir_exists self path s = (Raise (fs_exn err), s)
  ∧ exists_ self path s = (Raise (fs_exn err), s).
Proof.
  intros hdfs_path Hstat.
  pose proof (run_stat_fail _ _ _ Hstat) as Hfail.
  assert (path_exist hdfs_path s = (Raise (fs_exn err), s)) as Hexist.
  { by apply bind_Raise. }
  repeat split.
  - intros content type format. by apply bind_Raise.
  - by apply bind_Raise.
  - intros old_path Hne. unfold rename_file.
    apply String.eqb_neq in Hne. rewrite Hne. by apply bind_Raise.
  - by apply bind_Raise.
  - by apply bind_Raise.
  - done.
Qed.

End Further.

(** ** Further runs on the simulated cluster *)

(** X2 on [home]: the read of [locked] is denied and comes out as 403. *)
Lemma get_error_surface_witness :
  surfaced [400%Z; 403%Z; 404%Z]
    (HTTPError 403 "Permission denied: /locked").
Proof.
  exact (get_error_surface Sim.config "/locked" true VNone VNone Sim.home
           _ _ eq_refl eq_refl).
Defined.

(** X3 on [home]: [a.txt] with content. *)
Lemma get_content_as_requested_witness :
  let m := Sim.got "/a.txt" true VNone VNone in
  (m !! "type" = Some (VStr "directory")
   ∧ m !! "format" = Some (VStr "json")
   ∧ ∃ l, m !! "content" = Some (VList l))
  ∨ (m !! "type" = Some (VStr "notebook")
     ∧ m !! "format" = Some (VStr "json")
     ∧ is_Some (m !! "content"))
  ∨ (m !! "type" = Some (VStr "file")
     ∧ (m !! "format" = Some (VStr "text")
        ∨ m !! "format" = Some (VStr "base64"))
     ∧ ∃ c, m !! "content" = Some (VStr c)).
Proof.
  assert (get Sim.config "/a.txt" true VNone VNone Sim.home
          = (Return (Sim.got "/a.txt" true VNone VNone), Sim.home)) as Hget
    by (vm_compute; reflexivity).
  exact (get_content_as_requested Sim.config _ _ _ _ _ _ _ Hget).
Defined.

(** X4 on [home]: [proj] is a directory on both sides. *)
Lemma get_type_matches_backend_witness :
  let m := Sim.got "/proj" false VNone VNone in
  ∃ info,
    fs.get_file_info Sim.home "/user/u/notebooks/proj" = inr info
    ∧ ((m !! "type" = Some (VStr "directory")
        ∧ fs.type info = fs.Directory)
       ∨ ((m !! "type" = Some (VStr "notebook")
           ∨ m !! "type" = Some (VStr "file"))
          ∧ fs.type info = fs.File)).
Proof.
  assert (get Sim.config "/proj" false VNone VNone Sim.home
          = (Return (Sim.got "/proj" false VNone VNone), Sim.home)) as Hget
    by (vm_compute; reflexivity).
  exact (get_type_matches_backend Sim.config _ _ _ _ _ _ _ Hget).
Defined.

(** X5 on [home]: the size of [a.txt] is the backend's. *)
Lemma get_size_and_mimetype_witness :
  Sim.got "/a.txt" false VNone VNone !! "size" = Some (VInt 2).
Proof.
  assert (get Sim.config "/a.txt" false VNone VNone Sim.home
          = (Return (Sim.got "/a.txt" false VNone VNone), Sim.home)) as Hget
    by (vm_compute; reflexivity).
  destruct (get_size_and_mimetype Sim.config _ _ _ _ _ _ _ Hget)
    as (info & Hinfo & _ & _ & _ & Hfile).
  injection Hinfo as <-. exact (Hfile eq_refl).
Defined.

(** X6 on [home]: [blob] has no guessed mimetype and is read as base64. *)
Lemma get_file_mimetype_witness :
  let m := Sim.got "/blob" true VNone VNone in
  ∃ p,
    m !! "path" = Some (VStr p)
    ∧ match guess_type p with
      | Some guessed => m !! "mimetype" = Some (VStr guessed)
      | None =>
          (m !! "format" = Some VNone ∧ m !! "mimetype" = Some VNone)
          ∨ (m !! "format" = Some (VStr "text")
             ∧ m !! "mimetype" = Some (VStr "text/plain"))
          ∨ (m !! "format" = Some (VStr "base64")
             ∧ m !! "mimetype" = Some (VStr "application/octet-stream"))
      end.
Proof.
  assert (get Sim.config "/blob" true VNone VNone Sim.home
          = (Return (Sim.got "/blob" true VNone VNone), Sim.home)) as Hget
    by (vm_compute; reflexivity).
  exact (get_file_mimetype Sim.config _ _ _ _ _ _ _ Hget eq_refl).
Defined.

(** X7 on [home]: the listing of [proj] leaves out its checkpoint
    directory, whose name starts with a dot. *)
Lemma dir_model_listing_witness :
  let m :=
    Sim.model_of
      (_dir_model Sim.config "/proj" "/user/u/notebooks/proj" true Sim.home)
  in
  ∃ records contents,
    fs.get_file_info_selector Sim.home "/user/u/notebooks/proj" false
    = inr records
    ∧ Forall2 (λ i c, ∃ q, api_path_of Sim.config i = inr q
                           ∧ c = model_of_info i VNone q) records contents
    ∧ m !! "content"
      = Some (VList (map VDict (List.filter listable contents)))
    ∧ (∀ c, c ∈ contents →
         (c ∈ List.filter listable contents
          ↔ ∃ n, c !! "name" = Some (VStr n) ∧ should_list n = true
                 ∧ startswith n "." = false))
    ∧ (∀ c, c ∈ contents →
         c !! "content" = Some VNone ∧ c !! "format" = Some VNone).
Proof.
  assert (_dir_model Sim.config "/proj" "/user/u/notebooks/proj" true
            Sim.home
          = (Return
               (Sim.model_of
                  (_dir_model Sim.config "/proj" "/user/u/notebooks/proj"
                     true Sim.home)), Sim.home)) as Hrun
    by (vm_compute; reflexivity).
  exact (dir_model_listing Sim.config _ _ _ _ _ Hrun).
Defined.

(** X8 on [home]: the name of [full/x.txt]. *)
Lemma get_name_is_last_segment_witness :
  let m := Sim.got "/full/x.txt" false VNone VNone in
  ∃ info p n,
    fs.get_file_info Sim.home "/user/u/notebooks/full/x.txt" = inr info
    ∧ api_path_of Sim.config info = inr p
    ∧ m !! "path" = Some (VStr p)
    ∧ m !! "name" = Some (VStr n)
    ∧ contains_slash n = false
    ∧ (p = n ∨ ∃ q, p = q ++ "/" ++ n).
Proof.
  assert (get Sim.config "/full/x.txt" false VNone VNone Sim.home
          = (Return (Sim.got "/full/x.txt" false VNone VNone), Sim.home))
    as Hget by (vm_compute; reflexivity).
  exact (get_name_is_last_segment Sim.config _ _ _ _ _ _ _ Hget).
Defined.

(** X9 on [home]: what saving a text file returns. *)
Lemma save_returns_model_without_content_witness :
  let m := Sim.model_of (save Sim.config Sim.hi_model "/n.txt" Sim.home) in
  m !! "content" = Some VNone
  ∧ m !! "format" = Some VNone
  ∧ m !! "type" = Sim.hi_model !! "type"
  ∧ (m !! "type" = Some (VStr "notebook")
     ∨ m !! "type" = Some (VStr "file")
     ∨ m !! "type" = Some (VStr "directory")).
Proof.
  assert (save Sim.config Sim.hi_model "/n.txt" Sim.home
          = (Return (Sim.model_of
                       (save Sim.config Sim.hi_model "/n.txt" Sim.home)),
             (save Sim.config Sim.hi_model "/n.txt" Sim.home).2)) as Hrun
    by (vm_compute; reflexivity).
  exact (save_returns_model_without_content Sim.config _ _ _ _ _ Hrun).
Defined.

(** X10 on [home]: 'hi' saved as text and read back. *)
Lemma save_text_then_get_witness :
  let s1 := (save Sim.config Sim.hi_model "/n.txt" Sim.home).2 in
  ∃ m',
    get Sim.config "/n.txt" true (VStr "file") VNone s1 = (Return m', s1)
    ∧ m' !! "content" = Some (VStr "hi")
    ∧ m' !! "format" = Some (VStr "text")
    ∧ m' !! "type" = Some (VStr "file").
Proof.
  assert (save Sim.config Sim.hi_model "/n.txt" Sim.home
          = (Return (Sim.model_of
                       (save Sim.config Sim.hi_model "/n.txt" Sim.home)),
             (save Sim.config Sim.hi_model "/n.txt" Sim.home).2)) as Hrun
    by (vm_compute; reflexivity).
  refine (save_text_then_get Sim.config Sim.hi_model "/n.txt" "hi" VNone
            _ _ _ eq_refl eq_refl eq_refl Hrun _ (or_introl eq_refl)).
  intros b [= <-]. vm_compute. reflexivity.
Defined.

(** X11 on [home]: a file model without its format. *)
Lemma save_file_without_format_witness :
  save Sim.config Sim.no_format_model "/x" Sim.home
  = (Raise (KeyError "format"), Sim.home).
Proof.
  exact (save_file_without_format Sim.config Sim.no_format_model "/x"
           Sim.home eq_refl (ex_intro _ (VStr "x") eq_refl) eq_refl).
Defined.

(** X12 on [home]: null content for format 'text'. *)
Lemma save_file_content_not_a_string_witness :
  _save_file "/x" "/user/u/notebooks/x"
    (<["format" := VStr "text"]> (<["content" := VNone]> ∅)) Sim.home
  = (Raise (HTTPError 400 "Encoding error saving /x: AttributeError"),
     Sim.home).
Proof.
  exact (save_file_content_not_a_string "/x" "/user/u/notebooks/x"
           (<["format" := VStr "text"]> (<["content" := VNone]> ∅))
           (VStr "text") VNone Sim.home eq_refl eq_refl (or_introl eq_refl)
           ltac:(discriminate)).
Defined.

(** X13 on [home]: a valid notebook is saved without a message. *)
Lemma save_notebook_message_witness :
  Sim.model_of (save Sim.config Sim.nb_model "/n.ipynb" Sim.home)
    !! "message" = None.
Proof.
  assert (save Sim.config Sim.nb_model "/n.ipynb" Sim.home
          = (Return (Sim.model_of
                       (save Sim.config Sim.nb_model "/n.ipynb" Sim.home)),
             (save Sim.config Sim.nb_model "/n.ipynb" Sim.home).2)) as Hrun
    by (vm_compute; reflexivity).
  exact (save_notebook_message Sim.config Sim.nb_model "/n.ipynb" (VStr "{}")
           _ _ _ eq_refl eq_refl Hrun).
Defined.

(** X14 on [home]: a rename onto [blob], which exists. *)
Lemma rename_file_raises_http_witness :
  http_only [409%Z; 403%Z; 500%Z]
    (HTTPError 409 "File already exists: /blob").
Proof.
  exact (rename_file_raises_http Sim.config "/a.txt" "/blob" Sim.home
           _ _ eq_refl eq_refl).
Defined.

(** X15 on [home]: deleting [full], which holds a file. *)
Lemma delete_file_error_surface_witness :
  http_only [404%Z; 400%Z; 403%Z]
    (HTTPError 400 "Directory /full not empty")
  ∨ ∃ msg, HTTPError 400 "Directory /full not empty" = OSError msg.
Proof.
  exact (delete_file_error_surface Sim.config "/full" Sim.home
           _ _ eq_refl eq_refl).
Defined.

(** X16 on [home]: the three tests on [a.txt]. *)
Lemma exists_tests_agree_witness :
  ∃ f d x,
    file_exists Sim.config "/a.txt" Sim.home = (Return f, Sim.home)
    ∧ dir_exists Sim.config "/a.txt" Sim.home = (Return d, Sim.home)
    ∧ exists_ Sim.config "/a.txt" Sim.home = (Return x, Sim.home)
    ∧ (f = true ↔ fs.type Sim.a_txt_info = fs.File)
    ∧ (d = true ↔ fs.type Sim.a_txt_info = fs.Directory)
    ∧ (x = true ↔ fs.type Sim.a_txt_info ≠ fs.NotFound)
    ∧ f && d = false
    ∧ (f || d = true → x = true).
Proof.
  exact (exists_tests_agree Sim.config "/a.txt" Sim.home Sim.a_txt_info
           eq_refl).
Defined.

(** X17 on [home]: [proj] without content. *)
Lemma get_without_content_witness :
  get Sim.config "/proj" false (VStr "directory") VNone Sim.home
  = (Return
       (model_of_info
          (fs.mkFileInfo "/user/u/notebooks/proj" fs.Directory None
             (Some 4%Z))
          (VStr "directory") "/proj"), Sim.home).
Proof.
  exact (get_without_content Sim.config "/proj" "directory" VNone Sim.home
           _ "/proj" eq_refl eq_refl eq_refl
           (or_introl (conj eq_refl eq_refl))).
Defined.

(** X18 on [home]: [a.txt] asked for as a directory. *)
Lemma get_type_mismatch_witness :
  get Sim.config "/a.txt" true (VStr "directory") VNone Sim.home
  = (Raise (HTTPError 400 "/a.txt is not a 3"), Sim.home).
Proof.
  exact (proj1 (get_type_mismatch Sim.config "/a.txt" true (VStr "directory")
                  VNone Sim.home Sim.a_txt_info eq_refl eq_refl
                  ltac:(discriminate)) eq_refl eq_refl).
Defined.

(** X19 on [home]: [blob] asked for as a notebook. *)
Lemma get_unreadable_notebook_witness :
  get Sim.config "/blob" true (VStr "notebook") VNone Sim.home
  = (Raise (HTTPError 400
       ("Unreadable Notebook: /blob" ++ String "010" "UnicodeDecodeError")),
     Sim.home).
Proof.
  exact (get_unreadable_notebook Sim.config "/blob" VNone Sim.home
           _ "/blob" ["255"%byte; "254"%byte]
           eq_refl eq_refl eq_refl eq_refl eq_refl).
Defined.

(** X20 on [home]: without a checkpoint directory, [proj] is not empty. *)
Lemma is_dir_empty_without_checkpoint_dir_witness :
  ∃ empty,
    _is_dir_empty Sim.no_checkpoints "/proj" "/user/u/notebooks/proj"
      Sim.home = (Return empty, Sim.home)
    ∧ (empty = true ↔ [Sim.checkpoints_info] = []).
Proof.
  exact (is_dir_empty_without_checkpoint_dir Sim.no_checkpoints "/proj"
           "/user/u/notebooks/proj" Sim.home [Sim.checkpoints_info]
           eq_refl eq_refl).
Defined.

(** X21 on [home]: 'hi' saved at [.secret] is written, and [save] fails. *)
Lemma save_hidden_file_is_written_witness :
  save Sim.config Sim.hi_model "/.secret" Sim.home
  = (Raise (HTTPError 404 "No such file or directory: /.secret"),
     (fs.open_output_stream "/user/u/notebooks/.secret"
        (list_byte_of_string "hi") Sim.home).2).
Proof.
  assert (fs.open_output_stream "/user/u/notebooks/.secret"
            (list_byte_of_string "hi") Sim.home
          = (None,
             (fs.open_output_stream "/user/u/notebooks/.secret"
                (list_byte_of_string "hi") Sim.home).2)) as Hw
    by (vm_compute; reflexivity).
  exact (save_hidden_file_is_written Sim.config Sim.hi_model "/.secret" "hi"
           (list_byte_of_string "hi") Sim.home _ _
           eq_refl eq_refl eq_refl eq_refl eq_refl eq_refl Hw eq_refl).
Defined.

(** X22 on [home]: a directory at [.d]. *)
Lemma save_hidden_directory_refused_witness :
  save Sim.config (<["type" := VStr "directory"]> ∅) "/.d" Sim.home
  = (Raise (HTTPError 400 "Cannot create hidden directory '/.d'"),
     Sim.home).
Proof.
  exact (save_hidden_directory_refused Sim.config
           (<["type" := VStr "directory"]> ∅) "/.d" Sim.home
           eq_refl eq_refl eq_refl).
Defined.

(** X23 on [home]: a notebook at [.n.ipynb]. *)
Lemma save_hidden_never_returns_witness :
  ∃ e, (save Sim.config Sim.nb_model "/.n.ipynb" Sim.home).1 = Raise e.
Proof.
  exact (save_hidden_never_returns Sim.config Sim.nb_model "/.n.ipynb"
           Sim.home eq_refl eq_refl).
Defined.

(** X24 on [home]: saving 'hi' at [n.txt] is one write. *)
Lemma save_writes_once_witness :
  ∃ b,
    fs.open_output_stream "/user/u/notebooks/n.txt" b Sim.home
    = (None, (save Sim.config Sim.hi_model "/n.txt" Sim.home).2).
Proof.
  assert (save Sim.config Sim.hi_model "/n.txt" Sim.home
          = (Return (Sim.model_of
                       (save Sim.config Sim.hi_model "/n.txt" Sim.home)),
             (save Sim.config Sim.hi_model "/n.txt" Sim.home).2)) as Hrun
    by (vm_compute; reflexivity).
  destruct (save_writes_once Sim.config _ _ _ _ _ Hrun)
    as [[Ht _]|[(_ & text & b & _ & _ & Hw)|[Ht _]]].
  - vm_compute in Ht. discriminate Ht.
  - exists b. exact Hw.
  - vm_compute in Ht. discriminate Ht.
Defined.

(** X25 on [home]: 'aGk=' is read back with the newline that ends an
    encoded line. *)
Lemma save_base64_then_get_witness :
  let s1 := (save Sim.config Sim.b64_model "/b.bin" Sim.home).2 in
  ∃ m' b64 b,
    encode_ascii "aGk=" = Some b64
    ∧ decodebytes b64 = inr b
    ∧ get Sim.config "/b.bin" true (VStr "file") (VStr "base64") s1
      = (Return m', s1)
    ∧ m' !! "content" = Some (VStr (string_of_list_byte (encodebytes b)))
    ∧ m' !! "format" = Some (VStr "base64")
    ∧ m' !! "type" = Some (VStr "file").
Proof.
  assert (save Sim.config Sim.b64_model "/b.bin" Sim.home
          = (Return (Sim.model_of
                       (save Sim.config Sim.b64_model "/b.bin" Sim.home)),
             (save Sim.config Sim.b64_model "/b.bin" Sim.home).2)) as Hrun
    by (vm_compute; reflexivity).
  refine (save_base64_then_get Sim.config Sim.b64_model "/b.bin" "aGk="
            _ _ _ eq_refl eq_refl eq_refl Hrun _).
  intros b64 b Hb Hd. vm_compute in Hb. injection Hb as <-.
  vm_compute in Hd. injection Hd as <-. vm_compute. reflexivity.
Defined.

(** X26 on [home]: [a.txt] without a type is a file. *)
Lemma get_infers_type_witness :
  ∃ info,
    fs.get_file_info Sim.home "/user/u/notebooks/a.txt" = inr info
    ∧ Sim.got "/a.txt" false VNone VNone !! "type"
      = Some (VStr (if fs.FileType_eqb (fs.type info) fs.Directory
                    then "directory" else "file")).
Proof.
  assert (get Sim.config "/a.txt" false VNone VNone Sim.home
          = (Return (Sim.got "/a.txt" false VNone VNone), Sim.home)) as Hget
    by (vm_compute; reflexivity).
  exact (get_infers_type Sim.config _ _ _ _ _ _ Hget).
Defined.

(** X27 on a cluster that cannot be reached. *)
Lemma ensure_root_directory_failure_witness :
  ∃ err,
    OSError "Connection refused" = fs_exn err
    ∧ (fs.create_dir "/user/u/notebooks" tt = (Some err, tt)
       ∨ ∃ s1,
           fs.create_dir "/user/u/notebooks" tt = (None, s1)
           ∧ fs.create_dir "/user/u/notebooks/shared" s1 = (Some err, tt)).
Proof.
  exact (ensure_root_directory_failure Sim.config tt _ eq_refl).
Defined.

(** X28 on a cluster that cannot be reached. *)
Lemma stat_failure_is_not_translated_witness :
  (∀ content type format,
     get Sim.config "/a.txt" content type format tt
     = (Raise (OSError "Connection refused"), tt))
  ∧ delete_file Sim.config "/a.txt" tt
    = (Raise (OSError "Connection refused"), tt)
  ∧ (∀ old_path, old_path ≠ "/a.txt" →
       rename_file Sim.config old_path "/a.txt" tt
       = (Raise (OSError "Connection refused"), tt))
  ∧ file_exists Sim.config "/a.txt" tt
    = (Raise (OSError "Connection refused"), tt)
  ∧ dir_exists Sim.config "/a.txt" tt
    = (Raise (OSError "Connection refused"), tt)
  ∧ exists_ Sim.config "/a.txt" tt
    = (Raise (OSError "Connection refused"), tt).
Proof.
  exact (stat_failure_is_not_translated Sim.config "/a.txt" tt
           Offline.refused eq_refl).
Defined.
